(** * EVF email verifier: a shallow embedding of the verification engine

    This development embeds [backend/email_verifier.py] (class
    [EmailVerifier]) and [backend/job_manager.py] (class [JobManager]) and
    checks the properties the specification states about them.

    Conventions of the embedding:
    - Python [int] is [Z]; wall-clock readings and latencies ([float]) are
      rationals [Q], compared exactly (binary rounding is not modelled);
    - Python [str] is [string], the UTF-8 encoding of the text: [len] and
      [strip] go by characters, not bytes; only the ASCII letters are
      case-folded;
    - a result [dict] is a record; a key that the code adds on some paths
      only is an [option] field ([None] = key absent), a key that the code
      initialises to [None] is an [option] field too and the comment at the
      field says which of the two it is;
    - everything the code learns from the outside (DNS, sockets, SMTP
      dialogues, HTTP, WHOIS, the resolver configuration of the host, the
      override table of the module, clocks, random numbers) comes from a
      [World] oracle; every request is appended to an event log;
    - Python exceptions are values of type [exn]; [try]/[except] is
      [try_except]. *)

From Stdlib Require Import ZArith QArith Qround String Ascii List Lia.
From stdpp Require Import base option list gmap strings pretty.

Open Scope Z_scope.
Open Scope string_scope.

(** ** Python strings *)

Module PyStr.

Definition is_upper (c : ascii) : bool :=
  let n := nat_of_ascii c in (65 <=? n)%nat && (n <=? 90)%nat.

Definition is_lower (c : ascii) : bool :=
  let n := nat_of_ascii c in (97 <=? n)%nat && (n <=? 122)%nat.

Definition is_digit (c : ascii) : bool :=
  let n := nat_of_ascii c in (48 <=? n)%nat && (n <=? 57)%nat.

Definition is_alpha (c : ascii) : bool := is_upper c || is_lower c.

(** The ASCII white space: U+0009 to U+000D, U+001C to U+001F and the
    space. *)
Definition is_space (c : ascii) : bool :=
  let n := nat_of_ascii c in
  (n =? 32)%nat || ((9 <=? n)%nat && (n <=? 13)%nat) ||
  ((28 <=? n)%nat && (n <=? 31)%nat).

(** A byte [10xxxxxx] goes on with the character that a byte before it
    started. *)
Definition is_continuation (c : ascii) : bool :=
  let n := nat_of_ascii c in (128 <=? n)%nat && (n <? 192)%nat.

(** The characters of a string: each byte that starts a character, with
    the continuation bytes that follow it. *)
Fixpoint chars (s : string) : list string :=
  match s with
  | EmptyString => []
  | String c s' =>
      match chars s' with
      | next :: rest =>
          match next with
          | String c' _ =>
              if is_continuation c' then String c next :: rest
              else String c EmptyString :: next :: rest
          | EmptyString => String c EmptyString :: rest
          end
      | [] => [String c EmptyString]
      end
  end.

(** [len(s)]: the number of characters. *)
Definition len (s : string) : nat := length (chars s).

Definition bytes (ns : list nat) : string :=
  string_of_list_ascii (map ascii_of_nat ns).

(** The white space outside ASCII ([str.isspace]): U+0085, U+00A0,
    U+1680, U+2000 to U+200A, U+2028, U+2029, U+202F, U+205F, U+3000. *)
Definition unicode_spaces : list string :=
  [ bytes [194; 133]; bytes [194; 160]; bytes [225; 154; 128];
    bytes [226; 128; 128]; bytes [226; 128; 129]; bytes [226; 128; 130];
    bytes [226; 128; 131]; bytes [226; 128; 132]; bytes [226; 128; 133];
    bytes [226; 128; 134]; bytes [226; 128; 135]; bytes [226; 128; 136];
    bytes [226; 128; 137]; bytes [226; 128; 138]; bytes [226; 128; 168];
    bytes [226; 128; 169]; bytes [226; 128; 175]; bytes [226; 129; 159];
    bytes [227; 128; 128] ]%nat.

(** The characters [str.strip()] removes. *)
Definition is_space_char (ch : string) : bool :=
  match ch with
  | String c EmptyString => is_space c
  | _ => existsb (String.eqb ch) unicode_spaces
  end.

Definition lower_ascii (c : ascii) : ascii :=
  if is_upper c then ascii_of_nat (nat_of_ascii c + 32) else c.

(** [s.lower()] *)
Fixpoint lower (s : string) : string :=
  match s with
  | EmptyString => EmptyString
  | String c s' => String (lower_ascii c) (lower s')
  end.

(** [s.startswith(p)] *)
Definition startswith (s p : string) : bool := String.prefix p s.

(** [sub in s] *)
Fixpoint contains (sub s : string) : bool :=
  String.prefix sub s ||
  match s with
  | EmptyString => false
  | String _ s' => contains sub s'
  end.

(** [s.endswith(p)] *)
Fixpoint endswith (s p : string) : bool :=
  String.eqb s p ||
  match s with
  | EmptyString => false
  | String _ s' => endswith s' p
  end.

Fixpoint rev_acc (s acc : string) : string :=
  match s with
  | EmptyString => acc
  | String c s' => rev_acc s' (String c acc)
  end.

Definition rev (s : string) : string := rev_acc s EmptyString.

Fixpoint lstrip_by (p : ascii -> bool) (s : string) : string :=
  match s with
  | EmptyString => EmptyString
  | String c s' => if p c then lstrip_by p s' else s
  end.

Definition rstrip_by (p : ascii -> bool) (s : string) : string :=
  rev (lstrip_by p (rev s)).

(** [s.rstrip('.')] *)
Definition rstrip_dot (s : string) : string :=
  rstrip_by (fun c => Ascii.eqb c ".") s.

Fixpoint concat (chs : list string) : string :=
  match chs with
  | [] => EmptyString
  | ch :: rest => ch ++ concat rest
  end.

(** The characters from the first one that is not white space. *)
Fixpoint drop_spaces (chs : list string) : list string :=
  match chs with
  | [] => []
  | ch :: rest => if is_space_char ch then drop_spaces rest else chs
  end.

(** [s.strip()] *)
Definition strip (s : string) : string :=
  concat (reverse (drop_spaces (reverse (drop_spaces (chars s))))).

(** [s.split(sep, 1)] for a one-character separator: the text before the
    first separator and the text after it; [None] when [s] has no
    separator (Python then returns a one-element list). *)
Fixpoint split_once (sep : ascii) (s : string) : option (string * string) :=
  match s with
  | EmptyString => None
  | String c s' =>
      if Ascii.eqb c sep then Some (EmptyString, s')
      else match split_once sep s' with
           | Some (a, b) => Some (String c a, b)
           | None => None
           end
  end.

(** [s.split('.')] *)
Fixpoint split_all (sep : ascii) (s : string) : list string :=
  match s with
  | EmptyString => [EmptyString]
  | String c s' =>
      if Ascii.eqb c sep then EmptyString :: split_all sep s'
      else match split_all sep s' with
           | [] => [String c EmptyString]
           | w :: ws => String c w :: ws
           end
  end.

(** [sep.join(ws)] *)
Fixpoint join (sep : string) (ws : list string) : string :=
  match ws with
  | [] => EmptyString
  | [w] => w
  | w :: ws' => w ++ sep ++ join sep ws'
  end.

(** [str(n)] for an [int]. *)
Definition of_Z (n : Z) : string := pretty n.

(** Truth value of a string: only [''] is false. *)
Definition truthy (s : string) : bool := negb (String.eqb s EmptyString).

(** Truth value of an optional string ([None] or [str]). *)
Definition truthy_opt (o : option string) : bool :=
  match o with
  | Some s => truthy s
  | None => false
  end.

End PyStr.

(** ** Regular expressions, as far as [_check_syntax] uses them *)

Module Re.

Inductive regex : Type :=
| Void
| Eps
| Class (p : ascii -> bool)
| Seq (r1 r2 : regex)
| Alt (r1 r2 : regex)
| Star (r : regex).

(** [r+] and [r{2,}] *)
Definition Plus (r : regex) : regex := Seq r (Star r).
Definition AtLeast2 (r : regex) : regex := Seq r (Seq r (Star r)).
Definition Lit (c : ascii) : regex := Class (Ascii.eqb c).

Fixpoint nullable (r : regex) : bool :=
  match r with
  | Void => false
  | Eps => true
  | Class _ => false
  | Seq r1 r2 => nullable r1 && nullable r2
  | Alt r1 r2 => nullable r1 || nullable r2
  | Star _ => true
  end.

(** Brzozowski derivative of [r] by the character [c]. *)
Fixpoint deriv (c : ascii) (r : regex) : regex :=
  match r with
  | Void => Void
  | Eps => Void
  | Class p => if p c then Eps else Void
  | Seq r1 r2 =>
      if nullable r1 then Alt (Seq (deriv c r1) r2) (deriv c r2)
      else Seq (deriv c r1) r2
  | Alt r1 r2 => Alt (deriv c r1) (deriv c r2)
  | Star r1 => Seq (deriv c r1) (Star r1)
  end.

(** The whole of [s] is in the language of [r]. *)
Fixpoint fullmatch (r : regex) (s : string) : bool :=
  match s with
  | EmptyString => nullable r
  | String c s' => fullmatch (deriv c r) s'
  end.

Definition newline : ascii := ascii_of_nat 10.

(** [re.match('^' + r + '$', s)] is not [None]. Without [re.MULTILINE],
    [^] is the start of the string and [$] is its end or the position
    just before a newline that ends the string. *)
Definition match_anchored (r : regex) (s : string) : bool :=
  fullmatch (Seq r (Alt Eps (Lit newline))) s.

End Re.

(** ** The syntax check *)

Record syntax_result := {
  sx_valid : bool;
  sx_points : Z;
  sx_reason : string
}.

(** [[a-zA-Z0-9._%+-]] *)
Definition local_class (c : ascii) : bool :=
  PyStr.is_alpha c || PyStr.is_digit c ||
  Ascii.eqb c "." || Ascii.eqb c "_" || Ascii.eqb c "%" ||
  Ascii.eqb c "+" || Ascii.eqb c "-".

(** [[a-zA-Z0-9.-]] *)
Definition domain_class (c : ascii) : bool :=
  PyStr.is_alpha c || PyStr.is_digit c || Ascii.eqb c "." || Ascii.eqb c "-".

(** [^[a-zA-Z0-9._%+-]+@[a-zA-Z0-9.-]+\.[a-zA-Z]{2,}$] without the
    anchors. *)
Definition syntax_pattern : Re.regex :=
  Re.Seq (Re.Plus (Re.Class local_class))
    (Re.Seq (Re.Lit "@")
       (Re.Seq (Re.Plus (Re.Class domain_class))
          (Re.Seq (Re.Lit ".") (Re.AtLeast2 (Re.Class PyStr.is_alpha))))).

Definition _check_syntax (email : string) : syntax_result :=
  let valid := Re.match_anchored syntax_pattern email in
  {| sx_valid := valid;
     sx_points := if valid then 10 else 0;
     sx_reason := if valid then "Valid syntax" else "Invalid syntax" |}.

(** ** The job registry ([backend/job_manager.py]) *)

Module JobManager.

(** One entry of [self._jobs]. [None] in an [option] field is Python's
    [None]; every key is always present. *)
Record job := {
  id : string;
  type : string;
  status : string;
  total_rows : Z;
  processed_rows : Z;
  success_rows : Z;
  error_rows : Z;
  created_at : Q;
  started_at : option Q;
  finished_at : option Q;
  message : option string;
  output_path : option string;
  output_filename : option string;
  errors : list string;
  metadata : gmap string string
}.

(** [l[-n:]] for [n > 0]. *)
Definition last_n {A} (n : nat) (l : list A) : list A :=
  drop (length l - n) l.

(** The registry is the dictionary [self._jobs]; the lock makes every
    method one atomic step, so a method is a function on the registry.
    [uuid.uuid4()] and [time.time()] are read from the caller. *)
Definition create_job (uuid : string) (now : Q) (job_type : string)
    (rows : Z) (meta : option (gmap string string))
    (jobs : gmap string job) : string * gmap string job :=
  let j := {| id := uuid; type := job_type; status := "pending";
              total_rows := rows; processed_rows := 0;
              success_rows := 0; error_rows := 0;
              created_at := now; started_at := None;
              finished_at := None; message := None;
              output_path := None; output_filename := None;
              errors := [];
              metadata := default ∅ meta |} in
  (uuid, <[uuid := j]> jobs).

Definition start_job (now : Q) (job_id : string)
    (jobs : gmap string job) : gmap string job :=
  match jobs !! job_id with
  | None => jobs
  | Some j =>
      <[job_id := {| id := id j; type := type j; status := "running";
                     total_rows := total_rows j;
                     processed_rows := processed_rows j;
                     success_rows := success_rows j;
                     error_rows := error_rows j;
                     created_at := created_at j;
                     started_at := Some now;
                     finished_at := finished_at j;
                     message := message j;
                     output_path := output_path j;
                     output_filename := output_filename j;
                     errors := errors j;
                     metadata := metadata j |}]> jobs
  end.

Definition increment (job_id : string) (success : bool)
    (msg error_detail : option string)
    (jobs : gmap string job) : gmap string job :=
  match jobs !! job_id with
  | None => jobs
  | Some j =>
      let errors' :=
        if success then errors j
        else if PyStr.truthy_opt error_detail
             then last_n 10 (errors j ++ [default EmptyString error_detail])
             else errors j in
      <[job_id := {| id := id j; type := type j; status := status j;
                     total_rows := total_rows j;
                     processed_rows := processed_rows j + 1;
                     success_rows :=
                       if success then success_rows j + 1
                       else success_rows j;
                     error_rows :=
                       if success then error_rows j else error_rows j + 1;
                     created_at := created_at j;
                     started_at := started_at j;
                     finished_at := finished_at j;
                     message :=
                       if PyStr.truthy_opt msg then msg else message j;
                     output_path := output_path j;
                     output_filename := output_filename j;
                     errors := errors';
                     metadata := metadata j |}]> jobs
  end.

Definition complete_job (now : Q) (job_id path filename : string)
    (jobs : gmap string job) : gmap string job :=
  match jobs !! job_id with
  | None => jobs
  | Some j =>
      <[job_id := {| id := id j; type := type j; status := "completed";
                     total_rows := total_rows j;
                     processed_rows := processed_rows j;
                     success_rows := success_rows j;
                     error_rows := error_rows j;
                     created_at := created_at j;
                     started_at := started_at j;
                     finished_at := Some now;
                     message := message j;
                     output_path := Some path;
                     output_filename := Some filename;
                     errors := errors j;
                     metadata := metadata j |}]> jobs
  end.

Definition fail_job (now : Q) (job_id error_detail : string)
    (jobs : gmap string job) : gmap string job :=
  match jobs !! job_id with
  | None => jobs
  | Some j =>
      <[job_id := {| id := id j; type := type j; status := "failed";
                     total_rows := total_rows j;
                     processed_rows := processed_rows j;
                     success_rows := success_rows j;
                     error_rows := error_rows j;
                     created_at := created_at j;
                     started_at := started_at j;
                     finished_at := Some now;
                     message := Some error_detail;
                     output_path := output_path j;
                     output_filename := output_filename j;
                     errors := last_n 10 (errors j ++ [error_detail]);
                     metadata := metadata j |}]> jobs
  end.

Definition get_job (job_id : string) (jobs : gmap string job) : option job :=
  jobs !! job_id.

(** A call of one of the mutating methods, with what it reads from the
    outside. *)
Inductive call :=
| CreateJob (uuid : string) (now : Q) (job_type : string) (rows : Z)
    (meta : option (gmap string string))
| StartJob (now : Q) (job_id : string)
| Increment (job_id : string) (success : bool)
    (msg error_detail : option string)
| CompleteJob (now : Q) (job_id path filename : string)
| FailJob (now : Q) (job_id error_detail : string).

Definition step (jobs : gmap string job) (c : call) : gmap string job :=
  match c with
  | CreateJob u now t n m => snd (create_job u now t n m jobs)
  | StartJob now j => start_job now j jobs
  | Increment j ok m e => increment j ok m e jobs
  | CompleteJob now j p f => complete_job now j p f jobs
  | FailJob now j e => fail_job now j e jobs
  end.

(** The registry after a sequence of calls on a new [JobManager]. *)
Definition run (cs : list call) : gmap string job :=
  foldl step ∅ cs.

(** The error strings the calls [cs] asked to record for the job
    [job_id] since it was (last) created, oldest first. *)
Definition recorded_step (job_id : string) (h : list string) (c : call)
    : list string :=
  match c with
  | CreateJob u _ _ _ _ => if String.eqb u job_id then [] else h
  | Increment j ok _ e =>
      if String.eqb j job_id && negb ok && PyStr.truthy_opt e
      then h ++ [default EmptyString e] else h
  | FailJob _ j e => if String.eqb j job_id then h ++ [e] else h
  | StartJob _ _ | CompleteJob _ _ _ _ => h
  end.

Definition recorded (job_id : string) (cs : list call) : list string :=
  foldl (recorded_step job_id) [] cs.

End JobManager.

(** ** Numbers *)

Module PyNum.

Definition Qltb (x y : Q) : bool := negb (Qle_bool y x).
Definition Qleb (x y : Q) : bool := Qle_bool x y.

(** Nearest integer, ties to the even one. *)
Definition round_half_even (x : Q) : Z :=
  let f := Qfloor x in
  let r := (x - inject_Z f)%Q in
  if Qltb r (1 # 2) then f
  else if Qltb (1 # 2) r then f + 1
  else if Z.even f then f else f + 1.

(** [round(x, ndigits)] on a rational. *)
Definition round_to (ndigits : nat) (x : Q) : Q :=
  let scale := inject_Z (10 ^ Z.of_nat ndigits) in
  (inject_Z (round_half_even (x * scale)) / scale)%Q.

End PyNum.

(** ** Exceptions *)

(** The exception classes the code distinguishes in its [except] clauses,
    and the rest. A class stands for itself and its subclasses. *)
Inductive exn_class :=
| DnsNXDOMAIN              (* dns.resolver.NXDOMAIN *)
| DnsNoAnswer              (* dns.resolver.NoAnswer *)
| DnsFailure               (* any other dnspython error: timeout, no servers *)
| SMTPServerDisconnected   (* smtplib.SMTPServerDisconnected *)
| SMTPFailure              (* any other smtplib.SMTPException *)
| SocketTimeout            (* socket.timeout *)
| SocketHerror             (* socket.herror *)
| SocketFailure            (* any other OSError: gaierror, refused, reset *)
| SSLError                 (* ssl.SSLError *)
| ImportError
| AttributeError
| OtherException.          (* ValueError, TypeError, requests errors, ... *)

Record exn := Exn {
  exn_kind : exn_class;
  exn_msg : string          (* str(e) *)
}.

Definition exn_class_eqb (a b : exn_class) : bool :=
  match a, b with
  | DnsNXDOMAIN, DnsNXDOMAIN | DnsNoAnswer, DnsNoAnswer
  | DnsFailure, DnsFailure
  | SMTPServerDisconnected, SMTPServerDisconnected
  | SMTPFailure, SMTPFailure | SocketTimeout, SocketTimeout
  | SocketHerror, SocketHerror | SocketFailure, SocketFailure
  | SSLError, SSLError | ImportError, ImportError
  | AttributeError, AttributeError | OtherException, OtherException => true
  | _, _ => false
  end.

(** [isinstance(e, cls)] *)
Definition is_a (e : exn) (cls : exn_class) : bool :=
  exn_class_eqb (exn_kind e) cls.

(** ** The per-domain overrides *)

(** A Python number: an [int] ([True] and [False] are the [int]s 1 and
    0), or a [float], which can be infinite or not a number. *)
Inductive number :=
| NInt (n : Z)
| NFloat (x : Q)
| NInfinity (negative : bool)
| NNan.

(** An entry of the table [DOMAIN_CONFIDENCE_OVERRIDES], a dictionary:
    [ov_min_score] is the value of ["min_score"] when it is an [int] or a
    [float], [ov_force_status] the value of ["force_status"] when it is a
    [str]; [None] when the key is absent or holds another type, which
    the code ignores. *)
Record override := {
  ov_min_score : option number;
  ov_force_status : option string
}.

(** ** The outside world *)

Inductive rdtype := RD_A | RD_MX | RD_TXT | RD_DNSKEY.

(** An SMTP reply [(code, message)]; [reply_text] is [str(message)], the
    only form in which the code looks at the message. *)
Record reply := Reply {
  reply_code : Z;
  reply_text : string
}.

(** What the code reads of a peer certificate ([getpeercert()]). *)
Record certificate := {
  cert_subject_cn : option string;   (* subject's commonName, if any *)
  cert_issuer_cn : option string;    (* issuer's commonName, if any *)
  cert_not_after : option string     (* notAfter, if any *)
}.

(** What the code reads of a wrapped TLS socket. *)
Record tls_socket := {
  tls_peercert : option certificate; (* None: getpeercert() is falsy *)
  tls_cipher : bool                  (* cipher() is truthy *)
}.

(** An element of [w.creation_date]: a [datetime], here the seconds on the
    scale of the clock, or a string. *)
Inductive whois_date :=
| WDatetime (t : Q)
| WString (s : string).

(** [w.creation_date] *)
Inductive creation_date :=
| CreationNone
| CreationOne (d : whois_date)
| CreationList (ds : list whois_date).

(** The calls into libraries whose answer depends on the outside, each with
    the type of its answer. A successful DNS answer holds at least one
    record ([dns.resolver] raises [NoAnswer] instead of returning an empty
    answer); records are in text form ([str(mx.exchange)] for MX, the joined
    and decoded strings for TXT). *)
Inductive request : Type -> Type :=
| Resolve (name : string) (rd : rdtype) : request (string * list string)
| ConnectEx (host : string) (port : Z) : request Z
| RecvGreeting (host : string) (port : Z) : request string
| SmtpConnect (host : string) (port : Z) : request reply
| SmtpEhlo : request (reply * list string)
| SmtpHelo : request reply
| SmtpStartTls : request reply
| SmtpMail (sender : string) : request reply
| SmtpRcpt (rcpt : string) : request reply
| SmtpNoop : request reply
| SmtpQuit : request reply
| HttpGet (url : string) : request Z
| ImportModule (name : string) : request unit
| Whois (domain : string) : request creation_date
| DateutilParse (s : string) : request Q
| FromIsoFormat (s : string) : request Q
| GetHostByName (host : string) : request string
| GetHostByAddr (ip : string) : request string
| CreateConnection (host : string) (port : Z) : request unit
| WrapSocket (host : string) : request tls_socket
| CheckInternetPresence (email : string) (enable_hibp : bool) : request string.

Inductive event :=
| ECall {T : Type} (r : request T)
| ESleep (seconds : Z).

(** The world answers a request with a value or an exception; the answer
    may depend on how many events came before ([nat]), so that asking
    twice can give two answers. [dns.resolver.Resolver()] reads the
    resolver configuration of the host and sends nothing: [w_resolver] is
    the exception it raises ([NoResolverConfiguration] when there is no
    configuration), [None] when it gives a resolver. The table
    [DOMAIN_CONFIDENCE_OVERRIDES] of the module is empty in the source;
    the code reads it and never writes it, and [w_overrides] is the table
    as whoever imports the module has filled it by the time it is read.
    Clock and random numbers cannot fail. *)
Record World := {
  w_answer : forall T : Type, nat -> request T -> exn + T;
  w_resolver : nat -> option exn;     (* dns.resolver.Resolver() *)
  w_overrides : nat -> gmap string override;
  w_clock : nat -> Q;                 (* time.time() *)
  w_random_local : nat -> string;     (* 15 random letters and digits *)
  w_randint : nat -> Z -> Z -> Z      (* random.randint(lo, hi) *)
}.

(** ** Results kept in the caches *)

Record age_result := {
  age_months : option Q;     (* None is Python's None *)
  age_points : Z;
  age_skipped : bool
}.

Record web_result := {
  web_has_website : bool;
  web_http_status : option Z;   (* None is Python's None *)
  web_points : Z;
  web_skipped : bool
}.

Record deliverability := {
  dl_spf : bool;
  dl_dkim : bool;
  dl_dmarc : bool;
  dl_spf_record : option string;    (* None is Python's None *)
  dl_dmarc_record : option string   (* None is Python's None *)
}.

Record cache_entry (A : Type) := CacheEntry {
  ce_value : A;
  ce_expires_at : Q
}.
Arguments CacheEntry {A} _ _.
Arguments ce_value {A} _.
Arguments ce_expires_at {A} _.

(** ** State and the monad of the verifier *)

(** The mutable part of an [EmailVerifier] that the code uses, and the
    log of what it asked the world. ([_mx_cache],
    [_provider_fingerprint_cache], [_ip_reputation_cache] and
    [_mx_popularity_cache] are created but never read or written.) *)
Record state := {
  events : list event;
  _deliverability_cache : gmap string (cache_entry deliverability);
  _domain_age_cache : gmap string (cache_entry age_result);
  _web_presence_cache : gmap string (cache_entry web_result)
}.

Definition initial_state : state :=
  {| events := []; _deliverability_cache := ∅;
     _domain_age_cache := ∅; _web_presence_cache := ∅ |}.

Inductive outcome (A : Type) :=
| Returned (a : A)
| Raised (e : exn).
Arguments Returned {A} _.
Arguments Raised {A} _.

Definition M (A : Type) : Type := World -> state -> outcome A * state.

Definition ret {A} (a : A) : M A := fun _ s => (Returned a, s).

Definition bind {A B} (c : M A) (f : A -> M B) : M B := fun w s =>
  match c w s with
  | (Returned a, s') => f a w s'
  | (Raised e, s') => (Raised e, s')
  end.

Declare Scope verifier_scope.
Delimit Scope verifier_scope with verifier.
Notation "x ← y ; z" := (bind y (fun x : _ => z))
  (at level 20, y at level 100, z at level 200, only parsing)
  : verifier_scope.
Notation "' x ← y ; z" := (bind y (fun x : _ => z))
  (at level 20, x pattern, y at level 100, z at level 200, only parsing)
  : verifier_scope.
Open Scope verifier_scope.

Definition raise {A} (e : exn) : M A := fun _ s => (Raised e, s).

(** [try: c  except Exception as e: h e] *)
Definition try_except {A} (c : M A) (h : exn -> M A) : M A := fun w s =>
  match c w s with
  | (Returned a, s') => (Returned a, s')
  | (Raised e, s') => h e w s'
  end.

Definition log_event (ev : event) (s : state) : state :=
  {| events := events s ++ [ev];
     _deliverability_cache := _deliverability_cache s;
     _domain_age_cache := _domain_age_cache s;
     _web_presence_cache := _web_presence_cache s |}.

(** Ask the world. *)
Definition call {T} (r : request T) : M T := fun w s =>
  match w_answer w T (length (events s)) r with
  | inr v => (Returned v, log_event (ECall r) s)
  | inl e => (Raised e, log_event (ECall r) s)
  end.

(** [dns.resolver.Resolver()]; setting [timeout] and [lifetime] on the
    resolver cannot fail. *)
Definition new_resolver : M unit := fun w s =>
  match w_resolver w (length (events s)) with
  | Some e => (Raised e, s)
  | None => (Returned tt, s)
  end.

(** Reading the module's table. *)
Definition DOMAIN_CONFIDENCE_OVERRIDES : M (gmap string override) :=
  fun w s => (Returned (w_overrides w (length (events s))), s).

(** [time.time()] *)
Definition time_time : M Q := fun w s =>
  (Returned (w_clock w (length (events s))), s).

(** [time.sleep(d)] *)
Definition time_sleep (d : Z) : M unit := fun _ s =>
  (Returned tt, log_event (ESleep d) s).

Definition random_local : M string := fun w s =>
  (Returned (w_random_local w (length (events s))), s).

Definition random_randint (lo hi : Z) : M Z := fun w s =>
  (Returned (w_randint w (length (events s)) lo hi), s).

Definition get_state : M state := fun _ s => (Returned s, s).
Definition put_state (s : state) : M unit := fun _ _ => (Returned tt, s).

(** A cache attribute of the verifier: how to read and write it. *)
Record cache_ref (A : Type) := {
  cache_read : state -> gmap string (cache_entry A);
  cache_write : gmap string (cache_entry A) -> state -> state
}.
Arguments cache_read {A} _ _.
Arguments cache_write {A} _ _ _.

Definition deliverability_cache_ref : cache_ref deliverability :=
  {| cache_read := _deliverability_cache;
     cache_write := fun c s =>
       {| events := events s; _deliverability_cache := c;
          _domain_age_cache := _domain_age_cache s;
          _web_presence_cache := _web_presence_cache s |} |}.

Definition domain_age_cache_ref : cache_ref age_result :=
  {| cache_read := _domain_age_cache;
     cache_write := fun c s =>
       {| events := events s;
          _deliverability_cache := _deliverability_cache s;
          _domain_age_cache := c;
          _web_presence_cache := _web_presence_cache s |} |}.

Definition web_presence_cache_ref : cache_ref web_result :=
  {| cache_read := _web_presence_cache;
     cache_write := fun c s =>
       {| events := events s;
          _deliverability_cache := _deliverability_cache s;
          _domain_age_cache := _domain_age_cache s;
          _web_presence_cache := c |} |}.

Definition cache_ttl : Q := 3600.

Definition _get_cached {A} (cache : cache_ref A) (key : string)
    : M (option A) :=
  s ← get_state;
  match cache_read cache s !! key with
  | None => ret None
  | Some entry =>
      now ← time_time;
      if PyNum.Qltb now (ce_expires_at entry) then ret (Some (ce_value entry))
      else
        _ ← put_state (cache_write cache (delete key (cache_read cache s)) s);
        ret None
  end.

Definition _set_cache {A} (cache : cache_ref A) (key : string) (value : A)
    : M unit :=
  now ← time_time;
  s ← get_state;
  put_state
    (cache_write cache
       (<[key := CacheEntry value (now + cache_ttl)%Q]> (cache_read cache s)) s).

(** ** The verifier *)

(** The attributes of an [EmailVerifier] that [__init__] reads from the
    environment of the process. *)
Record EmailVerifier := {
  enable_internet_checks : bool;   (* ENABLE_INTERNET_CHECKS *)
  hibp_enabled : bool;             (* ENABLE_HIBP *)
  _sender_domain : string          (* VERIFIER_SENDER_DOMAIN or the FQDN *)
}.

Definition smtp_blocked_domains : list string :=
  [ "outlook.com"; "hotmail.com"; "live.com"; "msn.com";
    "gmail.com"; "googlemail.com"; "yahoo.com"; "yahoo.co.uk";
    "aol.com"; "icloud.com"; "me.com"; "mac.com";
    "microsoft.com"; "office365.com" ].

Record provider_rule := {
  max_score_without_rcpt : option Z;   (* None: key absent *)
  always_blocks : bool;
  may_accept_all : bool;
  reliable_rejections : bool;
  accept_all : bool
}.

Definition rule (max_score : Z) (blocks may_all reliable all : bool)
    : provider_rule :=
  {| max_score_without_rcpt := Some max_score; always_blocks := blocks;
     may_accept_all := may_all; reliable_rejections := reliable;
     accept_all := all |}.

(** [self.provider_rules], in the order of the dictionary literal (the
    order in which [_apply_provider_rules] goes through it). *)
Definition provider_rules : list (string * provider_rule) :=
  [ ("gmail.com", rule 55 true false false false);
    ("googlemail.com", rule 55 true false false false);
    ("outlook.com", rule 60 true true false false);
    ("hotmail.com", rule 60 true false false false);
    ("live.com", rule 60 true false false false);
    ("yahoo.com", rule 55 true false false false);
    ("yahoo.co.uk", rule 55 true false false false);
    ("zoho.com", rule 75 false false true false);
    ("protonmail.com", rule 50 true false false true);
    ("icloud.com", rule 50 true false false false);
    ("me.com", rule 50 true false false false);
    ("mac.com", rule 50 true false false false) ].

(** *** 2. Domain existence and DNS health *)

Record dns_result := {
  dns_domain_exists : bool;
  dns_mx_present : bool;
  dns_spf_exists : bool;
  dns_dkim_exists : bool;
  dns_dmarc_exists : bool;
  dns_response_time_ms : Q;
  dns_points : Z;
  dns_mx_hosts : list string
}.

Definition common_selectors : list string :=
  [ "default"; "google"; "selector1"; "selector2"; "k1"; "mail" ].

(** The records of an answer, as a list. *)
Definition records (answer : string * list string) : list string :=
  answer.1 :: answer.2.

(** The loop over the DKIM selectors: stop at the first name that
    resolves. *)
Fixpoint dkim_lookup (domain : string) (selectors : list string) : M bool :=
  match selectors with
  | [] => ret false
  | selector :: rest =>
      found ← try_except
                (_ ← call (Resolve (selector ++ "._domainkey." ++ domain) RD_TXT);
                 ret true)
                (fun _ => ret false);
      if found then ret true else dkim_lookup domain rest
  end.

(** Some TXT record of [name] starts with [tag]; a failed lookup counts as
    no record. *)
Definition txt_record_with (name tag : string) : M bool :=
  try_except
    (txt_records ← call (Resolve name RD_TXT);
     ret (existsb (fun txt_string => PyStr.startswith txt_string tag)
             (records txt_records)))
    (fun _ => ret false).

(** The resolver is built before the [try]: what [Resolver()] raises
    leaves the probe. Every statement of the [try] either cannot raise or
    sits in a [try] with a bare [except] of its own, so its two handlers
    ([NXDOMAIN], [Exception]) are never entered; the embedding has the
    body only. *)
Definition _check_dns_health (domain : string) : M dns_result :=
  start_time ← time_time;
  _ ← new_resolver;
  (* Check if domain exists (A record) *)
  domain_exists ← try_except
                    (_ ← call (Resolve domain RD_A); ret true)
                    (fun _ => ret false);
  (* Check MX records *)
  mx ← try_except
         (mx_records ← call (Resolve domain RD_MX);
          ret (domain_exists, true,
                map PyStr.rstrip_dot (records mx_records), 20))
         (fun e =>
            if is_a e DnsNoAnswer then
              (* Try A record as fallback *)
              try_except
                (_ ← call (Resolve domain RD_A);
                 ret (true, false, [domain], 0))
                (fun _ => ret (domain_exists, false, [], 0))
            else ret (domain_exists, false, [], 0));
  let '(domain_exists, mx_present, mx_hosts, points) := mx in
  (* Check SPF *)
  spf_exists ← txt_record_with domain "v=spf1";
  let points := if spf_exists then points + 5 else points in
  (* Check DMARC *)
  dmarc_exists ← txt_record_with ("_dmarc." ++ domain) "v=DMARC1";
  let points := if dmarc_exists then points + 5 else points in
  (* Check DKIM (common selectors) *)
  dkim_exists ← dkim_lookup domain common_selectors;
  let points := if dkim_exists then points + 5 else points in
  (* Measure DNS response time *)
  end_time ← time_time;
  let dns_time := ((end_time - start_time) * 1000)%Q in
  let points :=
    if PyNum.Qltb dns_time 300 then points + 3
    else if PyNum.Qltb 800 dns_time then points - 3
    else points in
  ret {| dns_domain_exists := domain_exists;
          dns_mx_present := mx_present;
          dns_spf_exists := spf_exists;
          dns_dkim_exists := dkim_exists;
          dns_dmarc_exists := dmarc_exists;
          dns_response_time_ms := PyNum.round_to 2 dns_time;
          dns_points := points;
          dns_mx_hosts := mx_hosts |}.

(** *** 3. Domain age *)

(** Truth value of [w.creation_date]. *)
Definition creation_truthy (cd : creation_date) : bool :=
  match cd with
  | CreationNone => false
  | CreationOne (WDatetime _) => true
  | CreationOne (WString s) => PyStr.truthy s
  | CreationList ds => negb (bool_decide (ds = []))
  end.

(** [creation_date[0]] for a list, [creation_date] itself otherwise. *)
Definition creation_first (cd : creation_date) : option whois_date :=
  match cd with
  | CreationNone => None
  | CreationOne d => Some d
  | CreationList ds => head ds
  end.

(** [s.replace('Z', '+00:00')] *)
Fixpoint replace_Z (s : string) : string :=
  match s with
  | EmptyString => EmptyString
  | String c s' =>
      if Ascii.eqb c "Z" then "+00:00" ++ replace_Z s'
      else String c (replace_Z s')
  end.

Definition age_skipped_result : age_result :=
  {| age_months := None; age_points := 0; age_skipped := true |}.

(** The scoring of a creation date that is a [datetime]. *)
Definition age_of_datetime (now created : Q) : age_result :=
  let days := Qfloor ((now - created) / 86400) in
  let months := (inject_Z days / 30)%Q in
  {| age_months := Some (PyNum.round_to 1 months);
     age_points := if PyNum.Qltb months 1 then -15
                   else if PyNum.Qltb months 12 then 0
                   else 10;
     age_skipped := false |}.

Definition _check_domain_age (domain : string) : M age_result :=
  cached ← _get_cached domain_age_cache_ref domain;
  match cached with
  | Some r => ret r
  | None =>
      result ← try_except
        (_ ← call (ImportModule "whois");
         creation_date ← call (Whois domain);
         if creation_truthy creation_date then
           match creation_first creation_date with
           | Some (WString s) =>
               parsed ← try_except
                          (_ ← call (ImportModule "dateutil");
                           t ← call (DateutilParse s); ret (Some t))
                          (fun e =>
                             if is_a e ImportError then
                               (* Fallback to datetime parsing *)
                               try_except
                                 (t ← call (FromIsoFormat (replace_Z s));
                                  ret (Some t))
                                 (fun _ => ret None)
                             else raise e);
               match parsed with
               | Some t => now ← time_time; ret (age_of_datetime now t)
               | None => ret age_skipped_result
               end
           | Some (WDatetime t) =>
               now ← time_time; ret (age_of_datetime now t)
           | None =>
               ret {| age_months := None; age_points := 0;
                       age_skipped := false |}
           end
         else ret {| age_months := None; age_points := 0;
                      age_skipped := false |})
        (fun _ => ret age_skipped_result);
      _ ← _set_cache domain_age_cache_ref domain result;
      ret result
  end.

(** *** 4. SMTP connection test *)

(** [result["greeting"]]; every key is absent until the greeting was
    read ([None] = key absent). [g_code] is [Some None] for Python's
    [None]. *)
Record greeting := {
  g_valid : option bool;
  g_points : option Z;
  g_code : option (option Z);
  g_message : option string
}.

Record smtp_connection := {
  sc_port_25_open : bool;
  sc_tls_successful : bool;
  sc_greeting : greeting;
  sc_points : Z;
  sc_mx_used : option string;    (* None is Python's None *)
  sc_skipped : option bool       (* None: key absent *)
}.

Definition empty_greeting : greeting :=
  {| g_valid := None; g_points := None; g_code := None; g_message := None |}.

Definition transactional_patterns : list string :=
  [ "inbound-smtp"; "amazonaws.com"; "sendgrid.net";
    "mailgun.org"; "mailgun.com"; "sparkpostmail.com";
    "postmarkapp.com"; "mandrillapp.com" ].

(** [server.has_extn(name)]: smtplib keeps the extension names of the EHLO
    answer in lower case. *)
Definition has_extn (features : list string) (name : string) : bool :=
  existsb (String.eqb (PyStr.lower name)) features.

(** The body of the loop over [mx_hosts[:2]]. The result dictionary is
    updated in place, so what was set before a call raised stays set when
    the handler goes on with the next host. *)
Fixpoint smtp_connection_loop (fast_mode : bool) (hosts : list string)
    (result : smtp_connection) : M smtp_connection :=
  match hosts with
  | [] => ret result
  | mx_host :: rest =>
      (* Test port 25 availability *)
      port_open ← try_except
                    (rc ← call (ConnectEx mx_host 25); ret (rc =? 0)%Z)
                    (fun _ => ret false);
      if negb port_open then smtp_connection_loop fast_mode rest result
      else
        (* Use raw socket to read greeting *)
        g ← try_except
              (raw ← call (RecvGreeting mx_host 25);
               let greeting_response := PyStr.strip raw in
               if PyStr.startswith greeting_response "220"
               then ret {| g_valid := Some true; g_points := Some 10;
                            g_code := Some (Some 220);
                            g_message := Some greeting_response |}
               else ret {| g_valid := Some false; g_points := Some (-10);
                            g_code := Some None;
                            g_message := Some EmptyString |})
              (fun _ => ret {| g_valid := Some false;
                                g_points := Some (-10);
                                g_code := Some None;
                                g_message := Some EmptyString |});
        let result :=
          {| sc_port_25_open := true;
             sc_tls_successful := sc_tls_successful result;
             sc_greeting := g;
             sc_points := sc_points result + 10;
             sc_mx_used := Some mx_host;
             sc_skipped := sc_skipped result |} in
        (* Now use smtplib for the rest *)
        connected ← try_except
                      (_ ← call (SmtpConnect mx_host 25); ret true)
                      (fun _ => ret false);
        if negb connected then smtp_connection_loop fast_mode rest result
        else
          tls ← (if negb fast_mode then
                   try_except
                     ('(_, features) ← call SmtpEhlo;
                      if has_extn features "STARTTLS" then
                        _ ← call SmtpStartTls;
                        _ ← call SmtpEhlo;
                        ret true
                      else ret false)
                     (fun _ => ret false)
                 else
                   try_except (_ ← call SmtpEhlo; ret false)
                     (fun _ => ret false));
          let result :=
            if (tls : bool) then
              {| sc_port_25_open := sc_port_25_open result;
                 sc_tls_successful := true;
                 sc_greeting := sc_greeting result;
                 sc_points := sc_points result + 5;
                 sc_mx_used := sc_mx_used result;
                 sc_skipped := sc_skipped result |}
            else result in
          quit_ok ← try_except (_ ← call SmtpQuit; ret true)
                      (fun _ => ret false);
          if quit_ok then ret result
          else smtp_connection_loop fast_mode rest result
  end.

Definition _check_smtp_connection (domain : string) (mx_hosts : list string)
    (fast_mode : bool) : M smtp_connection :=
  let result :=
    {| sc_port_25_open := false; sc_tls_successful := false;
       sc_greeting := empty_greeting; sc_points := 0;
       sc_mx_used := None; sc_skipped := None |} in
  let skipped :=
    {| sc_port_25_open := false; sc_tls_successful := false;
       sc_greeting := empty_greeting; sc_points := 0;
       sc_mx_used := None; sc_skipped := Some true |} in
  if bool_decide (mx_hosts = []) then ret result
  else
    (* Skip for known blocked domains *)
    let domain_lower := PyStr.lower domain in
    if existsb (fun blocked =>
                  PyStr.contains blocked domain_lower ||
                  PyStr.endswith domain_lower ("." ++ blocked))
         smtp_blocked_domains
    then ret skipped
    (* Skip for transactional email services *)
    else if existsb (fun mx_host =>
                       existsb (fun pattern =>
                                  PyStr.contains pattern (PyStr.lower mx_host))
                         transactional_patterns)
              (take 2 mx_hosts)
    then ret skipped
    else smtp_connection_loop fast_mode (take 2 mx_hosts) result.

(** *** 6. SMTP RCPT TO, and 7. its timing *)

Record timing := {
  t_response_time_sec : Q;
  t_points : Z
}.

Record smtp_rcpt := {
  rc_accepted : bool;
  rc_rejected : bool;
  rc_hard_failure : bool;
  rc_soft_failure : bool;
  rc_catch_all_detected : bool;
  rc_timing : timing;
  rc_points : Z;
  rc_error : option string;        (* None is Python's None *)
  rc_response_code : option Z;     (* None is Python's None *)
  rc_skipped : option bool         (* None: key absent *)
}.

(** The dictionary [_check_smtp_rcpt] starts from. *)
Definition rcpt_initial : smtp_rcpt :=
  {| rc_accepted := false; rc_rejected := false; rc_hard_failure := false;
     rc_soft_failure := false; rc_catch_all_detected := false;
     rc_timing := {| t_response_time_sec := 0; t_points := 0 |};
     rc_points := 0; rc_error := None; rc_response_code := None;
     rc_skipped := None |}.

Definition rcpt_with_error (result : smtp_rcpt) (error : string) : smtp_rcpt :=
  {| rc_accepted := rc_accepted result; rc_rejected := rc_rejected result;
     rc_hard_failure := rc_hard_failure result;
     rc_soft_failure := rc_soft_failure result;
     rc_catch_all_detected := rc_catch_all_detected result;
     rc_timing := rc_timing result; rc_points := rc_points result;
     rc_error := Some error;
     rc_response_code := rc_response_code result;
     rc_skipped := rc_skipped result |}.

(** The three [except] clauses of the inner [try] of [_check_smtp_rcpt].
    (The handler of the outer [try] is never entered: the inner clauses
    catch every exception.) *)
Definition rcpt_handler (result : smtp_rcpt) (e : exn) : smtp_rcpt :=
  if is_a e SMTPServerDisconnected then
    rcpt_with_error result "Server disconnected"
  else if is_a e SocketTimeout then
    rcpt_with_error result "Connection timeout"
  else rcpt_with_error result ("SMTP error: " ++ exn_msg e).

(** [code in [250, 251]] *)
Definition is_250_251 (code : Z) : bool := (code =? 250)%Z || (code =? 251)%Z.

(** "Check for User unknown or 5.1.1": the test on [str(message).lower()]. *)
Definition names_unknown_user (message : string) : bool :=
  let msg_lower := PyStr.lower message in
  PyStr.contains "user unknown" msg_lower || PyStr.contains "5.1.1" msg_lower.

(** "Classify response" and "SMTP Behavior Timing": what the code sets
    once RCPT TO was answered with [(code, message)] after [response_time]
    seconds and QUIT went through. *)
Definition rcpt_classify (code : Z) (message : string) (response_time : Q)
    : smtp_rcpt :=
  let tm := {| t_response_time_sec := PyNum.round_to 2 response_time;
               t_points := if PyNum.Qltb response_time 1 then -10
                           else if PyNum.Qltb 15 response_time then -5
                           else 5 |} in
  let mk accepted rejected hard soft points error :=
    {| rc_accepted := accepted; rc_rejected := rejected;
       rc_hard_failure := hard; rc_soft_failure := soft;
       rc_catch_all_detected := false; rc_timing := tm;
       rc_points := points; rc_error := error;
       rc_response_code := Some code; rc_skipped := None |} in
  if is_250_251 code then
    mk true false false false 10 None
  else if (code =? 550)%Z then
    if names_unknown_user message
    then mk false true true false 0 (Some "User unknown")
    else mk false true false false 0 None
  else if (code =? 450)%Z || (code =? 451)%Z then
    mk false false false true 10 (Some "Temporarily unavailable (greylisted)")
  else if (code =? 421)%Z then
    mk false false false true 10 (Some "Service unavailable, try again later")
  else if (500 <=? code)%Z && (code <? 600)%Z then
    mk false true true false 0
      (Some ("Permanent SMTP error: " ++ PyStr.of_Z code))
  else
    mk false false false false 0
      (Some ("Unexpected response: " ++ PyStr.of_Z code)).

(** How far the dialogue of [_check_smtp_rcpt] got. *)
Inductive rcpt_dialogue :=
| DialogueRaised (e : exn)                     (* a call raised *)
| MailFromRefused                              (* MAIL FROM not 250/251 *)
| RcptAnswered (r : reply) (response_time : Q). (* RCPT TO was answered *)

Section Verifier.

Variable self : EmailVerifier.

Definition _check_smtp_rcpt (email domain : string)
    (mx_hosts : list string) (smtp_connection : smtp_connection)
    (fast_mode : bool) : M smtp_rcpt :=
  let result := rcpt_initial in
  if default false (sc_skipped smtp_connection) ||
     negb (sc_port_25_open smtp_connection)
  then ret {| rc_accepted := false; rc_rejected := false;
              rc_hard_failure := false; rc_soft_failure := false;
              rc_catch_all_detected := false;
              rc_timing := rc_timing result; rc_points := 0;
              rc_error := None; rc_response_code := None;
              rc_skipped := Some true |}
  else
    let mx_host :=
      if PyStr.truthy_opt (sc_mx_used smtp_connection)
      then sc_mx_used smtp_connection
      else head mx_hosts in
    match mx_host with
    | None => ret result
    | Some mx_host =>
        if negb (PyStr.truthy mx_host) then ret result
        else
          start_time ← time_time;
          dialogue ← try_except
            (_ ← call (SmtpConnect mx_host 25);
             (* HELO/EHLO *)
             '(r, _) ← call SmtpEhlo;
             _ ← (if negb (reply_code r =? 250)%Z
                  then _ ← call SmtpHelo; ret tt
                  else ret tt);
             (* MAIL FROM *)
             let test_sender := "verify@" ++ _sender_domain self in
             r ← call (SmtpMail test_sender);
             if negb (is_250_251 (reply_code r)) then
               _ ← call SmtpQuit; ret MailFromRefused
             else
               (* RCPT TO (key check) *)
               r ← call (SmtpRcpt email);
               now ← time_time;
               ret (RcptAnswered r (now - start_time)%Q))
            (fun e => ret (DialogueRaised e));
          match dialogue with
          | DialogueRaised e => ret (rcpt_handler result e)
          | MailFromRefused => ret result
          | RcptAnswered r response_time =>
              (* response time and code are stored before QUIT *)
              let result :=
                {| rc_accepted := false; rc_rejected := false;
                   rc_hard_failure := false; rc_soft_failure := false;
                   rc_catch_all_detected := false;
                   rc_timing :=
                     {| t_response_time_sec :=
                          PyNum.round_to 2 response_time;
                        t_points := 0 |};
                   rc_points := 0; rc_error := None;
                   rc_response_code := Some (reply_code r);
                   rc_skipped := None |} in
              quit ← try_except (_ ← call SmtpQuit; ret None)
                       (fun e => ret (Some e));
              match quit with
              | Some e => ret (rcpt_handler result e)
              | None =>
                  ret (rcpt_classify (reply_code r) (reply_text r)
                         response_time)
              end
          end
    end.

(** *** Deliverability records, and 8. security reputation *)

(** The resolver is built outside the [try] statements. *)
Definition _check_deliverability (domain : string) : M deliverability :=
  _ ← new_resolver;
  (* Check SPF *)
  spf ← try_except
          (txt_records ← call (Resolve domain RD_TXT);
           ret (last (filter (fun t => PyStr.startswith t "v=spf1" = true)
                        (records txt_records))))
          (fun _ => ret None);
  (* Check DMARC *)
  dmarc ← try_except
            (txt_records ← call (Resolve ("_dmarc." ++ domain) RD_TXT);
             ret (last (filter
                          (fun t => PyStr.startswith t "v=DMARC1" = true)
                          (records txt_records))))
            (fun _ => ret None);
  (* Check DKIM *)
  dkim ← dkim_lookup domain common_selectors;
  ret {| dl_spf := bool_decide (is_Some spf); dl_dkim := dkim;
         dl_dmarc := bool_decide (is_Some dmarc);
         dl_spf_record := spf; dl_dmarc_record := dmarc |}.

Record security_result := {
  sec_strong_spf : bool;
  sec_dkim_dmarc_aligned : bool;
  sec_points : Z
}.

Definition _check_security_reputation (domain : string)
    : M security_result :=
  (* Get deliverability info (cached) *)
  cached ← _get_cached deliverability_cache_ref domain;
  deliverability ←
    match cached with
    | Some d => ret d
    | None =>
        d ← _check_deliverability domain;
        _ ← _set_cache deliverability_cache_ref domain d;
        ret d
    end;
  (* Check SPF syntax strength (basic check) *)
  strong_spf ←
    (if dl_spf deliverability then
       match dl_spf_record deliverability with
       | Some spf_record =>
           ret ((10 <? Z.of_nat (PyStr.len spf_record))%Z &&
                (PyStr.contains "include:" spf_record ||
                 PyStr.contains "ip4:" spf_record ||
                 PyStr.contains "ip6:" spf_record))
       | None =>
           (* len(None) *)
           raise (Exn OtherException
                    "object of type 'NoneType' has no len()")
       end
     else ret false);
  let aligned := dl_dkim deliverability && dl_dmarc deliverability in
  ret {| sec_strong_spf := strong_spf;
         sec_dkim_dmarc_aligned := aligned;
         sec_points := (if strong_spf then 3 else 0) +
                       (if aligned then 5 else 0) |}.

(** *** 9. Web presence *)

Fixpoint web_presence_loop (domain : string) (protocols : list string)
    : M (option Z) :=
  match protocols with
  | [] => ret None
  | protocol :: rest =>
      got ← try_except
              (status ← call (HttpGet (protocol ++ "://" ++ domain));
               ret (Some status))
              (fun _ => ret None);
      match got with
      | Some status => ret (Some status)
      | None => web_presence_loop domain rest
      end
  end.

(** (The handler of the outer [try] is never entered: the loop body
    catches every exception.) *)
Definition _check_web_presence (domain : string) : M web_result :=
  cached ← _get_cached web_presence_cache_ref domain;
  match cached with
  | Some r => ret r
  | None =>
      got ← web_presence_loop domain ["https"; "http"];
      let result :=
        match got with
        | Some status =>
            {| web_has_website := true; web_http_status := Some status;
               web_points := if (status =? 200)%Z then 10 else 5;
               web_skipped := false |}
        | None =>
            {| web_has_website := false; web_http_status := None;
               web_points := -10; web_skipped := false |}
        end in
      _ ← _set_cache web_presence_cache_ref domain result;
      ret result
  end.

(** *** Catch-all detection *)

Record catch_all_result := {
  ca_is_catchall : bool;
  ca_test_email : option string;   (* None: key absent *)
  ca_skipped : bool
}.

Definition _detect_catch_all (domain : string) (mx_hosts : list string)
    : M catch_all_result :=
  random_string ← random_local;
  let test_email := random_string ++ "@" ++ domain in
  (* both calls leave fast_mode at its default, True *)
  smtp_connection ← _check_smtp_connection domain mx_hosts true;
  if default false (sc_skipped smtp_connection) ||
     negb (sc_port_25_open smtp_connection)
  then ret {| ca_is_catchall := false; ca_test_email := Some test_email;
              ca_skipped := true |}
  else
    smtp_rcpt ← _check_smtp_rcpt test_email domain mx_hosts
                  smtp_connection true;
    ret {| ca_is_catchall := rc_accepted smtp_rcpt;
           ca_test_email := Some test_email; ca_skipped := false |}.

(** *** 10. Mailbox provider fingerprinting *)

Record fingerprint_result := {
  mpf_points : Z;
  mpf_capabilities : list (string * bool);   (* the dictionary, in order *)
  mpf_reliability_boost : Z;
  mpf_skipped : option bool;       (* None: key absent *)
  mpf_early_close : option bool;   (* None: key absent *)
  mpf_error : option string        (* None: key absent *)
}.

(** [a or b] where [a] may be [None] or empty and [b] is [mx_hosts[0]]
    of a list known to be non-empty. *)
Definition or_first (a : option string) (mx_hosts : list string) : string :=
  if PyStr.truthy_opt a then default EmptyString a
  else default EmptyString (head mx_hosts).

Definition _check_provider_fingerprint (domain : string)
    (mx_hosts : list string) (smtp_connection : smtp_connection)
    (fast_mode : bool) : M fingerprint_result :=
  if bool_decide (mx_hosts = []) ||
     default false (sc_skipped smtp_connection)
  then ret {| mpf_points := 0; mpf_capabilities := [];
              mpf_reliability_boost := 0; mpf_skipped := Some true;
              mpf_early_close := None; mpf_error := None |}
  else
    let mx_host := or_first (sc_mx_used smtp_connection) mx_hosts in
    ehlo ← try_except
             (_ ← call (SmtpConnect mx_host 25);
              '(_, features) ← call SmtpEhlo;
              ret (inr features))
             (fun e => ret (inl e));
    match ehlo with
    | inl e =>
        ret {| mpf_points := 0; mpf_capabilities := [];
               mpf_reliability_boost := 0; mpf_skipped := None;
               mpf_early_close := None; mpf_error := Some (exn_msg e) |}
    | inr features =>
        (* Check capabilities *)
        let capabilities :=
          map (fun name => (name, has_extn features name))
            ["PIPELINING"; "8BITMIME"; "SIZE"; "STARTTLS"] in
        let capability_count :=
          Z.of_nat (length (filter (fun c => c.2 = true) capabilities)) in
        let boost :=
          if (3 <=? capability_count)%Z then 10
          else if (2 <=? capability_count)%Z then 5
          else if (1 <=? capability_count)%Z then 2
          else 0 in
        (* Check if server closes connection early (bad sign) *)
        early_close ← try_except (_ ← call SmtpNoop; ret false)
                        (fun _ => ret true);
        let points := if early_close then Z.max 0 (boost - 3) else boost in
        quit ← try_except (_ ← call SmtpQuit; ret None)
                 (fun e => ret (Some (exn_msg e)));
        ret {| mpf_points := points; mpf_capabilities := capabilities;
               mpf_reliability_boost := boost; mpf_skipped := None;
               mpf_early_close := Some early_close; mpf_error := quit |}
    end.

(** *** 11. SMTP error pattern classification *)

Record error_pattern_result := {
  ep_category : string;
  ep_points : Z;
  ep_pattern : option string    (* None is Python's None *)
}.

(** [smtp_connection] never has an ["error"] key, so
    [smtp_connection.get("error", '')] is the empty string. *)
Definition _classify_smtp_error_pattern (smtp_rcpt : smtp_rcpt)
    (smtp_connection : smtp_connection) : error_pattern_result :=
  let error :=
    if PyStr.truthy_opt (rc_error smtp_rcpt)
    then default EmptyString (rc_error smtp_rcpt)
    else EmptyString in
  let error_lower := PyStr.lower error in
  let has sub := PyStr.contains sub error_lower in
  if has "rate limit" || has "too many" || has "429" then
    {| ep_category := "rate_limited"; ep_points := 5;
       ep_pattern := Some "Rate limited" |}
  else if has "greylist" || has "451" || has "temporarily" then
    {| ep_category := "greylist"; ep_points := 10;
       ep_pattern := Some "Greylisted" |}
  else if has "policy" || has "privacy" || has "not allowed" then
    {| ep_category := "policy_block"; ep_points := 3;
       ep_pattern := Some "Policy block" |}
  else if has "connection refused" || has "refused" then
    {| ep_category := "connection_refused"; ep_points := 3;
       ep_pattern := Some "Connection refused" |}
  else if has "timeout" || has "dead" || has "no route" then
    {| ep_category := "dead_server"; ep_points := -20;
       ep_pattern := Some "Dead server" |}
  else if has "reset" then
    {| ep_category := "connection_reset"; ep_points := 0;
       ep_pattern := Some "Connection reset" |}
  else
    {| ep_category := "unknown"; ep_points := 0; ep_pattern := None |}.

(** *** 12. Provider-level behaviour rules *)

Record provider_rules_result := {
  pr_provider : option string;    (* None is Python's None *)
  pr_rule_applied : bool;
  pr_score_adjusted : bool;
  pr_adjusted_score : Z;
  pr_reason : option string;               (* None: key absent *)
  pr_reliable_rejection : option bool      (* None: key absent *)
}.

(** [provider in domain_lower or domain_lower.endswith('.' + provider)] *)
Definition provider_matches (domain_lower provider : string) : bool :=
  PyStr.contains provider domain_lower ||
  PyStr.endswith domain_lower ("." ++ provider).

(** The first entry of [provider_rules] that matches, where the loop
    breaks. *)
Definition find_provider_rule (domain_lower : string)
    : option (string * provider_rule) :=
  List.find (fun pr => provider_matches domain_lower pr.1) provider_rules.

Definition _apply_provider_rules (domain : string) (smtp_rcpt : smtp_rcpt)
    (current_score : Z) : provider_rules_result :=
  let domain_lower := PyStr.lower domain in
  match find_provider_rule domain_lower with
  | None =>
      {| pr_provider := None; pr_rule_applied := false;
         pr_score_adjusted := false; pr_adjusted_score := current_score;
         pr_reason := None; pr_reliable_rejection := None |}
  | Some (provider, rules) =>
      let max_score := default 100 (max_score_without_rcpt rules) in
      (* Apply max score limit if RCPT didn't succeed *)
      let adjust :=
        negb (rc_accepted smtp_rcpt) && (max_score <? current_score)%Z in
      {| pr_provider := Some provider; pr_rule_applied := true;
         pr_score_adjusted := adjust;
         pr_adjusted_score := if adjust then max_score else current_score;
         pr_reason :=
           if adjust then
             Some ("Provider " ++ provider ++
                   " blocks verification, max score without RCPT: " ++
                   PyStr.of_Z max_score)
           else None;
         pr_reliable_rejection :=
           if String.eqb provider "zoho.com" && rc_rejected smtp_rcpt
           then Some true else None |}
  end.

(** *** 13. SMTP retry simulation *)

Record retry_entry := {
  re_delay : Z;
  re_code : option Z;          (* None: key absent *)
  re_message : option string;  (* None: key absent *)
  re_error : option string;    (* None: key absent *)
  re_success : bool
}.

Record retry_result := {
  rt_success_after_retry : bool;
  rt_retries : list retry_entry;
  rt_points : Z;
  rt_skipped : option bool     (* None: key absent *)
}.

Definition retry_failed (delay : Z) (e : exn) : retry_entry :=
  {| re_delay := delay; re_code := None; re_message := None;
     re_error := Some (exn_msg e); re_success := false |}.

(** The loop over [retry_delays]; [result] is the dictionary as the
    earlier rounds left it. *)
Fixpoint retry_loop (email mx_host : string) (delays : list Z)
    (result : retry_result) : M retry_result :=
  match delays with
  | [] => ret result
  | delay :: rest =>
      _ ← (if (0 <? delay)%Z then time_sleep delay else ret tt);
      answer ← try_except
                 (_ ← call (SmtpConnect mx_host 25);
                  _ ← call SmtpEhlo;
                  _ ← call (SmtpMail ("verify@" ++ _sender_domain self));
                  r ← call (SmtpRcpt email);
                  ret (inr r))
                 (fun e => ret (inl e));
      match answer with
      | inl e =>
          retry_loop email mx_host rest
            {| rt_success_after_retry := rt_success_after_retry result;
               rt_retries := rt_retries result ++ [retry_failed delay e];
               rt_points := rt_points result;
               rt_skipped := rt_skipped result |}
      | inr r =>
          let ok := is_250_251 (reply_code r) in
          let entry :=
            {| re_delay := delay; re_code := Some (reply_code r);
               re_message := Some (reply_text r); re_error := None;
               re_success := ok |} in
          let result :=
            {| rt_success_after_retry :=
                 ok || rt_success_after_retry result;
               rt_retries := rt_retries result ++ [entry];
               rt_points := if ok then 20 else rt_points result;
               rt_skipped := rt_skipped result |} in
          quit ← try_except (_ ← call SmtpQuit; ret None)
                   (fun e => ret (Some e));
          match quit with
          | None => if ok then ret result
                    else retry_loop email mx_host rest result
          | Some e =>
              retry_loop email mx_host rest
                {| rt_success_after_retry := rt_success_after_retry result;
                   rt_retries := rt_retries result ++ [retry_failed delay e];
                   rt_points := rt_points result;
                   rt_skipped := rt_skipped result |}
          end
      end
  end.

Definition _smtp_retry_simulation (email domain : string)
    (mx_hosts : list string) : M retry_result :=
  match mx_hosts with
  | [] => ret {| rt_success_after_retry := false; rt_retries := [];
                 rt_points := 0; rt_skipped := Some true |}
  | mx_host :: _ =>
      (* Reduced delays for faster response: 0, 2 seconds *)
      retry_loop email mx_host [0; 2]
        {| rt_success_after_retry := false; rt_retries := [];
           rt_points := 0; rt_skipped := None |}
  end.

(** *** 14. TLS certificate intelligence *)

Record tls_certificate_result := {
  tc_points : Z;
  tc_self_signed : bool;
  tc_expired : bool;
  tc_domain_match : bool;
  tc_reputable_ca : bool;
  tc_no_tls : option bool;     (* None: key absent *)
  tc_skipped : option bool     (* None: key absent *)
}.

Definition tls_certificate_initial : tls_certificate_result :=
  {| tc_points := 0; tc_self_signed := false; tc_expired := false;
     tc_domain_match := false; tc_reputable_ca := false;
     tc_no_tls := None; tc_skipped := None |}.

(** "Check expiration": whether [notAfter] could be parsed to a date
    that lies before now. *)
Definition certificate_expired (not_after : string) : M bool :=
  try_except
    (_ ← call (ImportModule "dateutil");
     exp_date ← call (DateutilParse not_after);
     now ← time_time;
     ret (PyNum.Qltb exp_date now))
    (fun e =>
       if is_a e ImportError then
         (* Fallback to basic parsing *)
         try_except
           (exp_date ← call (FromIsoFormat (replace_Z not_after));
            now ← time_time;
            ret (PyNum.Qltb exp_date now))
           (fun _ => ret false)
       else ret false).

Definition _check_tls_certificate (mx_host : string)
    : M tls_certificate_result :=
  try_except
    (_ ← call (CreateConnection mx_host 25);
     try_except
       (ssock ← call (WrapSocket mx_host);
        match tls_peercert ssock with
        | None => ret tls_certificate_initial
        | Some cert =>
            (* Check domain match *)
            let common_name :=
              default EmptyString (cert_subject_cn cert) in
            let domain_match :=
              PyStr.contains mx_host common_name ||
              PyStr.contains common_name mx_host in
            (* Check if reputable CA (not self-signed) *)
            let reputable :=
              negb (bool_decide
                      (cert_issuer_cn cert = cert_subject_cn cert)) in
            (* Check expiration *)
            expired ← (if PyStr.truthy_opt (cert_not_after cert)
                       then certificate_expired
                              (default EmptyString (cert_not_after cert))
                       else ret false);
            ret {| tc_points :=
                     (if domain_match then 5 else 0) +
                     (if reputable then 5 else -10) +
                     (if expired then -10 else 0);
                   tc_self_signed := negb reputable;
                   tc_expired := expired;
                   tc_domain_match := domain_match;
                   tc_reputable_ca := reputable;
                   tc_no_tls := None; tc_skipped := None |}
        end)
       (fun e =>
          if is_a e SSLError then
            (* No TLS support or connection issue *)
            ret {| tc_points := 0; tc_self_signed := false;
                   tc_expired := false; tc_domain_match := false;
                   tc_reputable_ca := false;
                   tc_no_tls := Some true; tc_skipped := None |}
          else raise e))
    (fun _ =>
       ret {| tc_points := 0; tc_self_signed := false;
              tc_expired := false; tc_domain_match := false;
              tc_reputable_ca := false;
              tc_no_tls := None; tc_skipped := Some true |}).

(** *** 15. Open ports scan *)

Record mail_ports_result := {
  mp_points : Z;
  mp_open_ports : list Z
}.

Fixpoint mail_ports_loop (mx_host : string) (ports : list Z)
    (result : mail_ports_result) : M mail_ports_result :=
  match ports with
  | [] => ret result
  | port :: rest =>
      result_code ← try_except
                      (rc ← call (ConnectEx mx_host port); ret (rc =? 0)%Z)
                      (fun _ => ret false);
      mail_ports_loop mx_host rest
        (if (result_code : bool) then
           {| mp_points := mp_points result + 2;
              mp_open_ports := mp_open_ports result ++ [port] |}
         else result)
  end.

Definition _check_mail_ports (mx_host : string) : M mail_ports_result :=
  mail_ports_loop mx_host [25; 465; 587; 2525]
    {| mp_points := 0; mp_open_ports := [] |}.

(** *** 16. DNSSEC *)

Record dnssec_result := {
  ds_points : Z;
  ds_dnssec_enabled : bool;
  ds_skipped : option bool       (* None: key absent *)
}.

(** The outer handler is entered when [Resolver()] raises, and only
    then. *)
Definition _check_dnssec (domain : string) : M dnssec_result :=
  try_except
    (_ ← new_resolver;
     (* Try to check for DNSKEY record (indicates DNSSEC) *)
     try_except
       (_ ← call (Resolve domain RD_DNSKEY);
        ret {| ds_points := 5; ds_dnssec_enabled := true;
               ds_skipped := None |})
       (fun _ =>
          (* assume no DNSSEC if DNSKEY fails *)
          try_except
            (_ ← call (Resolve domain RD_A);
             ret {| ds_points := 0; ds_dnssec_enabled := false;
                    ds_skipped := None |})
            (fun _ => ret {| ds_points := 0; ds_dnssec_enabled := false;
                             ds_skipped := None |})))
    (fun _ => ret {| ds_points := 0; ds_dnssec_enabled := false;
                     ds_skipped := Some true |}).

(** *** 17. PTR record *)

Record ptr_result := {
  ptr_points : Z;
  ptr_match : bool;
  ptr_record : option string;    (* None is Python's None *)
  ptr_skipped : option bool      (* None: key absent *)
}.

Definition _check_ptr_record (mx_host : string) : M ptr_result :=
  try_except
    ((* Get IP address of MX host *)
     ip_address ← call (GetHostByName mx_host);
     (* Reverse DNS lookup *)
     ptr ← call (GetHostByAddr ip_address);
     (* Check if PTR matches domain or MX host *)
     if PyStr.contains mx_host ptr || PyStr.contains ptr mx_host
     then ret {| ptr_points := 5; ptr_match := true;
                 ptr_record := Some ptr; ptr_skipped := None |}
     else ret {| ptr_points := -5; ptr_match := false;
                 ptr_record := Some ptr; ptr_skipped := None |})
    (fun e =>
       if is_a e SocketHerror then
         (* No PTR record *)
         ret {| ptr_points := -5; ptr_match := false;
                ptr_record := None; ptr_skipped := None |}
       else
         ret {| ptr_points := 0; ptr_match := false;
                ptr_record := None; ptr_skipped := Some true |}).

(** *** 18. IP reputation *)

Record ip_reputation_result := {
  ipr_points : Z;
  ipr_blacklisted : bool;
  ipr_sources_checked : list string;
  ipr_skipped : option bool      (* None: key absent *)
}.

Definition _check_ip_reputation (mx_host : string)
    : M ip_reputation_result :=
  try_except
    (ip_address ← call (GetHostByName mx_host);
     (* Reverse IP for Spamhaus query *)
     let ip_parts := PyStr.split_all "." ip_address in
     let reversed_ip := PyStr.join "." (reverse ip_parts) in
     let spamhaus_query := reversed_ip ++ ".zen.spamhaus.org" in
     (* Check Spamhaus: a [try] with a bare [except] around the
        resolver and the lookup, which has [except NXDOMAIN] of its own *)
     listed ← try_except
                (_ ← new_resolver;
                 try_except
                   (_ ← call (Resolve spamhaus_query RD_A);
                    (* If resolved, IP is blacklisted *)
                    ret (true, ["spamhaus"]))
                   (fun e =>
                      if is_a e DnsNXDOMAIN then ret (false, ["spamhaus"])
                      else raise e))
                (fun _ => ret (false, []));
     let '(blacklisted, sources) := listed in
     ret {| ipr_points := if (blacklisted : bool) then -10 else 10;
            ipr_blacklisted := blacklisted;
            ipr_sources_checked := sources;
            ipr_skipped := None |})
    (fun _ =>
       ret {| ipr_points := 0; ipr_blacklisted := false;
              ipr_sources_checked := []; ipr_skipped := Some true |}).

(** *** 19. Mail server behaviour *)

(** [behaviors] has a key exactly where the field is [true]. *)
Record server_behavior_result := {
  sb_points : Z;
  sb_allows_ehlo : bool;
  sb_supports_starttls : bool;
  sb_normal_response : bool;
  sb_slow_response : bool
}.

Definition _analyze_server_behavior (smtp_connection : smtp_connection)
    (smtp_rcpt : smtp_rcpt) : server_behavior_result :=
  let allows_ehlo :=
    default false (g_valid (sc_greeting smtp_connection)) in
  let starttls := sc_tls_successful smtp_connection in
  let response_time := t_response_time_sec (rc_timing smtp_rcpt) in
  let normal := PyNum.Qltb 0 response_time && PyNum.Qltb response_time 1 in
  let slow := negb normal && PyNum.Qltb 5 response_time in
  let points :=
    (if allows_ehlo then 3 else 0) + (if starttls then 5 else 0) +
    (if normal then 2 else if slow then -2 else 0) in
  (* Cap points between -5 and 15 *)
  {| sb_points := Z.max (-5) (Z.min 15 points);
     sb_allows_ehlo := allows_ehlo;
     sb_supports_starttls := starttls;
     sb_normal_response := normal;
     sb_slow_response := slow |}.

(** *** 20. MX popularity *)

Record mx_popularity_result := {
  pop_points : Z;
  pop_popularity : string;
  pop_mx_pattern : option string   (* None: key absent *)
}.

Definition popular_mx_patterns : list string :=
  [ "privateemail.com"; "zoho.com"; "hostinger.com"; "google.com";
    "outlook.com"; "yahoo.com"; "amazonaws.com"; "sendgrid.net";
    "mailgun.org" ].

Definition _check_mx_popularity (mx_host : string) : mx_popularity_result :=
  let mx_lower := PyStr.lower mx_host in
  match List.find (fun pattern => PyStr.contains pattern mx_lower)
          popular_mx_patterns with
  | Some pattern =>
      {| pop_points := 10; pop_popularity := "high";
         pop_mx_pattern := Some pattern |}
  | None =>
      {| pop_points := 0; pop_popularity := "unknown";
         pop_mx_pattern := None |}
  end.

(** *** 21. Blocklist behaviour *)

Record blocklist_result := {
  bl_points : Z;
  bl_behavior : string;
  bl_note : option string    (* None: key absent *)
}.

(** [str(x)] of an optional integer. *)
Definition str_opt_Z (x : option Z) : string :=
  match x with
  | Some n => PyStr.of_Z n
  | None => "None"
  end.

(** The key ["error"] of [smtp_rcpt] is always present, so
    [smtp_rcpt.get("error", '')] is its value, [None] included, and
    [.lower()] on [None] raises. [smtp_connection] never has an
    ["error"] key, so the last [elif] is never taken. *)
Definition _analyze_blocklist_behavior (smtp_rcpt : smtp_rcpt)
    (smtp_connection : smtp_connection) : M blocklist_result :=
  let unknown :=
    {| bl_points := 0; bl_behavior := "unknown"; bl_note := None |} in
  if rc_rejected smtp_rcpt then
    match rc_error smtp_rcpt with
    | None =>
        raise (Exn AttributeError
                 "'NoneType' object has no attribute 'lower'")
    | Some error =>
        let error := PyStr.lower error in
        if PyStr.contains "user unknown" error ||
           PyStr.contains "550" (str_opt_Z (rc_response_code smtp_rcpt))
        then ret {| bl_points := 5; bl_behavior := "instant_reject";
                    bl_note := Some
                      "Server instantly rejects unknown users (good sign)" |}
        else ret unknown
    end
  else if rc_accepted smtp_rcpt then
    ret {| bl_points := 0; bl_behavior := "accepts"; bl_note := None |}
  else if rc_soft_failure smtp_rcpt then
    ret {| bl_points := 3; bl_behavior := "greylist"; bl_note := None |}
  else ret unknown.

(** *** 22. MX consistency *)

Record mx_consistency_result := {
  mxc_points : Z;
  mxc_mx_to_a : bool;
  mxc_a_to_ptr : bool;
  mxc_ptr_to_a : bool;
  mxc_perfect_cycle : bool;
  mxc_mx_ip : option string;        (* None: key absent *)
  mxc_ptr_record : option string;   (* None: key absent *)
  mxc_skipped : option bool         (* None: key absent *)
}.

(** The innermost bare [except] and [except socket.herror] set -10; any
    other exception of the reverse lookup reaches the bare [except] of
    the forward lookup, which sets -10 as well. The outermost handler is
    entered when [Resolver()] raises, and only then (the resolver is not
    used afterwards). *)
Definition _check_mx_consistency (mx_host domain : string)
    : M mx_consistency_result :=
  try_except
    (_ ← new_resolver;
     forward ← try_except (ip ← call (GetHostByName mx_host); ret (Some ip))
                 (fun _ => ret None);
     match forward with
     | None =>
         (* MX doesn't resolve *)
         ret {| mxc_points := -10; mxc_mx_to_a := false;
                mxc_a_to_ptr := false; mxc_ptr_to_a := false;
                mxc_perfect_cycle := false; mxc_mx_ip := None;
                mxc_ptr_record := None; mxc_skipped := None |}
     | Some mx_ip =>
         reverse_lookup ← try_except
                            (ptr ← call (GetHostByAddr mx_ip); ret (Some ptr))
                            (fun _ => ret None);
         match reverse_lookup with
         | None =>
             (* No PTR record *)
             ret {| mxc_points := -10; mxc_mx_to_a := true;
                    mxc_a_to_ptr := false; mxc_ptr_to_a := false;
                    mxc_perfect_cycle := false; mxc_mx_ip := Some mx_ip;
                    mxc_ptr_record := None; mxc_skipped := None |}
         | Some ptr_record =>
             cycle ← try_except
                       (ptr_ip ← call (GetHostByName ptr_record);
                        ret (String.eqb ptr_ip mx_ip))
                       (fun _ => ret false);
             ret {| mxc_points := if cycle then 10 else -10;
                    mxc_mx_to_a := true; mxc_a_to_ptr := true;
                    mxc_ptr_to_a := cycle; mxc_perfect_cycle := cycle;
                    mxc_mx_ip := Some mx_ip;
                    mxc_ptr_record := Some ptr_record;
                    mxc_skipped := None |}
         end
     end)
    (fun _ =>
       ret {| mxc_points := 0; mxc_mx_to_a := false; mxc_a_to_ptr := false;
              mxc_ptr_to_a := false; mxc_perfect_cycle := false;
              mxc_mx_ip := None; mxc_ptr_record := None;
              mxc_skipped := Some true |}).

(** *** 23. TLS policy strength *)

Record tls_policy_result := {
  tp_points : Z;
  tp_supports_starttls : bool;
  tp_allows_downgrade : bool;
  tp_modern_ciphers : bool;
  tp_secure : bool;
  tp_skipped : option bool     (* None: key absent *)
}.

Definition _check_tls_policy_strength (mx_host : string)
    : M tls_policy_result :=
  try_except
    (_ ← call (CreateConnection mx_host 25);
     try_except
       ((* Try STARTTLS *)
        ssock ← call (WrapSocket mx_host);
        (* Check cipher (basic check) *)
        if tls_cipher ssock
        then ret {| tp_points := 10; tp_supports_starttls := true;
                    tp_allows_downgrade := false;
                    tp_modern_ciphers := true; tp_secure := true;
                    tp_skipped := None |}
        else ret {| tp_points := -5; tp_supports_starttls := true;
                    tp_allows_downgrade := false;
                    tp_modern_ciphers := false; tp_secure := true;
                    tp_skipped := None |})
       (fun e =>
          if is_a e SSLError then
            ret {| tp_points := -5; tp_supports_starttls := false;
                   tp_allows_downgrade := true;
                   tp_modern_ciphers := false; tp_secure := false;
                   tp_skipped := None |}
          else raise e))
    (fun _ =>
       ret {| tp_points := 0; tp_supports_starttls := false;
              tp_allows_downgrade := false; tp_modern_ciphers := false;
              tp_secure := false; tp_skipped := Some true |}).

(** *** 24. MX redundancy *)

Record mx_redundancy_result := {
  mxr_points : Z;
  mxr_mx_count : Z;
  mxr_redundancy : string
}.

Definition _check_mx_redundancy (mx_hosts : list string)
    : mx_redundancy_result :=
  let mx_count := Z.of_nat (length mx_hosts) in
  if (mx_count =? 0)%Z then
    {| mxr_points := -20; mxr_mx_count := mx_count;
       mxr_redundancy := "none" |}
  else if (mx_count =? 1)%Z then
    {| mxr_points := -3; mxr_mx_count := mx_count;
       mxr_redundancy := "single" |}
  else if (2 <=? mx_count)%Z && (mx_count <=? 4)%Z then
    {| mxr_points := 5; mxr_mx_count := mx_count;
       mxr_redundancy := "strong" |}
  else
    {| mxr_points := 3; mxr_mx_count := mx_count;
       mxr_redundancy := "excessive" |}.

(** *** 25. SMTP transaction strictness *)

(** [checks] has a key exactly where the field is [true]. *)
Record strictness_result := {
  st_points : Z;
  st_strictness_level : string;
  st_valid_ehlo : bool;
  st_validates_mailfrom : bool;
  st_rejects_malformed : bool;
  st_enforces_antispam : bool
}.

(** [str(x)] of an optional string. *)
Definition str_opt (x : option string) : string := default "None" x.

(** Truth value of an optional integer ([None] or [int]). *)
Definition truthy_opt_Z (x : option Z) : bool :=
  match x with
  | Some n => negb (n =? 0)%Z
  | None => false
  end.

(** As in [_analyze_blocklist_behavior], [smtp_rcpt.get("error", '')]
    is the value of the key, and [.lower()] raises when it is [None]. *)
Definition _check_smtp_strictness (smtp_connection : smtp_connection)
    (smtp_rcpt : smtp_rcpt) : M strictness_result :=
  (* Check EHLO response *)
  let valid_ehlo :=
    default false (g_valid (sc_greeting smtp_connection)) in
  (* Check if MAIL FROM was validated *)
  let validates_mailfrom :=
    truthy_opt_Z (rc_response_code smtp_rcpt) &&
    negb (is_250_251 (default 0 (rc_response_code smtp_rcpt))) &&
    PyStr.contains "mail" (PyStr.lower (str_opt (rc_error smtp_rcpt))) in
  (* Check if malformed commands are rejected *)
  let rejects_malformed :=
    rc_rejected smtp_rcpt &&
    match rc_response_code smtp_rcpt with
    | Some code => (code =? 500)%Z || (code =? 501)%Z || (code =? 502)%Z
    | None => false
    end in
  (* Check if anti-spam rules are enforced *)
  match rc_error smtp_rcpt with
  | None =>
      raise (Exn AttributeError
               "'NoneType' object has no attribute 'lower'")
  | Some error =>
      let error := PyStr.lower error in
      let enforces_antispam :=
        PyStr.contains "spam" error || PyStr.contains "policy" error ||
        PyStr.contains "block" error in
      let points :=
        (if valid_ehlo then 2 else 0) +
        (if validates_mailfrom then 3 else 0) +
        (if rejects_malformed then 3 else 0) +
        (if enforces_antispam then 2 else 0) in
      (* Determine strictness level *)
      let mk level final :=
        {| st_points := final; st_strictness_level := level;
           st_valid_ehlo := valid_ehlo;
           st_validates_mailfrom := validates_mailfrom;
           st_rejects_malformed := rejects_malformed;
           st_enforces_antispam := enforces_antispam |} in
      if (8 <=? points)%Z then ret (mk "strict" 10)
      else if (4 <=? points)%Z then ret (mk "moderate" 0)
      else ret (mk "loose" (-5))
  end.

(** *** 26. MAIL FROM domain health *)

Record mailfrom_result := {
  mf_points : Z;
  mf_rejects_rare_domain : bool;
  mf_accepts_anything : bool;
  mf_skipped : option bool     (* None: key absent *)
}.

(** (The outer handler is never entered; a call that raises after MAIL
    FROM was answered leaves the points as set.) *)
Definition _check_mailfrom_health (domain : string)
    (mx_hosts : list string) (smtp_connection : smtp_connection)
    : M mailfrom_result :=
  if bool_decide (mx_hosts = []) ||
     default false (sc_skipped smtp_connection)
  then ret {| mf_points := 0; mf_rejects_rare_domain := false;
              mf_accepts_anything := false; mf_skipped := Some true |}
  else
    let mx_host := or_first (sc_mx_used smtp_connection) mx_hosts in
    (* Test with a fake/rare domain *)
    n ← random_randint 10000 99999;
    let fake_domain := "test-" ++ PyStr.of_Z n ++ ".invalid" in
    let fake_sender := "test@" ++ fake_domain in
    answer ← try_except
               (_ ← call (SmtpConnect mx_host 25);
                _ ← call SmtpEhlo;
                (* Try MAIL FROM with fake domain *)
                r ← call (SmtpMail fake_sender);
                ret (Some r))
               (fun _ => ret None);
    match answer with
    | None =>
        ret {| mf_points := 0; mf_rejects_rare_domain := false;
               mf_accepts_anything := false; mf_skipped := None |}
    | Some r =>
        _ ← try_except (_ ← call SmtpQuit; ret tt) (fun _ => ret tt);
        if negb (is_250_251 (reply_code r))
        then ret {| mf_points := 7; mf_rejects_rare_domain := true;
                    mf_accepts_anything := false; mf_skipped := None |}
        else ret {| mf_points := -7; mf_rejects_rare_domain := false;
                    mf_accepts_anything := true; mf_skipped := None |}
    end.

(** *** 27. Connection latency fingerprinting *)

Record latency_result := {
  lat_points : Z;
  lat_tcp_handshake : Z;
  lat_smtp_banner : Z;
  lat_ehlo_latency : Z;
  lat_rcpt_latency : Z;
  lat_pattern : string
}.

Definition _analyze_connection_latency (smtp_connection : smtp_connection)
    (smtp_rcpt : smtp_rcpt) : latency_result :=
  let rcpt_time := t_response_time_sec (rc_timing smtp_rcpt) in
  let mk pattern points :=
    {| lat_points := points; lat_tcp_handshake := 0;
       lat_smtp_banner := 0; lat_ehlo_latency := 0;
       lat_rcpt_latency := 0; lat_pattern := pattern |} in
  (* Analyze latency patterns *)
  if PyNum.Qltb rcpt_time (1 # 2) then mk "instant_reject" (-10)
  else if PyNum.Qleb (1 # 2) rcpt_time && PyNum.Qleb rcpt_time 3
  then mk "normal" 8
  else if PyNum.Qltb 3 rcpt_time && PyNum.Qleb rcpt_time 10
  then mk "slow" 0
  else mk "very_slow" (-5).

(** *** 28. SMTP load-balancer behaviour *)

Record lb_response := {
  lb_mx : string;
  lb_code : option Z;          (* None: key absent *)
  lb_message : option string;  (* None: key absent *)
  lb_error : option string     (* None: key absent *)
}.

Record loadbalancer_result := {
  lbr_points : Z;
  lbr_consistent : bool;
  lbr_responses : list lb_response;
  lbr_skipped : option bool    (* None: key absent *)
}.

Definition lb_failed (mx_host : string) (e : exn) : lb_response :=
  {| lb_mx := mx_host; lb_code := None; lb_message := None;
     lb_error := Some (exn_msg e) |}.

(** The loop over [mx_hosts[:2]]: the responses it appends. A QUIT that
    raises after the answer was appended appends an error entry for
    the same host. *)
Fixpoint loadbalancer_loop (email : string) (hosts : list string)
    (responses : list lb_response) : M (list lb_response) :=
  match hosts with
  | [] => ret responses
  | mx_host :: rest =>
      answer ← try_except
                 (_ ← call (SmtpConnect mx_host 25);
                  _ ← call SmtpEhlo;
                  _ ← call (SmtpMail ("verify@" ++ _sender_domain self));
                  r ← call (SmtpRcpt email);
                  ret (inr r))
                 (fun e => ret (inl e));
      match answer with
      | inl e =>
          loadbalancer_loop email rest
            (responses ++ [lb_failed mx_host e])%list
      | inr r =>
          let responses :=
            (responses ++ [{| lb_mx := mx_host;
                              lb_code := Some (reply_code r);
                              lb_message := Some (reply_text r);
                              lb_error := None |}])%list in
          quit ← try_except (_ ← call SmtpQuit; ret None)
                   (fun e => ret (Some e));
          match quit with
          | None => loadbalancer_loop email rest responses
          | Some e =>
              loadbalancer_loop email rest
                (responses ++ [lb_failed mx_host e])%list
          end
      end
  end.

(** [len(set(codes)) == 1] *)
Definition all_one_code (codes : list Z) : bool :=
  match codes with
  | [] => false
  | c :: cs => forallb (Z.eqb c) cs
  end.

Definition _check_loadbalancer_behavior (email domain : string)
    (mx_hosts : list string) : M loadbalancer_result :=
  if (length mx_hosts <? 2)%nat
  then ret {| lbr_points := 0; lbr_consistent := false;
              lbr_responses := []; lbr_skipped := Some true |}
  else
    (* Test first 2 MX hosts *)
    responses ← loadbalancer_loop email (take 2 mx_hosts) [];
    (* Check if responses are consistent *)
    if (2 <=? length responses)%nat then
      let codes :=
        omap (fun r => if truthy_opt_Z (lb_code r) then lb_code r else None)
          responses in
      if all_one_code codes
      then ret {| lbr_points := 5; lbr_consistent := true;
                  lbr_responses := responses; lbr_skipped := None |}
      else ret {| lbr_points := -10; lbr_consistent := false;
                  lbr_responses := responses; lbr_skipped := None |}
    else ret {| lbr_points := 0; lbr_consistent := false;
                lbr_responses := responses; lbr_skipped := None |}.

(** *** 29. VRFY-lite behaviour *)

Record vrfy_result := {
  vl_points : Z;
  vl_domain_response : option reply;   (* None is Python's None *)
  vl_user_response : option reply;     (* None is Python's None *)
  vl_different_responses : bool;
  vl_skipped : option bool             (* None: key absent *)
}.

(** How far the dialogue of [_check_vrfy_lite_behavior] got before a
    call raised, if one did. *)
Inductive vrfy_dialogue :=
| VrfyNothing
| VrfyDomain (r1 : reply)
| VrfyBoth (r1 r2 : reply).

Definition _check_vrfy_lite_behavior (email domain : string)
    (mx_hosts : list string) (smtp_connection : smtp_connection)
    : M vrfy_result :=
  if bool_decide (mx_hosts = []) ||
     default false (sc_skipped smtp_connection)
  then ret {| vl_points := 0; vl_domain_response := None;
              vl_user_response := None; vl_different_responses := false;
              vl_skipped := Some true |}
  else
    let mx_host := or_first (sc_mx_used smtp_connection) mx_hosts in
    first ← try_except
              (_ ← call (SmtpConnect mx_host 25);
               _ ← call SmtpEhlo;
               _ ← call (SmtpMail ("verify@" ++ _sender_domain self));
               (* Test RCPT TO:<@domain.com> *)
               r1 ← call (SmtpRcpt ("@" ++ domain));
               ret (Some r1))
              (fun _ => ret None);
    match first with
    | None =>
        ret {| vl_points := 0; vl_domain_response := None;
               vl_user_response := None; vl_different_responses := false;
               vl_skipped := Some true |}
    | Some r1 =>
        (* Test RCPT TO:<realuser@domain.com> *)
        second ← try_except (r2 ← call (SmtpRcpt email); ret (Some r2))
                   (fun _ => ret None);
        match second with
        | None =>
            ret {| vl_points := 0; vl_domain_response := Some r1;
                   vl_user_response := None;
                   vl_different_responses := false;
                   vl_skipped := Some true |}
        | Some r2 =>
            (* Compare responses *)
            let different := negb (reply_code r1 =? reply_code r2)%Z in
            quit_ok ← try_except (_ ← call SmtpQuit; ret true)
                        (fun _ => ret false);
            ret {| vl_points := if different then 6 else -6;
                   vl_domain_response := Some r1;
                   vl_user_response := Some r2;
                   vl_different_responses := different;
                   vl_skipped := if quit_ok then None else Some true |}
        end
    end.

(** *** 30. Role accounts *)

Record role_entry := {
  role_valid : bool;
  role_code : option Z;      (* None: key absent *)
  role_error : option bool   (* None: key absent *)
}.

Record role_accounts_result := {
  ra_points : Z;
  ra_role_accounts : list (string * role_entry);
  ra_all_valid : bool;
  ra_all_invalid : bool;
  ra_skipped : option bool   (* None: key absent *)
}.

Definition role_failed : role_entry :=
  {| role_valid := false; role_code := None; role_error := Some true |}.

(** The loop over the role names: the entries and [valid_count]. A QUIT
    that raises after a valid answer replaces the entry but leaves the
    count incremented. *)
Fixpoint role_accounts_loop (domain mx_host : string) (roles : list string)
    (entries : list (string * role_entry)) (valid_count : Z)
    : M (list (string * role_entry) * Z) :=
  match roles with
  | [] => ret (entries, valid_count)
  | role :: rest =>
      let role_email := role ++ "@" ++ domain in
      answer ← try_except
                 (_ ← call (SmtpConnect mx_host 25);
                  _ ← call SmtpEhlo;
                  _ ← call (SmtpMail ("verify@" ++ _sender_domain self));
                  r ← call (SmtpRcpt role_email);
                  ret (Some r))
                 (fun _ => ret None);
      match answer with
      | None =>
          role_accounts_loop domain mx_host rest
            (entries ++ [(role, role_failed)])%list valid_count
      | Some r =>
          let is_valid := is_250_251 (reply_code r) in
          let valid_count :=
            if is_valid then valid_count + 1 else valid_count in
          quit_ok ← try_except (_ ← call SmtpQuit; ret true)
                      (fun _ => ret false);
          role_accounts_loop domain mx_host rest
            (entries ++
             [(role, if quit_ok
                     then {| role_valid := is_valid;
                             role_code := Some (reply_code r);
                             role_error := None |}
                     else role_failed)])%list
            valid_count
      end
  end.

Definition role_accounts : list string :=
  [ "postmaster"; "abuse"; "support"; "info" ].

Definition _check_role_accounts (domain : string) (mx_hosts : list string)
    : M role_accounts_result :=
  match mx_hosts with
  | [] => ret {| ra_points := 0; ra_role_accounts := [];
                 ra_all_valid := false; ra_all_invalid := false;
                 ra_skipped := Some true |}
  | mx_host :: _ =>
      '(entries, valid_count) ←
        role_accounts_loop domain mx_host role_accounts [] 0;
      let all_valid :=
        (valid_count =? Z.of_nat (length role_accounts))%Z in
      let all_invalid := negb all_valid && (valid_count =? 0)%Z in
      ret {| ra_points := if all_valid then 6
                          else if all_invalid then -6 else 0;
             ra_role_accounts := entries;
             ra_all_valid := all_valid;
             ra_all_invalid := all_invalid;
             ra_skipped := None |}
  end.

(** *** 31. MX brand *)

Record mx_brand_result := {
  mb_points : Z;
  mb_brand : string;
  mb_trusted : bool
}.

(** [trusted_brands], in the order of the dictionary literal. *)
Definition trusted_brands : list (string * string) :=
  [ ("google.com", "Gmail"); ("outlook.com", "Microsoft");
    ("secureserver.net", "GoDaddy"); ("privateemail.com", "Namecheap");
    ("mailsrvr.com", "Rackspace"); ("amazonaws.com", "AWS SES");
    ("sendgrid.net", "SendGrid"); ("mailgun.org", "Mailgun");
    ("mailgun.com", "Mailgun"); ("zoho.com", "Zoho");
    ("yahoo.com", "Yahoo"); ("aol.com", "AOL") ].

Definition _check_mx_brand (mx_host : string) : mx_brand_result :=
  let mx_lower := PyStr.lower mx_host in
  match List.find (fun b => PyStr.contains b.1 mx_lower) trusted_brands with
  | Some (_, brand_name) =>
      {| mb_points := 10; mb_brand := brand_name; mb_trusted := true |}
  | None =>
      {| mb_points := 0; mb_brand := "custom"; mb_trusted := false |}
  end.

(** *** 32. Greylist depth *)

Record greylist_response := {
  gr_attempt : Z;
  gr_code : option Z;          (* None: key absent *)
  gr_message : option string;  (* None: key absent *)
  gr_error : option string     (* None: key absent *)
}.

Record greylist_result := {
  gd_points : Z;
  gd_depth : Z;
  gd_pattern_matches : bool;
  gd_skipped : option bool;                      (* None: key absent *)
  gd_responses : option (list greylist_response) (* None: key absent *)
}.

Definition greylist_failed (attempt : Z) (e : exn) : greylist_response :=
  {| gr_attempt := attempt + 1; gr_code := None; gr_message := None;
     gr_error := Some (exn_msg e) |}.

(** The loop [for attempt in range(3)], from [attempt] on: depth,
    pattern_matches, points and the responses. *)
Fixpoint greylist_loop (email mx_host : string) (attempts : list Z)
    (responses : list greylist_response)
    : M (Z * bool * Z * list greylist_response) :=
  match attempts with
  | [] => ret (0, false, 0, responses)
  | attempt :: rest =>
      (* Wait between attempts *)
      _ ← (if (0 <? attempt)%Z then time_sleep 2 else ret tt);
      answer ← try_except
                 (_ ← call (SmtpConnect mx_host 25);
                  _ ← call SmtpEhlo;
                  _ ← call (SmtpMail ("verify@" ++ _sender_domain self));
                  r ← call (SmtpRcpt email);
                  ret (inr r))
                 (fun e => ret (inl e));
      match answer with
      | inl e =>
          greylist_loop email mx_host rest
            (responses ++ [greylist_failed attempt e])%list
      | inr r =>
          let responses :=
            (responses ++ [{| gr_attempt := attempt + 1;
                              gr_code := Some (reply_code r);
                              gr_message := Some (reply_text r);
                              gr_error := None |}])%list in
          quit ← try_except (_ ← call SmtpQuit; ret None)
                   (fun e => ret (Some e));
          match quit with
          | Some e =>
              greylist_loop email mx_host rest
                (responses ++ [greylist_failed attempt e])%list
          | None =>
              (* Check if pattern matches greylist behavior *)
              if is_250_251 (reply_code r) then
                if (1 <=? attempt)%Z
                then ret (attempt + 1, true, 10, responses)
                else ret (attempt + 1, false, 0, responses)
              else greylist_loop email mx_host rest responses
          end
      end
  end.

(** (The outer handler, with its [break], is never entered.) *)
Definition _check_greylist_depth (email domain : string)
    (mx_hosts : list string) : M greylist_result :=
  match mx_hosts with
  | [] => ret {| gd_points := 0; gd_depth := 0;
                 gd_pattern_matches := false; gd_skipped := Some true;
                 gd_responses := None |}
  | mx_host :: _ =>
      (* Simulate 3 attempts *)
      '(depth, pattern_matches, points, responses) ←
        greylist_loop email mx_host [0; 1; 2] [];
      ret {| gd_points := points; gd_depth := depth;
             gd_pattern_matches := pattern_matches; gd_skipped := None;
             gd_responses := Some responses |}
  end.

(** *** 33. SMTP banner *)

Record banner_result := {
  bn_points : Z;
  bn_has_metadata : bool;
  bn_provider_identified : bool;
  bn_professional : bool;
  bn_identified_provider : option string   (* None: key absent *)
}.

Definition professional_patterns : list string :=
  [ "esmtp"; "postfix"; "sendmail"; "exim"; "microsoft"; "exchange";
    "mailjet"; "sendgrid"; "mailgun"; "amazon"; "google" ].

Definition suspicious_patterns : list string :=
  [ "test"; "fake"; "honeypot"; "spam" ].

Definition _analyze_smtp_banner (banner_message : string) : banner_result :=
  let banner_lower := PyStr.lower banner_message in
  let plain points :=
    {| bn_points := points; bn_has_metadata := false;
       bn_provider_identified := false; bn_professional := false;
       bn_identified_provider := None |} in
  (* Check for professional metadata patterns *)
  match List.find (fun pattern => PyStr.contains pattern banner_lower)
          professional_patterns with
  | Some pattern =>
      {| bn_points := 8; bn_has_metadata := true;
         bn_provider_identified := true; bn_professional := true;
         bn_identified_provider := Some pattern |}
  | None =>
      (* Check for suspicious patterns *)
      if existsb (fun pattern => PyStr.contains pattern banner_lower)
           suspicious_patterns
      then plain (-8)
      (* No metadata or generic *)
      else if (PyStr.len (PyStr.strip banner_message) <? 10)%nat
      then plain (-8)
      else plain 0
  end.

(** *** 34. Domain blacklists *)

Record domain_blacklists_result := {
  dbl_points : Z;
  dbl_blacklisted : bool;
  dbl_sources_checked : list string;
  dbl_skipped : option bool    (* None: key absent *)
}.

(** One list: [Some true] listed, [Some false] NXDOMAIN (not listed),
    [None] any other exception, which only the outer handler catches. *)
Definition blacklist_lookup (query : string) : M (option bool) :=
  try_except (_ ← call (Resolve query RD_A); ret (Some true))
    (fun e => if is_a e DnsNXDOMAIN then ret (Some false) else ret None).

(** The outer handler, which sets [skipped], is entered when
    [Resolver()] raises or a lookup raises something else than
    [NXDOMAIN]. *)
Definition _check_domain_blacklists (domain : string)
    : M domain_blacklists_result :=
  resolver ← try_except (_ ← new_resolver; ret true) (fun _ => ret false);
  if negb resolver then
    ret {| dbl_points := 0; dbl_blacklisted := false;
           dbl_sources_checked := []; dbl_skipped := Some true |}
  else
  (* Spamhaus DBL check *)
  dbl ← blacklist_lookup (domain ++ ".dbl.spamhaus.org");
  match dbl with
  | Some true =>
      ret {| dbl_points := -10; dbl_blacklisted := true;
             dbl_sources_checked := ["spamhaus_dbl"];
             dbl_skipped := None |}
  | None =>
      ret {| dbl_points := 0; dbl_blacklisted := false;
             dbl_sources_checked := []; dbl_skipped := Some true |}
  | Some false =>
      (* SURBL check *)
      surbl ← blacklist_lookup (domain ++ ".multi.surbl.org");
      match surbl with
      | Some true =>
          ret {| dbl_points := -10; dbl_blacklisted := true;
                 dbl_sources_checked := ["spamhaus_dbl"; "surbl"];
                 dbl_skipped := None |}
      | None =>
          ret {| dbl_points := 0; dbl_blacklisted := false;
                 dbl_sources_checked := ["spamhaus_dbl"];
                 dbl_skipped := Some true |}
      | Some false =>
          (* If not blacklisted *)
          ret {| dbl_points := 10; dbl_blacklisted := false;
                 dbl_sources_checked := ["spamhaus_dbl"; "surbl"];
                 dbl_skipped := None |}
      end
  end.

(** *** 35. QUIT behaviour *)

Record quit_result := {
  q_points : Z;
  q_proper_quit : bool;
  q_skipped : option bool    (* None: key absent *)
}.

Definition _check_quit_behavior (mx_host : string) : M quit_result :=
  try_except
    (_ ← call (SmtpConnect mx_host 25);
     _ ← call SmtpEhlo;
     (* Try to quit and check response *)
     try_except
       (r ← call SmtpQuit;
        if (reply_code r =? 221)%Z
        then ret {| q_points := 4; q_proper_quit := true;
                    q_skipped := None |}
        else ret {| q_points := -4; q_proper_quit := false;
                    q_skipped := None |})
       (fun _ => ret {| q_points := -4; q_proper_quit := false;
                        q_skipped := None |}))
    (fun _ => ret {| q_points := 0; q_proper_quit := false;
                     q_skipped := Some true |}).

(** *** 36. TCP stability *)

Record tcp_stability_result := {
  tcp_points : Z;
  tcp_stable : bool;
  tcp_retransmissions_detected : bool
}.

Fixpoint tcp_attempts (mx_host : string) (n : nat) (stable_connections : Z)
    : M Z :=
  match n with
  | O => ret stable_connections
  | S n' =>
      ok ← try_except
             (result_code ← call (ConnectEx mx_host 25);
              ret (result_code =? 0)%Z)
             (fun _ => ret false);
      tcp_attempts mx_host n'
        (if (ok : bool) then stable_connections + 1 else stable_connections)
  end.

(** (The outer handler is never entered.) *)
Definition _check_tcp_stability (mx_host : string)
    : M tcp_stability_result :=
  let total_attempts := 3 in
  stable_connections ← tcp_attempts mx_host 3 0;
  if (stable_connections =? total_attempts)%Z
  then ret {| tcp_points := 5; tcp_stable := true;
              tcp_retransmissions_detected := false |}
  else if (total_attempts / 2 <=? stable_connections)%Z
  then ret {| tcp_points := 0; tcp_stable := false;
              tcp_retransmissions_detected := false |}
  else ret {| tcp_points := -5; tcp_stable := false;
              tcp_retransmissions_detected := true |}.

(** *** The orchestrator *)

(** A value of [score_details]: the result dictionary of one probe. *)
Inductive detail :=
| DSyntax (r : syntax_result)
| DDnsHealth (r : dns_result)
| DDomainAge (r : age_result)
| DSmtpConnection (r : smtp_connection)
| DSmtpGreeting (r : greeting)
| DSmtpRcpt (r : smtp_rcpt)
| DSmtpTiming (r : timing)
| DSecurityReputation (r : security_result)
| DWebPresence (r : web_result)
| DProviderFingerprint (r : fingerprint_result)
| DErrorPattern (r : error_pattern_result)
| DProviderRules (r : provider_rules_result)
| DSmtpRetry (r : retry_result)
| DTlsCertificate (r : tls_certificate_result)
| DMailPorts (r : mail_ports_result)
| DDnssec (r : dnssec_result)
| DPtrRecord (r : ptr_result)
| DIpReputation (r : ip_reputation_result)
| DServerBehavior (r : server_behavior_result)
| DMxPopularity (r : mx_popularity_result)
| DBlocklistBehavior (r : blocklist_result)
| DMxConsistency (r : mx_consistency_result)
| DTlsPolicy (r : tls_policy_result)
| DMxRedundancy (r : mx_redundancy_result)
| DSmtpStrictness (r : strictness_result)
| DMailfromHealth (r : mailfrom_result)
| DLatencyFingerprint (r : latency_result)
| DLoadbalancer (r : loadbalancer_result)
| DVrfyLite (r : vrfy_result)
| DRoleAccounts (r : role_accounts_result)
| DMxBrand (r : mx_brand_result)
| DGreylistDepth (r : greylist_result)
| DSmtpBanner (r : banner_result)
| DDomainBlacklists (r : domain_blacklists_result)
| DQuitBehavior (r : quit_result)
| DTcpStability (r : tcp_stability_result)
| DCatchAll (r : catch_all_result)
| DInternetCheck (payload : string)
| DInternetCheckError (error : string).

(** The dictionary [verify_email] returns. *)
Record verification := {
  v_email : string;
  v_status : string;
  v_score : Z;
  v_confidence : Q;
  v_reason : string;
  v_details : gmap string detail;
  v_risky : option bool      (* None: key absent *)
}.

(** [int(x)] for a finite [float]: towards zero. *)
Definition int_of_Q (x : Q) : Z := Z.quot (Qnum x) (Z.pos (Qden x)).

(** The integer that [int(x)] gives, when it gives one. *)
Definition int_value (x : number) : option Z :=
  match x with
  | NInt n => Some n
  | NFloat x => Some (int_of_Q x)
  | NInfinity _ | NNan => None
  end.

(** [int(x)] *)
Definition int_of_number (x : number) : M Z :=
  match x with
  | NInt n => ret n
  | NFloat x => ret (int_of_Q x)
  | NInfinity _ =>
      raise (Exn OtherException "cannot convert float infinity to integer")
  | NNan => raise (Exn OtherException "cannot convert float NaN to integer")
  end.

(** "Determine status based on score": status and reason. *)
Definition status_of_score (score : Z) : string * string :=
  if (90 <=? score)%Z then ("valid", "Very likely valid")
  else if (70 <=? score)%Z
  then ("likely_valid", "Probably valid but unconfirmed")
  else if (50 <=? score)%Z
  then ("uncertain", "Uncertain (common when SMTP blocks verification)")
  else if (20 <=? score)%Z then ("likely_invalid", "Likely invalid")
  else ("invalid", "Definitely invalid").

(** [score / 100.0] *)
Definition confidence_of (score : Z) : Q := (inject_Z score / 100)%Q.

(** "Apply optional per-domain overrides", the last step of
    [verify_email]: an entry of the table for the domain (an empty
    dictionary counts as none, and changes nothing here either) raises
    the score to [int(min_score)] and sets the status to [force_status],
    where it has them. *)
Definition apply_override (domain : string) (result : verification)
    : M verification :=
  overrides ← DOMAIN_CONFIDENCE_OVERRIDES;
  match overrides !! domain with
  | Some override =>
      score ←
        match ov_min_score override with
        | Some min_score =>
            floor ← int_of_number min_score;
            ret (Z.max (v_score result) floor)
        | None => ret (v_score result)
        end;
      ret {| v_email := v_email result;
             v_status := default (v_status result)
                           (ov_force_status override);
             v_score := score;
             v_confidence :=
               match ov_min_score override with
               | Some _ => confidence_of score
               | None => v_confidence result
               end;
             v_reason := v_reason result; v_details := v_details result;
             v_risky := v_risky result |}
  | None => ret result
  end.

Definition verify_email (email : string) (fast_mode : bool)
    (confidence_mode : string) (internet_checks : bool) : M verification :=
  let score := 0 in
  let score_details : gmap string detail := ∅ in
  (* 1. Basic Syntax Validation *)
  let syntax_result := _check_syntax email in
  let score := score + sx_points syntax_result in
  let score_details := <["syntax" := DSyntax syntax_result]> score_details in
  if negb (sx_valid syntax_result) then
    ret {| v_email := email; v_status := "invalid"; v_score := 0;
           v_confidence := 0; v_reason := "Invalid email syntax";
           v_details := score_details; v_risky := None |}
  else
  '(local_part, domain) ←
    match PyStr.split_once "@" (PyStr.lower email) with
    | Some parts => ret parts
    | None =>
        (* unpacking a one-element list *)
        raise (Exn OtherException
                 "not enough values to unpack (expected 2, got 1)")
    end;
  (* 2. Domain Existence & DNS Health *)
  dns_result ← _check_dns_health domain;
  let score := score + dns_points dns_result in
  let score_details :=
    <["dns_health" := DDnsHealth dns_result]> score_details in
  if negb (dns_domain_exists dns_result) then
    ret {| v_email := email; v_status := "invalid"; v_score := score;
           v_confidence := confidence_of score;
           v_reason := "Domain does not exist";
           v_details := score_details; v_risky := None |}
  else
  let mx_hosts := dns_mx_hosts dns_result in
  (* 3. Domain Age & Reputation *)
  age_result ← _check_domain_age domain;
  let score := score + age_points age_result in
  let score_details :=
    <["domain_age" := DDomainAge age_result]> score_details in
  (* 4. SMTP Connection Test *)
  smtp_connection ← _check_smtp_connection domain mx_hosts fast_mode;
  let score := score + sc_points smtp_connection in
  let score_details :=
    <["smtp_connection" := DSmtpConnection smtp_connection]>
      score_details in
  (* 5. SMTP Server Greeting Behavior *)
  let greeting_result := sc_greeting smtp_connection in
  let score := score + default 0 (g_points greeting_result) in
  let score_details :=
    <["smtp_greeting" := DSmtpGreeting greeting_result]> score_details in
  (* 6. SMTP RCPT TO / Verification Response *)
  smtp_rcpt ← _check_smtp_rcpt email domain mx_hosts smtp_connection
                fast_mode;
  let score := score + rc_points smtp_rcpt in
  let score_details := <["smtp_rcpt" := DSmtpRcpt smtp_rcpt]> score_details in
  (* Handle hard failures - set score to 0-10 if invalid *)
  let score := if rc_hard_failure smtp_rcpt then Z.min score 10 else score in
  (* 7. SMTP Behavior Timing *)
  let timing_result := rc_timing smtp_rcpt in
  let score := score + t_points timing_result in
  let score_details :=
    <["smtp_timing" := DSmtpTiming timing_result]> score_details in
  (* 8. Domain Security Reputation Signals *)
  security_result ← _check_security_reputation domain;
  let score := score + sec_points security_result in
  let score_details :=
    <["security_reputation" := DSecurityReputation security_result]>
      score_details in
  (* 9. Web Presence Check (Domain-Level Only) *)
  web_result ← _check_web_presence domain;
  let score := score + web_points web_result in
  let score_details :=
    <["web_presence" := DWebPresence web_result]> score_details in
  (* 10. Mailbox Provider Fingerprinting (MPF) *)
  '(score, score_details) ←
    (if negb fast_mode then
       mpf_result ← _check_provider_fingerprint domain mx_hosts
                      smtp_connection fast_mode;
       ret (score + mpf_points mpf_result,
            <["provider_fingerprint" := DProviderFingerprint mpf_result]>
              score_details)
     else ret (score, score_details));
  (* 11. SMTP Error Pattern Classification *)
  let error_pattern_result :=
    _classify_smtp_error_pattern smtp_rcpt smtp_connection in
  let score := score + ep_points error_pattern_result in
  let score_details :=
    <["error_pattern" := DErrorPattern error_pattern_result]>
      score_details in
  (* 12. Provider-Level Behavior Rules (PLBR) *)
  let plbr_result := _apply_provider_rules domain smtp_rcpt score in
  let score :=
    if pr_score_adjusted plbr_result then pr_adjusted_score plbr_result
    else score in
  let score_details :=
    <["provider_rules" := DProviderRules plbr_result]> score_details in
  (* 13. SMTP Retry Simulation (for greylisting) *)
  '(score, score_details) ←
    (if negb fast_mode && rc_soft_failure smtp_rcpt then
       retry_result ← _smtp_retry_simulation email domain mx_hosts;
       ret (if rt_success_after_retry retry_result
            then score + 20 else score,
            <["smtp_retry" := DSmtpRetry retry_result]> score_details)
     else ret (score, score_details));
  (* 14. TLS Certificate Intelligence (TCI) *)
  '(score, score_details) ←
    (if PyStr.truthy_opt (sc_mx_used smtp_connection) then
       tci_result ← _check_tls_certificate
                      (default EmptyString (sc_mx_used smtp_connection));
       ret (score + tc_points tci_result,
            <["tls_certificate" := DTlsCertificate tci_result]>
              score_details)
     else ret (score, score_details));
  (* 15. Open Ports Scan (Mail Infra Health) *)
  '(score, score_details) ←
    (match mx_hosts with
     | mx0 :: _ =>
         if negb fast_mode then
           ports_result ← _check_mail_ports mx0;
           ret (score + mp_points ports_result,
                <["mail_ports" := DMailPorts ports_result]> score_details)
         else ret (score, score_details)
     | [] => ret (score, score_details)
     end);
  (* 16. DNSSEC Check *)
  dnssec_result ← _check_dnssec domain;
  let score := score + ds_points dnssec_result in
  let score_details := <["dnssec" := DDnssec dnssec_result]> score_details in
  (* 17. PTR Record Verification *)
  '(score, score_details) ←
    (match mx_hosts with
     | mx0 :: _ =>
         ptr_result ← _check_ptr_record mx0;
         ret (score + ptr_points ptr_result,
              <["ptr_record" := DPtrRecord ptr_result]> score_details)
     | [] => ret (score, score_details)
     end);
  (* 18. IP Reputation Score *)
  '(score, score_details) ←
    (match mx_hosts with
     | mx0 :: _ =>
         ip_reputation_result ← _check_ip_reputation mx0;
         ret (score + ipr_points ip_reputation_result,
              <["ip_reputation" := DIpReputation ip_reputation_result]>
                score_details)
     | [] => ret (score, score_details)
     end);
  (* 19. Mail Server Behaviour Analysis (Heuristics) *)
  let '(score, score_details) :=
    if PyStr.truthy_opt (sc_mx_used smtp_connection) then
      let behavior_result :=
        _analyze_server_behavior smtp_connection smtp_rcpt in
      (score + sb_points behavior_result,
       <["server_behavior" := DServerBehavior behavior_result]>
         score_details)
    else (score, score_details) in
  (* 20. Free Reverse MX Lookup (Global Domain Popularity) *)
  let '(score, score_details) :=
    match mx_hosts with
    | mx0 :: _ =>
        let mx_popularity_result := _check_mx_popularity mx0 in
        (score + pop_points mx_popularity_result,
         <["mx_popularity" := DMxPopularity mx_popularity_result]>
           score_details)
    | [] => (score, score_details)
    end in
  (* 21. Email Blocklist Behavior (Indirect) *)
  blocklist_behavior_result ←
    _analyze_blocklist_behavior smtp_rcpt smtp_connection;
  let score := score + bl_points blocklist_behavior_result in
  let score_details :=
    <["blocklist_behavior" := DBlocklistBehavior blocklist_behavior_result]>
      score_details in
  (* 22. Mail Exchanger Consistency Check *)
  '(score, score_details) ←
    (match mx_hosts with
     | mx0 :: _ =>
         mx_consistency_result ← _check_mx_consistency mx0 domain;
         ret (score + mxc_points mx_consistency_result,
              <["mx_consistency" := DMxConsistency mx_consistency_result]>
                score_details)
     | [] => ret (score, score_details)
     end);
  (* 23. STARTTLS Upgrade Behaviour (TLS Policy Strength) *)
  '(score, score_details) ←
    (if PyStr.truthy_opt (sc_mx_used smtp_connection) && negb fast_mode then
       tls_policy_result ← _check_tls_policy_strength
                             (default EmptyString
                                (sc_mx_used smtp_connection));
       ret (score + tp_points tls_policy_result,
            <["tls_policy" := DTlsPolicy tls_policy_result]> score_details)
     else ret (score, score_details));
  (* 24. Multi-MX Redundancy Check *)
  let mx_redundancy_result := _check_mx_redundancy mx_hosts in
  let score := score + mxr_points mx_redundancy_result in
  let score_details :=
    <["mx_redundancy" := DMxRedundancy mx_redundancy_result]>
      score_details in
  (* 25. SMTP Transaction Strictness Scoring *)
  '(score, score_details) ←
    (if PyStr.truthy_opt (sc_mx_used smtp_connection) && negb fast_mode then
       strictness_result ← _check_smtp_strictness smtp_connection smtp_rcpt;
       ret (score + st_points strictness_result,
            <["smtp_strictness" := DSmtpStrictness strictness_result]>
              score_details)
     else ret (score, score_details));
  (* 26. MAIL FROM Domain Health *)
  '(score, score_details) ←
    (if PyStr.truthy_opt (sc_mx_used smtp_connection) && negb fast_mode then
       mailfrom_result ← _check_mailfrom_health domain mx_hosts
                           smtp_connection;
       ret (score + mf_points mailfrom_result,
            <["mailfrom_health" := DMailfromHealth mailfrom_result]>
              score_details)
     else ret (score, score_details));
  (* 27. Connection Latency Fingerprinting *)
  let '(score, score_details) :=
    if PyStr.truthy_opt (sc_mx_used smtp_connection) && negb fast_mode then
      let latency_result :=
        _analyze_connection_latency smtp_connection smtp_rcpt in
      (score + lat_points latency_result,
       <["latency_fingerprint" := DLatencyFingerprint latency_result]>
         score_details)
    else (score, score_details) in
  (* 28. SMTP Load-Balancer Behavior *)
  '(score, score_details) ←
    (if (1 <? length mx_hosts)%nat && negb fast_mode then
       loadbalancer_result ← _check_loadbalancer_behavior email domain
                               mx_hosts;
       ret (score + lbr_points loadbalancer_result,
            <["loadbalancer" := DLoadbalancer loadbalancer_result]>
              score_details)
     else ret (score, score_details));
  (* 29. SMTP "VRFY Lite" Behaviour *)
  '(score, score_details) ←
    (if PyStr.truthy_opt (sc_mx_used smtp_connection) && negb fast_mode then
       vrfy_result ← _check_vrfy_lite_behavior email domain mx_hosts
                       smtp_connection;
       ret (score + vl_points vrfy_result,
            <["vrfy_lite" := DVrfyLite vrfy_result]> score_details)
     else ret (score, score_details));
  (* 30. Recipient Domain Email Role Account Policy *)
  '(score, score_details) ←
    (if negb fast_mode then
       role_account_result ← _check_role_accounts domain mx_hosts;
       ret (score + ra_points role_account_result,
            <["role_accounts" := DRoleAccounts role_account_result]>
              score_details)
     else ret (score, score_details));
  (* 31. MX Infrastructure Identity Check (Brand MX Mapping) *)
  let '(score, score_details) :=
    match mx_hosts with
    | mx0 :: _ =>
        let brand_mx_result := _check_mx_brand mx0 in
        (score + mb_points brand_mx_result,
         <["mx_brand" := DMxBrand brand_mx_result]> score_details)
    | [] => (score, score_details)
    end in
  (* 32. Greylist "Depth Check" *)
  '(score, score_details) ←
    (if rc_soft_failure smtp_rcpt && negb fast_mode then
       greylist_depth_result ← _check_greylist_depth email domain mx_hosts;
       ret (score + gd_points greylist_depth_result,
            <["greylist_depth" := DGreylistDepth greylist_depth_result]>
              score_details)
     else ret (score, score_details));
  (* 33. SMTP Banner Metadata Inspection *)
  let '(score, score_details) :=
    if PyStr.truthy_opt (g_message (sc_greeting smtp_connection)) then
      let banner_result :=
        _analyze_smtp_banner
          (default EmptyString (g_message (sc_greeting smtp_connection))) in
      (score + bn_points banner_result,
       <["smtp_banner" := DSmtpBanner banner_result]> score_details)
    else (score, score_details) in
  (* 34. Spamhaus DBL / Barracuda BL DNS Lookup *)
  dbl_result ← _check_domain_blacklists domain;
  let score := score + dbl_points dbl_result in
  let score_details :=
    <["domain_blacklists" := DDomainBlacklists dbl_result]> score_details in
  (* 35. SMTP QUIT Acknowledgement Behavior *)
  '(score, score_details) ←
    (if PyStr.truthy_opt (sc_mx_used smtp_connection) && negb fast_mode then
       quit_result ← _check_quit_behavior
                       (default EmptyString (sc_mx_used smtp_connection));
       ret (score + q_points quit_result,
            <["quit_behavior" := DQuitBehavior quit_result]> score_details)
     else ret (score, score_details));
  (* 36. TCP Retransmissions Patterns *)
  '(score, score_details) ←
    (if PyStr.truthy_opt (sc_mx_used smtp_connection) && negb fast_mode then
       tcp_stability_result ← _check_tcp_stability
                                (default EmptyString
                                   (sc_mx_used smtp_connection));
       ret (score + tcp_points tcp_stability_result,
            <["tcp_stability" := DTcpStability tcp_stability_result]>
              score_details)
     else ret (score, score_details));
  (* Catch-all detection *)
  catch_all_result ←
    (if negb fast_mode then _detect_catch_all domain mx_hosts
     else ret {| ca_is_catchall := false; ca_test_email := None;
                 ca_skipped := true |});
  let score_details :=
    <["catch_all" := DCatchAll catch_all_result]> score_details in
  let score :=
    if ca_is_catchall catch_all_result then score + 10 else score in
  let risky :=
    if ca_is_catchall catch_all_result then Some true else None in
  (* Internet presence checks (optional) *)
  score_details ←
    (if internet_checks || enable_internet_checks self then
       try_except
         (payload ← call (CheckInternetPresence email (hibp_enabled self));
          ret (<["internet_check" := DInternetCheck payload]>
                 score_details))
         (fun e =>
            ret (<["internet_check" := DInternetCheckError (exn_msg e)]>
                   score_details))
     else ret score_details);
  (* Ensure score is between 0 and 100 *)
  let score := Z.max 0 (Z.min 100 score) in
  (* Determine status based on score *)
  let '(status, reason) := status_of_score score in
  let result :=
    {| v_email := email; v_status := status; v_score := score;
       v_confidence := confidence_of score; v_reason := reason;
       v_details := score_details; v_risky := risky |} in
  (* Apply optional per-domain overrides *)
  apply_override domain result.

End Verifier.

(** * Worlds and observations *)

(** ** Concrete worlds and inputs for the examples *)

(** A DNS answer with one record. *)
Definition one_record (r : string) : exn + (string * list string) :=
  inr (r, []).

Definition nxdomain : exn :=
  Exn DnsNXDOMAIN "The DNS query name does not exist".

Definition no_answer : exn :=
  Exn DnsNoAnswer "The DNS response does not contain an answer".

(** The zone of a mail domain with SPF, DMARC, DKIM and DNSSEC; [a_answer]
    and [mx_answer] are what the A and MX lookups give. *)
Definition mail_zone (a_answer mx_answer : exn + (string * list string))
    (name : string) (rd : rdtype) : exn + (string * list string) :=
  match rd with
  | RD_A => a_answer
  | RD_MX => mx_answer
  | RD_TXT =>
      if PyStr.startswith name "_dmarc." then one_record "v=DMARC1; p=reject"
      else if PyStr.contains "._domainkey." name
      then one_record "v=DKIM1; k=rsa; p=MIGf"
      else one_record "v=spf1 include:_spf.example.net ~all"
  | RD_DNSKEY => one_record "257 3 13 mdsswUyr3DPW"
  end.

(** A name that does not exist. *)
Definition missing_zone (name : string) (rd : rdtype)
    : exn + (string * list string) :=
  inl nxdomain.

(** A world with one mail server, [mx_name], that listens on port 25,
    greets with 220, offers STARTTLS but speaks no TLS before it, and
    answers MAIL FROM and RCPT TO as given; the domain has a web site, was
    registered long ago and is on no blacklist. Every request takes
    [seconds_per_event]. *)
Definition scripted_answer
    (zone : string -> rdtype -> exn + (string * list string))
    (mx_name : string) (mail_answer rcpt_answer : exn + reply)
    (T : Type) (tick : nat) (req : request T) : exn + T :=
  match req in request T return exn + T with
  | Resolve name rd =>
      if PyStr.endswith name ".spamhaus.org" ||
         PyStr.endswith name ".surbl.org"
      then inl nxdomain
      else zone name rd
  | ConnectEx _ _ => inr 0
  | RecvGreeting _ _ => inr ("220 " ++ mx_name ++ " ESMTP ready")
  | SmtpConnect _ _ => inr (Reply 220 "b'ESMTP ready'")
  | SmtpEhlo =>
      inr (Reply 250 "b'PIPELINING SIZE STARTTLS 8BITMIME'",
           ["pipelining"; "size"; "starttls"; "8bitmime"])
  | SmtpHelo => inr (Reply 250 "b'Hello'")
  | SmtpStartTls => inr (Reply 220 "b'2.0.0 Ready to start TLS'")
  | SmtpMail _ => mail_answer
  | SmtpRcpt _ => rcpt_answer
  | SmtpNoop => inr (Reply 250 "b'2.0.0 Ok'")
  | SmtpQuit => inr (Reply 221 "b'2.0.0 Bye'")
  | HttpGet _ => inr 200
  | ImportModule _ => inr tt
  | Whois _ => inr (CreationOne (WDatetime 1000000000))
  | DateutilParse _ => inr 2000000000%Q
  | FromIsoFormat _ => inr 2000000000%Q
  | GetHostByName _ => inr "192.0.2.10"
  | GetHostByAddr _ => inr mx_name
  | CreateConnection _ _ => inr tt
  | WrapSocket _ => inl (Exn SSLError "[SSL: WRONG_VERSION_NUMBER]")
  | CheckInternetPresence _ _ => inr "{}"
  end.

Definition scripted_world
    (zone : string -> rdtype -> exn + (string * list string))
    (mx_name : string) (mail_answer rcpt_answer : exn + reply)
    (seconds_per_event : Q) : World :=
  {| w_answer := scripted_answer zone mx_name mail_answer rcpt_answer;
     w_resolver := fun _ => None;
     w_overrides := fun _ => ∅;
     w_clock := fun tick =>
       (1700000000 + inject_Z (Z.of_nat tick) * seconds_per_event)%Q;
     w_random_local := fun _ => "k3j9x0q2m5v8b1z";
     w_randint := fun _ lo _ => lo |}.

Definition verifier : EmailVerifier :=
  {| enable_internet_checks := true; hibp_enabled := true;
     _sender_domain := "verifier.example.net" |}.

Definition address_zone : string -> rdtype -> exn + (string * list string) :=
  mail_zone (one_record "192.0.2.1") (one_record "mx.example.org.").

Definition mail_ok : exn + reply := inr (Reply 250 "b'2.1.0 Ok'").

(** RCPT TO is answered "550 5.1.1 ... User unknown". *)
Definition world_user_unknown : World :=
  scripted_world address_zone "mx.example.org" mail_ok
    (inr (Reply 550 "b'5.1.1 <user@example.org>: User unknown'")) (1 # 4).

(** RCPT TO is answered with a 550 that names no unknown user. *)
Definition world_policy_reject : World :=
  scripted_world address_zone "mx.example.org" mail_ok
    (inr (Reply 550 "b'5.7.1 Service unavailable; client blocked'")) (1 # 4).

(** The server stops answering after MAIL FROM. *)
Definition world_rcpt_timeout : World :=
  scripted_world address_zone "mx.example.org" mail_ok
    (inl (Exn SocketTimeout "timed out")) (1 # 4).

(** Gmail: the domain is in [smtp_blocked_domains], so no SMTP dialogue
    takes place whatever the server would answer. *)
Definition world_gmail : World :=
  scripted_world
    (mail_zone (one_record "142.250.0.1")
       (one_record "gmail-smtp-in.l.google.com."))
    "gmail-smtp-in.l.google.com" mail_ok
    (inr (Reply 250 "b'2.1.5 OK'")) (1 # 100).

(** A domain with MX records and no A record. *)
Definition world_mx_without_a : World :=
  scripted_world (mail_zone (inl no_answer) (one_record "mx.example.org."))
    "mx.example.org" mail_ok (inr (Reply 250 "b'2.1.5 Ok'")) (1 # 100).

(** A domain with an A record and no MX record. *)
Definition world_a_without_mx : World :=
  scripted_world (mail_zone (one_record "192.0.2.1") (inl no_answer))
    "example.org" mail_ok (inr (Reply 250 "b'2.1.5 Ok'")) (1 # 100).

(** The zone of a parked domain: no A, MX or DNSKEY record, no DKIM key,
    an SPF record that allows no sender and a DMARC record. *)
Definition parked_zone (name : string) (rd : rdtype)
    : exn + (string * list string) :=
  match rd with
  | RD_TXT =>
      if PyStr.startswith name "_dmarc." then one_record "v=DMARC1; p=reject"
      else if PyStr.contains "._domainkey." name then inl nxdomain
      else one_record "v=spf1 -all"
  | _ => inl no_answer
  end.

Definition world_parked : World :=
  scripted_world parked_zone "mx.example.org" mail_ok
    (inr (Reply 250 "b'2.1.5 Ok'")) (1 # 100).

(** A domain that does not exist. *)
Definition world_nxdomain : World :=
  scripted_world missing_zone "mx.example.org" mail_ok
    (inr (Reply 250 "b'2.1.5 Ok'")) (1 # 100).


(** RCPT TO is answered 250. *)
Definition world_accepted : World :=
  scripted_world address_zone "mx.example.org" mail_ok
    (inr (Reply 250 "b'2.1.5 Ok'")) (1 # 4).

(** MAIL FROM is refused. *)
Definition world_mail_refused : World :=
  scripted_world address_zone "mx.example.org"
    (inr (Reply 550 "b'5.7.1 Sender address rejected'"))
    (inr (Reply 250 "b'2.1.5 Ok'")) (1 # 4).

(** The world of [world_user_unknown], the table of the module holding an
    entry for example.org: a floor of 95 and the status [valid]. *)
Definition example_overrides : gmap string override :=
  {[ "example.org" := {| ov_min_score := Some (NInt 95);
                         ov_force_status := Some "valid" |} ]}.

Definition world_override : World :=
  {| w_answer := w_answer world_user_unknown;
     w_resolver := w_resolver world_user_unknown;
     w_overrides := fun _ => example_overrides;
     w_clock := w_clock world_user_unknown;
     w_random_local := w_random_local world_user_unknown;
     w_randint := w_randint world_user_unknown |}.

(** The host has no resolver configuration: [Resolver()] raises
    [NoResolverConfiguration]. *)
Definition no_resolver_configuration : exn :=
  Exn DnsFailure
    "Resolver configuration could not be read or specified no nameservers.".

Definition world_no_resolver : World :=
  {| w_answer := w_answer world_accepted;
     w_resolver := fun _ => Some no_resolver_configuration;
     w_overrides := w_overrides world_accepted;
     w_clock := w_clock world_accepted;
     w_random_local := w_random_local world_accepted;
     w_randint := w_randint world_accepted |}.

(** An address followed by a newline. *)
Definition address_with_newline : string :=
  "user@example.org" ++ String Re.newline EmptyString.

(** The connection result of a server that was reached on port 25 with a
    valid greeting. *)
Definition open_connection : smtp_connection :=
  {| sc_port_25_open := true; sc_tls_successful := false;
     sc_greeting := {| g_valid := Some true; g_points := Some 10;
                       g_code := Some (Some 220);
                       g_message := Some "220 mx.example.org ESMTP ready" |};
     sc_points := 10; sc_mx_used := Some "mx.example.org";
     sc_skipped := None |}.

(** Twelve rows of a bulk job fail, then the job fails. *)
Definition failing_calls : list JobManager.call :=
  JobManager.CreateJob "job-1" 100 "verify" 12 None ::
  JobManager.StartJob 101 "job-1" ::
  map (fun n => JobManager.Increment "job-1" false None
                  (Some ("row " ++ PyStr.of_Z n ++ ": lookup failed")))
    [1; 2; 3; 4; 5; 6; 7; 8; 9; 10; 11; 12] ++
  [JobManager.FailJob 130 "job-1" "too many errors"].

(** The job the registry holds after [failing_calls]. *)
Definition failed_job : JobManager.job :=
  {| JobManager.id := "job-1"; JobManager.type := "verify";
     JobManager.status := "failed"; JobManager.total_rows := 12;
     JobManager.processed_rows := 12; JobManager.success_rows := 0;
     JobManager.error_rows := 12; JobManager.created_at := 100;
     JobManager.started_at := Some 101%Q;
     JobManager.finished_at := Some 130%Q;
     JobManager.message := Some "too many errors";
     JobManager.output_path := None; JobManager.output_filename := None;
     JobManager.errors :=
       [ "row 4: lookup failed"; "row 5: lookup failed";
         "row 6: lookup failed"; "row 7: lookup failed";
         "row 8: lookup failed"; "row 9: lookup failed";
         "row 10: lookup failed"; "row 11: lookup failed";
         "row 12: lookup failed"; "too many errors" ];
     JobManager.metadata := ∅ |}.

(** The flags and points of an RCPT result. *)
Definition rcpt_flags (r : smtp_rcpt) : bool * bool * bool * bool * Z :=
  (rc_accepted r, rc_rejected r, rc_hard_failure r, rc_soft_failure r,
   rc_points r).

(** What the latency probe returns for an instant reject. *)
Definition instant_reject : latency_result :=
  {| lat_points := -10; lat_tcp_handshake := 0; lat_smtp_banner := 0;
     lat_ehlo_latency := 0; lat_rcpt_latency := 0;
     lat_pattern := "instant_reject" |}.

(** The result of the syntax check for an address that does not match. *)
Definition invalid_syntax_result (email : string) : verification :=
  {| v_email := email; v_status := "invalid"; v_score := 0;
     v_confidence := 0; v_reason := "Invalid email syntax";
     v_details := <["syntax" := DSyntax (_check_syntax email)]> ∅;
     v_risky := None |}.

(** A computation that returns in every world and state. *)
Definition returns {A} (c : M A) : Prop :=
  forall w s, exists a s', c w s = (Returned a, s').

(** *** Reading a run *)

(** What a run returned. *)
Definition returned {A} (run : outcome A * state) : option A :=
  match run.1 with
  | Returned a => Some a
  | Raised _ => None
  end.

(** Status and score of a run that returned. *)
Definition verdict_of (run : outcome verification * state)
    : option (string * Z) :=
  match run.1 with
  | Returned v => Some (v_status v, v_score v)
  | Raised _ => None
  end.

(** The reason of a run that returned. *)
Definition reason_of (run : outcome verification * state) : option string :=
  match run.1 with
  | Returned v => Some (v_reason v)
  | Raised _ => None
  end.

(** The exception of a run that raised. *)
Definition raised_by {A} (run : outcome A * state) : option exn :=
  match run.1 with
  | Returned _ => None
  | Raised e => Some e
  end.

(** The RCPT result in the details of a run that returned. *)
Definition rcpt_of (run : outcome verification * state) : option smtp_rcpt :=
  match run.1 with
  | Returned v =>
      match v_details v !! "smtp_rcpt" with
      | Some (DSmtpRcpt r) => Some r
      | _ => None
      end
  | Raised _ => None
  end.

(** The provider-rule result in the details of a run that returned. *)
Definition provider_rules_of (run : outcome verification * state)
    : option provider_rules_result :=
  match run.1 with
  | Returned v =>
      match v_details v !! "provider_rules" with
      | Some (DProviderRules r) => Some r
      | _ => None
      end
  | Raised _ => None
  end.

(** The DNS result in the details of a run that returned. *)
Definition dns_of (run : outcome verification * state) : option dns_result :=
  match run.1 with
  | Returned v =>
      match v_details v !! "dns_health" with
      | Some (DDnsHealth r) => Some r
      | _ => None
      end
  | Raised _ => None
  end.

(** What a run returned, or [dflt] if it raised. *)
Definition returned_or {A} (dflt : A) (run : outcome A * state) : A :=
  match run.1 with
  | Returned a => a
  | Raised _ => dflt
  end.

(** *** Some runs, evaluated *)

(** The fast verification of user@example.org whose server answers
    "550 5.1.1 User unknown". *)
Definition user_unknown_verdict : verification :=
  Eval vm_compute in
    returned_or (invalid_syntax_result EmptyString)
      (verify_email verifier "user@example.org" true "balanced" true
         world_user_unknown initial_state).

Definition user_unknown_state : state :=
  Eval vm_compute in
    (verify_email verifier "user@example.org" true "balanced" true
       world_user_unknown initial_state).2.

(** The same verification where the table of overrides has an entry
    for example.org. *)
Definition override_verdict : verification :=
  Eval vm_compute in
    returned_or (invalid_syntax_result EmptyString)
      (verify_email verifier "user@example.org" true "balanced" true
         world_override initial_state).

Definition override_state : state :=
  Eval vm_compute in
    (verify_email verifier "user@example.org" true "balanced" true
       world_override initial_state).2.

(** The full verification of user@example.org whose server stops
    answering after MAIL FROM. *)
Definition rcpt_timeout_verdict : verification :=
  Eval vm_compute in
    returned_or (invalid_syntax_result EmptyString)
      (verify_email verifier "user@example.org" false "balanced" true
         world_rcpt_timeout initial_state).

Definition rcpt_timeout_state : state :=
  Eval vm_compute in
    (verify_email verifier "user@example.org" false "balanced" true
       world_rcpt_timeout initial_state).2.

(** Its connection and RCPT results. *)
Definition rcpt_timeout_connection : smtp_connection :=
  Eval vm_compute in
    match v_details rcpt_timeout_verdict !! "smtp_connection" with
    | Some (DSmtpConnection c) => c
    | _ => open_connection
    end.

Definition rcpt_timeout_rcpt : smtp_rcpt :=
  Eval vm_compute in
    match v_details rcpt_timeout_verdict !! "smtp_rcpt" with
    | Some (DSmtpRcpt r) => r
    | _ => rcpt_initial
    end.

(** ** Reading a history of calls on the job registry *)

Module JobHistory.
Import JobManager.

(** The job id a call is addressed to (for [create_job], the id it
    draws). *)
Definition target (c : call) : string :=
  match c with
  | CreateJob u _ _ _ _ => u
  | StartJob _ j => j
  | Increment j _ _ _ => j
  | CompleteJob _ j _ _ => j
  | FailJob _ j _ => j
  end.

Definition addressed_to (job_id : string) (c : call) : bool :=
  String.eqb (target c) job_id.

Definition creates (job_id : string) (c : call) : bool :=
  match c with
  | CreateJob u _ _ _ _ => String.eqb u job_id
  | _ => false
  end.

(** Some call of [cs] created the job. *)
Definition created (job_id : string) (cs : list call) : bool :=
  existsb (creates job_id) cs.

(** The calls addressed to the job after it was (last) created. *)
Definition since_creation (job_id : string) (cs : list call) : list call :=
  foldl (fun h c => if creates job_id c then []
                    else if addressed_to job_id c then (h ++ [c])%list else h)
    [] cs.

Definition is_increment (c : call) : bool :=
  match c with Increment _ _ _ _ => true | _ => false end.

Definition is_success (c : call) : bool :=
  match c with Increment _ ok _ _ => ok | _ => false end.

Definition is_failure (c : call) : bool :=
  match c with Increment _ ok _ _ => negb ok | _ => false end.

(** [start_job], [complete_job] and [fail_job] set the status. *)
Definition is_transition (c : call) : bool :=
  match c with
  | StartJob _ _ | CompleteJob _ _ _ _ | FailJob _ _ _ => true
  | _ => false
  end.

(** The status a call sets. *)
Definition status_set_by (c : option call) : string :=
  match c with
  | Some (StartJob _ _) => "running"
  | Some (CompleteJob _ _ _ _) => "completed"
  | Some (FailJob _ _ _) => "failed"
  | _ => "pending"
  end.

End JobHistory.

(** Ten rows of a job, seven of them successful. *)
Definition mixed_calls : list JobManager.call :=
  JobManager.CreateJob "job-2" 100 "find" 10 None ::
  map (fun n : Z => JobManager.Increment "job-2" (n <? 7)%Z None
                      (Some "no match"))
    [0; 1; 2; 3; 4; 5; 6; 7; 8; 9].

Definition mixed_job : JobManager.job :=
  Eval vm_compute in default failed_job (JobManager.run mixed_calls !! "job-2").

(** The job of [failing_calls] is started again after it failed. *)
Definition restarted_calls : list JobManager.call :=
  (failing_calls ++ [JobManager.StartJob 140 "job-1"])%list.

Definition restarted_job : JobManager.job :=
  Eval vm_compute in
    default failed_job (JobManager.run restarted_calls !! "job-1").

(** ** The language of a regular expression *)

Module ReLang.
Import Re.

(** [s] is in the language of [r], as the documentation of [re] defines
    it; [Re.fullmatch] decides it. *)
Inductive matches : regex -> string -> Prop :=
| MEps : matches Eps EmptyString
| MClass p c : p c = true -> matches (Class p) (String c EmptyString)
| MSeq r1 r2 s1 s2 :
    matches r1 s1 -> matches r2 s2 -> matches (Seq r1 r2) (s1 ++ s2)
| MAltL r1 r2 s : matches r1 s -> matches (Alt r1 r2) s
| MAltR r1 r2 s : matches r2 s -> matches (Alt r1 r2) s
| MStarNil r : matches (Star r) EmptyString
| MStarApp r s1 s2 :
    matches r s1 -> matches (Star r) s2 -> matches (Star r) (s1 ++ s2).

(** Every character of [s] is in the class [p]. *)
Fixpoint all_chars (p : ascii -> bool) (s : string) : bool :=
  match s with
  | EmptyString => true
  | String c s' => p c && all_chars p s'
  end.

End ReLang.

(** The shape of an address: [local@domain.tld], where [local] is one or
    more characters of [[a-zA-Z0-9._%+-]], [domain] one or more of
    [[a-zA-Z0-9.-]] and [tld] two or more letters. *)
Definition address_shape (s : string) : Prop :=
  exists local domain tld,
    s = local ++ "@" ++ domain ++ "." ++ tld /\
    local <> EmptyString /\ ReLang.all_chars local_class local = true /\
    domain <> EmptyString /\ ReLang.all_chars domain_class domain = true /\
    (2 <= String.length tld)%nat /\ ReLang.all_chars PyStr.is_alpha tld = true.

(** ** Invariants of the verifier's state *)

Definition attribute_error : exn :=
  Exn AttributeError "'NoneType' object has no attribute 'lower'".

(** A deliverability result whose [spf] flag is set has an SPF record. *)
Definition wf_deliverability (d : deliverability) : Prop :=
  dl_spf d = true -> is_Some (dl_spf_record d).

(** Every entry of the deliverability cache is such a result, as those
    that [_check_security_reputation] stores are. *)
Definition wf_caches (s : state) : Prop :=
  forall key entry,
    _deliverability_cache s !! key = Some entry ->
    wf_deliverability (ce_value entry).

(** Which exceptions, by the world and the state they are raised in. *)
Definition exns : Type := World -> state -> exn -> Prop.

(** The computation [c] keeps the invariant [I] of the state and what
    is in the log, and the only exceptions it raises are those of [E]. *)
Definition raises_only {A} (I : state -> Prop) (E : exns) (c : M A) : Prop :=
  forall w s,
    I s ->
    I (c w s).2 /\
    events s `prefix_of` events (c w s).2 /\
    match (c w s).1 with
    | Returned _ => True
    | Raised e => E w (c w s).2 e
    end.

Definition no_exn : exns := fun _ _ _ => False.
Definition any_exn : exns := fun _ _ _ => True.

(** The [AttributeError] of [.lower()] on [None]. *)
Definition lower_of_none : exns := fun _ _ e => e = attribute_error.

(** What [Resolver()] raises, the log being as it was then. *)
Definition resolver_exn : exns := fun w s e =>
  w_resolver w (length (events s)) = Some e.

(** What [int(min_score)] raises for the override of [domain], an
    infinite [min_score] or one that is not a number. *)
Definition override_exn (domain : string) : exns := fun w s e =>
  exists override min_score,
    w_overrides w (length (events s)) !! domain = Some override /\
    ov_min_score override = Some min_score /\
    int_of_number min_score w s = (Raised e, s).

(** The domain [verify_email] takes from an address:
    [email.lower().split('@', 1)[1]]. *)
Definition domain_of (email : string) : string :=
  match PyStr.split_once "@" (PyStr.lower email) with
  | Some (_, domain) => domain
  | None => EmptyString
  end.

(** The exceptions that leave [verify_email]. *)
Definition verify_exn (email : string) : exns := fun w s e =>
  lower_of_none w s e \/ resolver_exn w s e \/
  override_exn (domain_of email) w s e.

(** What the fast mode may do while it verifies [email]: no sleep, no
    STARTTLS, no NOOP, sockets and SMTP sessions on port 25 only, and
    RCPT TO for no other address. DNS, WHOIS and HTTP requests are not
    restricted. *)
Definition fast_mode_event (email : string) (ev : event) : bool :=
  match ev with
  | ESleep _ => false
  | ECall r =>
      match r with
      | SmtpRcpt address => String.eqb address email
      | SmtpStartTls | SmtpNoop => false
      | ConnectEx _ port | RecvGreeting _ port | SmtpConnect _ port
      | CreateConnection _ port => (port =? 25)%Z
      | _ => true
      end
  end.

(** The log of [s] is the log of [s0] followed by events that [allowed]
    lets through. *)
Definition logged_since (allowed : event -> bool) (s0 s : state) : Prop :=
  exists new, events s = (events s0 ++ new)%list /\
              forallb allowed new = true.

(** The state in which the fast verification of user@example.org stops
    when RCPT TO is answered with a 550 for policy reasons. *)
Definition policy_reject_state : state :=
  Eval vm_compute in
    (verify_email verifier "user@example.org" true "balanced" true
       world_policy_reject initial_state).2.

(** ** Caches *)

(** A cache attribute that reads what was written to it and leaves the
    log alone, as the three caches of the verifier do. *)
Definition lawful_cache {A} (cache : cache_ref A) : Prop :=
  forall c s,
    cache_read cache (cache_write cache c s) = c /\
    events (cache_write cache c s) = events s.

(** ** Results and wrappers used in the statements *)

(** What [_check_smtp_connection] returns when it skips a domain. *)
Definition skipped_connection : smtp_connection :=
  {| sc_port_25_open := false; sc_tls_successful := false;
     sc_greeting := empty_greeting; sc_points := 0;
     sc_mx_used := None; sc_skipped := Some true |}.

(** What [_check_smtp_rcpt] returns when the connection was skipped or
    port 25 is closed. *)
Definition skipped_rcpt : smtp_rcpt :=
  {| rc_accepted := false; rc_rejected := false; rc_hard_failure := false;
     rc_soft_failure := false; rc_catch_all_detected := false;
     rc_timing := {| t_response_time_sec := 0; t_points := 0 |};
     rc_points := 0; rc_error := None; rc_response_code := None;
     rc_skipped := Some true |}.

(** [_check_smtp_rcpt] returns at once: the connection probe was skipped
    or did not find port 25 open. *)
Definition rcpt_skips (conn : smtp_connection) : bool :=
  default false (sc_skipped conn) || negb (sc_port_25_open conn).

(** The host [_check_smtp_rcpt] talks to: the one the connection probe
    used, else the first MX host. *)
Definition rcpt_host (mx_hosts : list string) (conn : smtp_connection)
    : option string :=
  if PyStr.truthy_opt (sc_mx_used conn) then sc_mx_used conn
  else head mx_hosts.

(** What the world answers to the dialogue that [_check_smtp_rcpt] opens
    with [mx_host] when the log has [t0] events: the connection at tick
    [t0], EHLO at [t0 + 1], HELO at [t0 + 2] if EHLO is not answered 250,
    then MAIL FROM, RCPT TO and QUIT. When every request is answered and
    MAIL FROM with 250 or 251, the tick at which RCPT TO is asked and the
    reply to it. *)
Definition rcpt_exchange (w : World) (sender mx_host email : string)
    (t0 : nat) : option (nat * reply) :=
  match w_answer w _ t0 (SmtpConnect mx_host 25) with
  | inl _ => None
  | inr _ =>
      match w_answer w _ (t0 + 1)%nat SmtpEhlo with
      | inl _ => None
      | inr (ehlo, _) =>
          let mail_tick :=
            if negb (reply_code ehlo =? 250)%Z then
              match w_answer w _ (t0 + 2)%nat SmtpHelo with
              | inl _ => None
              | inr _ => Some (t0 + 3)%nat
              end
            else Some (t0 + 2)%nat in
          match mail_tick with
          | None => None
          | Some t =>
              match w_answer w _ t (SmtpMail sender) with
              | inl _ => None
              | inr mail =>
                  if negb (is_250_251 (reply_code mail)) then None
                  else
                    match w_answer w _ (t + 1)%nat (SmtpRcpt email) with
                    | inl _ => None
                    | inr reply =>
                        match w_answer w _ (t + 2)%nat SmtpQuit with
                        | inl _ => None
                        | inr _ => Some ((t + 1)%nat, reply)
                        end
                    end
              end
          end
      end
  end.

(** The reply to RCPT TO that [_check_smtp_rcpt] classifies, and the tick
    at which it asked: none when the probe skips, has no host, or the
    dialogue is not answered to its end. *)
Definition rcpt_reply (self : EmailVerifier) (w : World) (email : string)
    (mx_hosts : list string) (conn : smtp_connection) (t0 : nat)
    : option (nat * reply) :=
  if rcpt_skips conn then None
  else
    match rcpt_host mx_hosts conn with
    | None => None
    | Some mx_host =>
        if PyStr.truthy mx_host
        then rcpt_exchange w ("verify@" ++ _sender_domain self) mx_host
               email t0
        else None
    end.

(** *** The legacy methods *)

Record mx_check := {
  mxk_valid : bool;
  mxk_mx_hosts : list string;
  mxk_mx_details : list (Z * string)    (* priority, host *)
}.

(** [check_mx_records]: wraps [_check_dns_health]. *)
Definition check_mx_records (domain : string) : M mx_check :=
  dns_result ← _check_dns_health domain;
  ret {| mxk_valid := dns_domain_exists dns_result &&
                      dns_mx_present dns_result;
         mxk_mx_hosts := dns_mx_hosts dns_result;
         mxk_mx_details := map (fun h => (0, h)) (dns_mx_hosts dns_result) |}.

Record handshake := {
  hs_accepted : bool;
  hs_rejected : bool;
  hs_error : option string;     (* None is Python's None *)
  hs_mx_used : option string;   (* None is Python's None *)
  hs_skipped : bool
}.

(** [smtp_handshake]: wraps the two SMTP probes, which run with
    [fast_mode] at its default, [True]. *)
Definition smtp_handshake (self : EmailVerifier) (email domain : string)
    (mx_hosts : list string) : M handshake :=
  smtp_connection ← _check_smtp_connection domain mx_hosts true;
  smtp_rcpt ← _check_smtp_rcpt self email domain mx_hosts smtp_connection
                true;
  ret {| hs_accepted := rc_accepted smtp_rcpt;
         hs_rejected := rc_rejected smtp_rcpt;
         hs_error := rc_error smtp_rcpt;
         hs_mx_used := sc_mx_used smtp_connection;
         hs_skipped := default false (sc_skipped smtp_connection) |}.

(** [calculate_confidence]: "Default fallback". *)
Definition calculate_confidence (smtp_result : handshake)
    (catch_all : catch_all_result) (mx_check : mx_check)
    (deliverability : deliverability) (confidence_mode : string) : Q :=
  1 # 2.

(** [check_deliverability] and [detect_catch_all]: the public names of
    the two probes. *)
Definition check_deliverability (domain : string) : M deliverability :=
  _check_deliverability domain.

Definition detect_catch_all (self : EmailVerifier) (domain : string)
    (mx_hosts : list string) : M catch_all_result :=
  _detect_catch_all self domain mx_hosts.

(** *** More worlds *)

(** The mail servers drop the connection at the first QUIT and answer
    the later ones. *)
Definition world_quit_fails_once : World :=
  {| w_answer := fun T tick req =>
       match req in request T0 return exn + T0 with
       | SmtpQuit =>
           if (tick <? 10)%nat
           then inl (Exn SMTPServerDisconnected
                       "Connection unexpectedly closed")
           else inr (Reply 221 "b'2.0.0 Bye'")
       | other =>
           scripted_answer address_zone "mx.example.org" mail_ok mail_ok
             _ tick other
       end;
     w_resolver := fun _ => None;
     w_overrides := fun _ => ∅;
     w_clock := fun tick =>
       (1700000000 + inject_Z (Z.of_nat tick) * (1 # 4))%Q;
     w_random_local := fun _ => "k3j9x0q2m5v8b1z";
     w_randint := fun _ lo _ => lo |}.

Definition two_hosts : list string := ["mx1.example.org"; "mx2.example.org"].

(** The connection probe of the full mode on two hosts whose first QUIT
    fails. *)
Definition two_hosts_connection : smtp_connection :=
  Eval vm_compute in
    returned_or skipped_connection
      (_check_smtp_connection "example.org" two_hosts false
         world_quit_fails_once initial_state).

Definition two_hosts_state : state :=
  Eval vm_compute in
    (_check_smtp_connection "example.org" two_hosts false
       world_quit_fails_once initial_state).2.

(** ** Reading the log *)

(** The seconds slept in a stretch of the log. *)
Definition sleep_seconds (evs : list event) : Z :=
  foldr (fun ev acc => match ev with
                       | ESleep d => d + acc
                       | ECall _ => acc
                       end) 0 evs.

(** The delays of a list that make [time.sleep] run, added up. *)
Definition total_delay (delays : list Z) : Z :=
  foldr (fun d acc => Z.max 0 d + acc) 0 delays.

(** [connect_ex] to port 25 of the host, asked when the log has [tick]
    events, gives 0. *)
Definition connects (w : World) (mx_host : string) (tick : nat) : bool :=
  match w_answer w _ tick (ConnectEx mx_host 25) with
  | inr code => (code =? 0)%Z
  | inl _ => false
  end.

(** * Properties *)

(** ** Runs that return and runs that raise *)

Lemma bind_returned {A B} (c : M A) (k : A -> M B) w s b s' :
  bind c k w s = (Returned b, s') ->
  exists a s1, c w s = (Returned a, s1) /\ k a w s1 = (Returned b, s').
Proof.
  unfold bind. destruct (c w s) as [[a|e] s1]; [eauto|discriminate].
Qed.

Lemma bind_raised {A B} (c : M A) (k : A -> M B) w s e s' :
  bind c k w s = (Raised e, s') ->
  c w s = (Raised e, s') \/
  exists a s1, c w s = (Returned a, s1) /\ k a w s1 = (Raised e, s').
Proof.
  unfold bind. destruct (c w s) as [[a|e0] s1]; [eauto|].
  intros [= -> ->]. left. reflexivity.
Qed.

Lemma ret_returned {A} (a b : A) w s s' :
  ret a w s = (Returned b, s') -> a = b /\ s = s'.
Proof. unfold ret. intros [= -> ->]. auto. Qed.

Lemma try_except_returned {A} (c : M A) (h : exn -> M A) w s a s' :
  try_except c h w s = (Returned a, s') ->
  c w s = (Returned a, s') \/
  exists e s1, c w s = (Raised e, s1) /\ h e w s1 = (Returned a, s').
Proof.
  unfold try_except. destruct (c w s) as [[x|e] s1]; intros H.
  - left. exact H.
  - right. eauto.
Qed.

Lemma call_returned {T} (r : request T) w s v s' :
  call r w s = (Returned v, s') ->
  w_answer w T (length (events s)) r = inr v /\ s' = log_event (ECall r) s.
Proof.
  unfold call. destruct (w_answer w T _ r); intros [= <- <-]; auto.
Qed.

Lemma call_raised {T} (r : request T) w s e s' :
  call r w s = (Raised e, s') ->
  w_answer w T (length (events s)) r = inl e /\ s' = log_event (ECall r) s.
Proof.
  unfold call. destruct (w_answer w T _ r); intros [= <- <-]; auto.
Qed.

Lemma time_time_returned w s t s' :
  time_time w s = (Returned t, s') ->
  t = w_clock w (length (events s)) /\ s' = s.
Proof. unfold time_time. intros [= <- <-]. auto. Qed.

Lemma new_resolver_returned w s u s' :
  new_resolver w s = (Returned u, s') ->
  w_resolver w (length (events s)) = None /\ s' = s.
Proof.
  unfold new_resolver. destruct (w_resolver w _); intros [= <-]; auto.
Qed.

Lemma new_resolver_raised w s e s' :
  new_resolver w s = (Raised e, s') ->
  w_resolver w (length (events s)) = Some e /\ s' = s.
Proof.
  unfold new_resolver. destruct (w_resolver w _); intros [= <- <-]; auto.
Qed.

(** With a resolver configuration, [Resolver()] is a step like any
    other. *)
Lemma new_resolver_bind {A} (k : unit -> M A) w s :
  w_resolver w (length (events s)) = None ->
  bind new_resolver k w s = k tt w s.
Proof. intros H. unfold bind, new_resolver. rewrite H. reflexivity. Qed.

Lemma overrides_returned w s table s' :
  DOMAIN_CONFIDENCE_OVERRIDES w s = (Returned table, s') ->
  table = w_overrides w (length (events s)) /\ s' = s.
Proof. unfold DOMAIN_CONFIDENCE_OVERRIDES. intros [= <- <-]. auto. Qed.

Lemma int_of_number_returned x w s n s' :
  int_of_number x w s = (Returned n, s') -> int_value x = Some n /\ s' = s.
Proof. destruct x; cbn; intros [= <- <-]; auto. Qed.

Lemma int_of_number_raised x w s e s' :
  int_of_number x w s = (Raised e, s') -> int_value x = None /\ s' = s.
Proof. destruct x; cbn; intros [= <- <-]; auto. Qed.

Lemma length_events_log ev s :
  length (events (log_event ev s)) = (length (events s) + 1)%nat.
Proof. unfold log_event. simpl. rewrite length_app. reflexivity. Qed.

Lemma returns_ret {A} (a : A) : returns (ret a).
Proof. intros w s. unfold ret. eauto. Qed.

Lemma returns_bind {A B} (c : M A) (k : A -> M B) :
  returns c -> (forall a, returns (k a)) -> returns (bind c k).
Proof.
  intros Hc Hk w s. unfold bind.
  destruct (Hc w s) as (a & s1 & ->). apply Hk.
Qed.

(** A [try] whose handler returns, returns, whatever its body does. *)
Lemma returns_try_except {A} (c : M A) (h : exn -> M A) :
  (forall e, returns (h e)) -> returns (try_except c h).
Proof.
  intros Hh w s. unfold try_except.
  destruct (c w s) as [[a|e] s1]; [eauto|apply Hh].
Qed.

Lemma returns_time_time : returns time_time.
Proof. intros w s. unfold time_time. eauto. Qed.

Lemma returns_time_sleep d : returns (time_sleep d).
Proof. intros w s. unfold time_sleep. eauto. Qed.

Lemma returns_random_local : returns random_local.
Proof. intros w s. unfold random_local. eauto. Qed.

Lemma returns_random_randint lo hi : returns (random_randint lo hi).
Proof. intros w s. unfold random_randint. eauto. Qed.

Lemma returns_get_state : returns get_state.
Proof. intros w s. unfold get_state. eauto. Qed.

Lemma returns_put_state s0 : returns (put_state s0).
Proof. intros w s. unfold put_state. eauto. Qed.

Create HintDb returns discriminated.
#[local] Hint Resolve returns_ret returns_time_time returns_time_sleep
  returns_random_local returns_random_randint returns_get_state
  returns_put_state : returns.

(** Goes through a computation built from the monad's operations,
    conditionals and pattern matching. *)
Ltac returns_step :=
  lazymatch goal with
  | |- returns (bind _ _) => apply returns_bind; [|intros ?]
  | |- returns (try_except _ _) => apply returns_try_except; intros ?
  | |- returns (if ?c then _ else _) => destruct c
  | |- returns (match ?x with _ => _ end) => destruct x
  | |- returns (let x := _ in _) => cbv zeta
  | |- forall _, _ => intros ?
  | |- _ => solve [auto with returns]
  end.

Ltac prove_returns := repeat returns_step.

(** One step of the inversion of a run that returned. *)
Ltac inv_step H :=
  lazymatch type of H with
  | bind _ _ _ _ = (Returned _, _) =>
      let a := fresh "a" in let s1 := fresh "s" in let H1 := fresh "Hrun" in
      apply bind_returned in H as (a & s1 & H1 & H); cbv beta in H
  | ret _ _ _ = (Returned _, _) =>
      apply ret_returned in H as [? ?]
  | raise _ _ _ = (Returned _, _) => discriminate H
  | (match ?e with _ => _ end) _ _ = (Returned _, _) =>
      let E := fresh "E" in destruct e eqn:E; try discriminate E
  | (let x := _ in _) _ _ = _ => cbv zeta in H
  end.

(** The same, following every branch, the calls to the world included. *)
Ltac inv_branches H :=
  repeat first
    [ inv_step H
    | lazymatch type of H with
      | try_except _ _ _ _ = (Returned _, _) =>
          let e := fresh "e" in let s1 := fresh "s" in let H1 := fresh "Hrun" in
          apply try_except_returned in H as [H|(e & s1 & H1 & H)]
      | (if ?c then _ else _) = _ => destruct c
      | match ?l with [] => _ | _ :: _ => _ end = _ => destruct l
      end ].
(** Inversion of everything in sight: for the probes, whose branches are
    few. *)
Ltac inv_all :=
  repeat match goal with
    | H : bind _ _ _ _ = (Returned _, _) |- _ =>
        apply bind_returned in H as (? & ? & ? & H); cbv beta in H
    | H : bind _ _ _ _ = (Raised _, _) |- _ =>
        apply bind_raised in H as [H|(? & ? & ? & H)]; cbv beta in H
    | H : ret _ _ _ = (Returned _, _) |- _ =>
        apply ret_returned in H as [? ?]; subst
    | H : ret _ _ _ = (Raised _, _) |- _ => discriminate H
    | H : raise _ _ _ = (Returned _, _) |- _ => discriminate H
    | H : try_except _ _ _ _ = (Returned _, _) |- _ =>
        apply try_except_returned in H as [H|(? & ? & ? & H)]; cbv beta in H
    | H : call _ _ _ = (Returned _, _) |- _ =>
        apply call_returned in H as [? ?]; subst
    | H : call _ _ _ = (Raised _, _) |- _ =>
        apply call_raised in H as [? ?]; subst
    | H : time_time _ _ = (Returned _, _) |- _ =>
        apply time_time_returned in H as [? ?]; subst
    | H : new_resolver _ _ = (Returned _, _) |- _ =>
        apply new_resolver_returned in H as [? ?]; subst
    | H : new_resolver _ _ = (Raised _, _) |- _ =>
        apply new_resolver_raised in H as [? ?]; subst
    | H : (if ?c then _ else _) _ _ = (_, _) |- _ => destruct c eqn:?
    | H : (match ?x with _ => _ end) _ _ = (_, _) |- _ => destruct x eqn:?
    | H : (let x := _ in _) _ _ = (_, _) |- _ => cbv zeta in H
    end.


(** ** The job registry *)

Module JobManagerSpec.
Import JobManager.

Lemma last_n_length {A} (n : nat) (l : list A) :
  (length (last_n n l) <= n)%nat.
Proof. unfold last_n. rewrite length_drop. lia. Qed.

(** Appending to the last [n] elements and cutting again is cutting the
    whole history once. *)
Lemma last_n_snoc {A} (n : nat) (h : list A) (x : A) :
  (0 < n)%nat -> last_n n (last_n n h ++ [x]) = last_n n (h ++ [x]).
Proof.
  intros Hn. unfold last_n.
  rewrite !length_app, length_drop. simpl.
  destruct (decide (length h <= n)%nat) as [Hle|Hgt].
  - replace (length h - n)%nat with 0%nat by lia. simpl.
    replace (length h - 0 + 1 - n)%nat with (length h + 1 - n)%nat by lia.
    reflexivity.
  - rewrite drop_app_le by (rewrite length_drop; lia).
    rewrite drop_drop.
    rewrite (drop_app_le h) by lia.
    f_equal. f_equal. lia.
Qed.

(** One call keeps the link between a job's [errors] and what was
    recorded for it. *)
Lemma step_errors (jobs : gmap string job) (c : call) (job_id : string)
    (h : list string) :
  (forall j, jobs !! job_id = Some j -> errors j = last_n 10 h) ->
  forall j, step jobs c !! job_id = Some j ->
            errors j = last_n 10 (recorded_step job_id h c).
Proof.
  intros IH j.
  destruct c as [u now t n m|now k|k ok m e|now k p f|now k e]; simpl.
  - unfold create_job; simpl.
    destruct (String.eqb_spec u job_id) as [->|Hne].
    + rewrite lookup_insert_eq. intros [= <-]. reflexivity.
    + rewrite lookup_insert_ne by done. apply IH.
  - unfold start_job. destruct (jobs !! k) as [j0|] eqn:Hk; [|apply IH].
    destruct (decide (k = job_id)) as [->|Hne].
    + rewrite lookup_insert_eq. intros [= <-]. simpl. auto.
    + rewrite lookup_insert_ne by done. apply IH.
  - unfold increment. destruct (String.eqb_spec k job_id) as [->|Hne].
    + destruct (jobs !! job_id) as [j0|] eqn:Hk.
      * rewrite lookup_insert_eq. intros [= <-]. simpl.
        destruct ok; simpl; [auto|].
        destruct (PyStr.truthy_opt e); simpl; [|auto].
        rewrite (IH j0 eq_refl). apply last_n_snoc. lia.
      * rewrite Hk. discriminate.
    + simpl. destruct (jobs !! k) as [j0|] eqn:Hk; [|apply IH].
      rewrite lookup_insert_ne by done. apply IH.
  - unfold complete_job. destruct (jobs !! k) as [j0|] eqn:Hk; [|apply IH].
    destruct (decide (k = job_id)) as [->|Hne].
    + rewrite lookup_insert_eq. intros [= <-]. simpl. auto.
    + rewrite lookup_insert_ne by done. apply IH.
  - unfold fail_job. destruct (String.eqb_spec k job_id) as [->|Hne].
    + destruct (jobs !! job_id) as [j0|] eqn:Hk.
      * rewrite lookup_insert_eq. intros [= <-]. simpl.
        rewrite (IH j0 eq_refl). apply last_n_snoc. lia.
      * rewrite Hk. discriminate.
    + destruct (jobs !! k) as [j0|] eqn:Hk; [|apply IH].
      rewrite lookup_insert_ne by done. apply IH.
Qed.

Lemma run_errors (cs : list call) (job_id : string) (j : job) :
  run cs !! job_id = Some j -> errors j = last_n 10 (recorded job_id cs).
Proof.
  unfold run, recorded. revert j.
  induction cs as [|c cs IH] using rev_ind; intros j.
  - simpl. rewrite lookup_empty. discriminate.
  - rewrite !foldl_app. simpl. apply step_errors. exact IH.
Qed.

(** One call keeps the row counters of every job in step. *)
Lemma step_counters (jobs : gmap string job) (c : call) :
  (forall k j, jobs !! k = Some j ->
               0 <= success_rows j /\ 0 <= error_rows j /\
               processed_rows j = success_rows j + error_rows j) ->
  forall k j, step jobs c !! k = Some j ->
              0 <= success_rows j /\ 0 <= error_rows j /\
              processed_rows j = success_rows j + error_rows j.
Proof.
  intros IH k j.
  destruct c as [u now t n m|now k'|k' ok m e|now k' p f|now k' e]; simpl.
  - unfold create_job; simpl.
    destruct (decide (u = k)) as [->|Hne].
    + rewrite lookup_insert_eq. intros [= <-]. simpl. lia.
    + rewrite lookup_insert_ne by done. apply IH.
  - unfold start_job. destruct (jobs !! k') as [j0|] eqn:Hk; [|apply IH].
    destruct (decide (k' = k)) as [->|Hne].
    + rewrite lookup_insert_eq. intros [= <-]. simpl. eauto.
    + rewrite lookup_insert_ne by done. apply IH.
  - unfold increment. destruct (jobs !! k') as [j0|] eqn:Hk; [|apply IH].
    destruct (decide (k' = k)) as [->|Hne].
    + rewrite lookup_insert_eq. intros [= <-]. simpl.
      specialize (IH k j0 Hk). destruct ok; lia.
    + rewrite lookup_insert_ne by done. apply IH.
  - unfold complete_job. destruct (jobs !! k') as [j0|] eqn:Hk; [|apply IH].
    destruct (decide (k' = k)) as [->|Hne].
    + rewrite lookup_insert_eq. intros [= <-]. simpl. eauto.
    + rewrite lookup_insert_ne by done. apply IH.
  - unfold fail_job. destruct (jobs !! k') as [j0|] eqn:Hk; [|apply IH].
    destruct (decide (k' = k)) as [->|Hne].
    + rewrite lookup_insert_eq. intros [= <-]. simpl. eauto.
    + rewrite lookup_insert_ne by done. apply IH.
Qed.

(** After any sequence of calls on a new registry, the processed rows of
    every job are its successful rows plus its failed rows, and neither
    count is negative. *)
Theorem processed_rows_add_up (cs : list call) (job_id : string) (j : job) :
  run cs !! job_id = Some j ->
  0 <= success_rows j /\ 0 <= error_rows j /\
  processed_rows j = success_rows j + error_rows j.
Proof.
  unfold run. revert job_id j.
  induction cs as [|c cs IH] using rev_ind; intros job_id j.
  - simpl. rewrite lookup_empty. discriminate.
  - rewrite foldl_app. simpl. apply step_counters. exact IH.
Qed.

(** The counters of the job that failed after twelve failed rows. *)
Lemma processed_rows_add_up_witness :
  0 <= success_rows failed_job /\ 0 <= error_rows failed_job /\
  processed_rows failed_job = success_rows failed_job + error_rows failed_job.
Proof.
  apply (processed_rows_add_up failing_calls "job-1" failed_job).
  vm_compute. reflexivity.
Defined.

(** C9. After any sequence of create_job, start_job, increment,
    complete_job and fail_job calls on a new registry, every job of the
    registry has at most ten entries in [errors], and they are the last
    ten (or all, if fewer) of the error strings recorded for the job
    since it was created, oldest first. *)
Theorem errors_last_ten (cs : list call) (job_id : string) (j : job) :
  run cs !! job_id = Some j ->
  (length (errors j) <= 10)%nat /\
  errors j = last_n 10 (recorded job_id cs).
Proof.
  intros H. apply run_errors in H. split; [|exact H].
  rewrite H. apply last_n_length.
Qed.

(** C9 at work: thirteen errors are recorded for a job, ten are kept. *)
Lemma errors_last_ten_witness :
  (length (errors failed_job) <= 10)%nat /\
  errors failed_job = last_n 10 (recorded "job-1" failing_calls) /\
  length (recorded "job-1" failing_calls) = 13%nat.
Proof.
  split; [|split].
  - apply (errors_last_ten failing_calls "job-1" failed_job).
    vm_compute. reflexivity.
  - apply (errors_last_ten failing_calls "job-1" failed_job).
    vm_compute. reflexivity.
  - reflexivity.
Defined.

End JobManagerSpec.
(** ** DNS health *)

Lemma txt_record_with_returns name tag : returns (txt_record_with name tag).
Proof. unfold txt_record_with. prove_returns. Qed.

Lemma dkim_lookup_returns domain selectors :
  returns (dkim_lookup domain selectors).
Proof.
  induction selectors as [|selector rest IH]; simpl; prove_returns.
Qed.

#[local] Hint Resolve txt_record_with_returns dkim_lookup_returns : returns.

(** The DNS probe returns when [Resolver()] gives it a resolver, and
    raises what [Resolver()] raises. *)
Lemma _check_dns_health_returns domain w s :
  w_resolver w (length (events s)) = None ->
  exists d s', _check_dns_health domain w s = (Returned d, s').
Proof.
  intros Hr. unfold _check_dns_health.
  unfold bind at 1, time_time at 1. rewrite (new_resolver_bind _ w s Hr).
  match goal with
  | |- exists d s', ?c w s = _ =>
      assert (H : returns c) by prove_returns; apply H
  end.
Qed.

Lemma _check_dns_health_raises domain w s e :
  w_resolver w (length (events s)) = Some e ->
  _check_dns_health domain w s = (Raised e, s).
Proof.
  intros Hr. unfold _check_dns_health, bind, time_time, new_resolver.
  rewrite Hr. reflexivity.
Qed.

Lemma _check_dns_health_raised domain w s e s' :
  _check_dns_health domain w s = (Raised e, s') ->
  w_resolver w (length (events s)) = Some e /\ s' = s.
Proof.
  intros H. destruct (w_resolver w (length (events s))) as [e0|] eqn:Hr.
  - rewrite (_check_dns_health_raises _ _ _ _ Hr) in H.
    injection H as -> ->. auto.
  - destruct (_check_dns_health_returns domain w s Hr) as (d & s1 & Hrun).
    rewrite Hrun in H. discriminate H.
Qed.

(** The points of the DNS probe, and how [mx_present] and [mx_hosts]
    follow from the answers to the MX lookup (the second request of the
    probe) and to the fallback A lookup (the third). *)
Lemma _check_dns_health_mx domain w s d s' :
  _check_dns_health domain w s = (Returned d, s') ->
  -3 <= dns_points d <= 38 /\
  match w_answer w _ (length (events s) + 1) (Resolve domain RD_MX) with
  | inr mx_records =>
      dns_mx_present d = true /\
      dns_mx_hosts d = map PyStr.rstrip_dot (records mx_records)
  | inl e =>
      dns_mx_present d = false /\
      if is_a e DnsNoAnswer then
        match w_answer w _ (length (events s) + 1 + 1) (Resolve domain RD_A)
        with
        | inr _ => dns_mx_hosts d = [domain] /\ dns_domain_exists d = true
        | inl _ => dns_mx_hosts d = []
        end
      else dns_mx_hosts d = []
  end.
Proof.
  intros H. unfold _check_dns_health in H.
  inv_all.
  all: cbn [dns_points dns_mx_present dns_mx_hosts dns_domain_exists].
  all: rewrite ?length_events_log in *.
  all: repeat match goal with
              | Hw : w_answer _ _ _ _ = _ |- _ => rewrite Hw; clear Hw
              end.
  all: repeat match goal with
              | E : is_a _ _ = _ |- _ => rewrite E
              end.
  all: (split; [repeat case_match; lia | auto]).
Qed.

(** The DNS probe raises what [Resolver()] raises, the resolver
    configuration of the host missing for one, and nothing else: with a
    resolver it returns a result, whatever the lookups do, and the points
    of the result are between -3 (nothing found, slow answers) and 38
    (MX, SPF, DMARC and DKIM found, quick answers). *)
Theorem dns_health_total_and_bounded (domain : string) (w : World)
    (s : state) :
  match w_resolver w (length (events s)) with
  | Some e => _check_dns_health domain w s = (Raised e, s)
  | None =>
      exists d s',
        _check_dns_health domain w s = (Returned d, s') /\
        -3 <= dns_points d <= 38
  end.
Proof.
  destruct (w_resolver w (length (events s))) as [e|] eqn:Hr.
  - apply _check_dns_health_raises. exact Hr.
  - destruct (_check_dns_health_returns domain w s Hr) as (d & s' & Hrun).
    exists d, s'. split; [exact Hrun|].
    apply _check_dns_health_mx in Hrun as [Hpoints _]. exact Hpoints.
Qed.

(** ** The RCPT probe *)

Lemma _check_smtp_rcpt_returns self email domain mx_hosts conn fast :
  returns (_check_smtp_rcpt self email domain mx_hosts conn fast).
Proof. unfold _check_smtp_rcpt. prove_returns. Qed.

(** The result of the probe is the classification of the reply to RCPT
    TO, or it has no flag and no point. *)
Lemma _check_smtp_rcpt_cases self email domain mx_hosts conn fast w s r s' :
  _check_smtp_rcpt self email domain mx_hosts conn fast w s
    = (Returned r, s') ->
  (exists n reply t,
      w_answer w _ n (SmtpRcpt email) = inr reply /\
      r = rcpt_classify (reply_code reply) (reply_text reply) t) \/
  (rcpt_flags r = (false, false, false, false, 0) /\
   (rc_response_code r = None -> t_response_time_sec (rc_timing r) = 0%Q)).
Proof.
  intros H. unfold _check_smtp_rcpt in H. inv_all.
  all: try (right; split; [reflexivity|]; cbn; try discriminate; reflexivity).
  all: try (right; unfold rcpt_handler; repeat case_match;
            split; try reflexivity; cbn; try discriminate; reflexivity).
  all: simplify_eq; left; eauto.
Qed.

(** One request of the dialogue: the tick it is asked at, then the answer
    of the world. *)
Ltac rcpt_step :=
  rewrite ?length_events_log, <- ?Nat.add_assoc; cbn [Nat.add];
  first
    [ match goal with
      | H : w_answer _ _ _ _ = _ |- _ => rewrite H
      end
    | match goal with
      | |- context [match w_answer ?w ?T ?t ?r with _ => _ end] =>
          destruct (w_answer w T t r) as [?|?] eqn:?
      end
    | match goal with
      | |- context [let '(_, _) := ?a in _] => is_var a; destruct a
      end
    | match goal with
      | |- context [negb ?c] => destruct c eqn:?; cbn [negb]
      end ];
  cbn beta iota zeta.

(** The probe returns, and what it returns is told by what the world
    answers to its dialogue. *)
Lemma _check_smtp_rcpt_result self email domain mx_hosts conn fast w s :
  exists r s',
    _check_smtp_rcpt self email domain mx_hosts conn fast w s
      = (Returned r, s') /\
    events s `prefix_of` events s' /\
    match rcpt_reply self w email mx_hosts conn (length (events s)) with
    | Some (asked, reply) =>
        r = rcpt_classify (reply_code reply) (reply_text reply)
              (w_clock w (asked + 1) - w_clock w (length (events s)))%Q /\
        events s' !! asked = Some (ECall (SmtpRcpt email))
    | None => rcpt_flags r = (false, false, false, false, 0)
    end.
Proof.
  unfold _check_smtp_rcpt, rcpt_reply, rcpt_skips, rcpt_host.
  destruct (default false (sc_skipped conn) || negb (sc_port_25_open conn)).
  { eexists _, _. split; [reflexivity|]. split; reflexivity. }
  destruct (if PyStr.truthy_opt (sc_mx_used conn) then sc_mx_used conn
            else head mx_hosts) as [mx_host|].
  2: { eexists _, _. split; [reflexivity|]. split; reflexivity. }
  destruct (PyStr.truthy mx_host); cbn [negb].
  2: { eexists _, _. split; [reflexivity|]. split; reflexivity. }
  unfold rcpt_exchange, bind, try_except, call, time_time, ret.
  repeat rcpt_step.
  all: eexists _, _; split; [reflexivity|].
  all: split; [cbn [events log_event]; repeat apply prefix_app_r; reflexivity|].
  all: try solve [unfold rcpt_handler; repeat case_match; reflexivity].
  all: split; [reflexivity|].
  all: cbn [events log_event].
  all: rewrite lookup_app_l by (rewrite !length_app; simpl; lia).
  all: apply list_lookup_middle; rewrite !length_app; simpl; lia.
Qed.

(** The tick at which RCPT TO is asked, and what the world answers
    there. *)
Lemma rcpt_reply_asked self w email mx_hosts conn t0 asked reply :
  rcpt_reply self w email mx_hosts conn t0 = Some (asked, reply) ->
  (t0 + 3 <= asked <= t0 + 4)%nat /\
  w_answer w _ asked (SmtpRcpt email) = inr reply.
Proof.
  unfold rcpt_reply, rcpt_exchange. intros H.
  repeat case_match; simplify_eq; split; solve [lia|assumption].
Qed.

Lemma rcpt_classify_code code message t :
  rc_response_code (rcpt_classify code message t) = Some code.
Proof. unfold rcpt_classify. repeat case_match; reflexivity. Qed.

(** A result without a response code has the response time it started
    with, 0. *)
Lemma rcpt_unmeasured self email domain mx_hosts conn fast w s r s' :
  _check_smtp_rcpt self email domain mx_hosts conn fast w s
    = (Returned r, s') ->
  rc_response_code r = None ->
  t_response_time_sec (rc_timing r) = 0%Q.
Proof.
  intros H Hcode.
  apply _check_smtp_rcpt_cases in H as [(n & reply & t & _ & ->)|[_ H]].
  - rewrite rcpt_classify_code in Hcode. discriminate.
  - auto.
Qed.

(** The rows of the classification. *)
Lemma rcpt_classify_rows code message t :
  let flags := rcpt_flags (rcpt_classify code message t) in
  (code = 250 \/ code = 251 -> flags = (true, false, false, false, 10)) /\
  (code = 550 -> names_unknown_user message = true ->
   flags = (false, true, true, false, 0)) /\
  (code = 550 -> names_unknown_user message = false ->
   flags = (false, true, false, false, 0) /\
   rc_error (rcpt_classify code message t) = None) /\
  (code = 450 \/ code = 451 \/ code = 421 ->
   flags = (false, false, false, true, 10)) /\
  (500 <= code < 600 -> code <> 550 -> flags = (false, true, true, false, 0)) /\
  (code <> 250 -> code <> 251 -> code <> 450 -> code <> 451 -> code <> 421 ->
   ~ 500 <= code < 600 -> flags = (false, false, false, false, 0)).
Proof.
  unfold rcpt_flags, rcpt_classify, is_250_251. cbv zeta.
  repeat split; intros; repeat case_match; cbn; try reflexivity; try lia.
Qed.

(** Of accepted, rejected and soft_failure at most one is set, and
    hard_failure only with rejected. *)
Lemma rcpt_classify_exclusive code message t :
  let r := rcpt_classify code message t in
  rc_accepted r && rc_rejected r = false /\
  rc_accepted r && rc_soft_failure r = false /\
  rc_rejected r && rc_soft_failure r = false /\
  (rc_hard_failure r = true -> rc_rejected r = true).
Proof.
  unfold rcpt_classify. cbv zeta. repeat case_match; cbn; auto.
Qed.

(** ** The orchestrator *)

(** A dictionary entry set under a condition is there when the condition
    holds. *)
Lemma pair_if_true (c : bool) (z1 : Z) (name : string) (x : detail)
    (z : Z) (d : gmap string detail) z' d' :
  (if c then (z1, <[name := x]> d) else (z, d)) = (z', d') ->
  c = true -> d' !! name = Some x.
Proof. intros H ->. injection H as _ <-. apply lookup_insert_eq. Qed.

(** [g' !! k = g !! k] from the step [Hx] that made [g'] of [g]. *)
Ltac frame_of Hx g g' k :=
  let Hf := fresh "Hframe" in
  assert (Hf : g' !! k = g !! k)
    by (clear -Hx; inv_branches Hx; simplify_eq;
        rewrite ?lookup_insert_ne by done; reflexivity).

(** The keys the properties below look up in the final dictionary. *)
Ltac frames_of Hx g g' :=
  try frame_of Hx g g' "dns_health";
  try frame_of Hx g g' "smtp_connection";
  try frame_of Hx g g' "smtp_rcpt";
  try frame_of Hx g g' "latency_fingerprint".

Ltac frames_from Hx g' :=
  is_var g';
  lazymatch type of g' with gmap string detail => idtac end;
  match goal with
  | g : gmap string detail |- _ =>
      tryif constr_eq g g' then fail else
      lazymatch type of Hx with
      | context [g] => frames_of Hx g g'; clear Hx
      end
  end.

(** Replaces a step of the orchestrator by what it leaves of the
    dictionary it started from. *)
Ltac summarize Hx :=
  lazymatch type of Hx with
  | _ = (Returned (_, ?g'), _) => frames_from Hx g'
  | _ = (Returned ?g', _) => frames_from Hx g'
  | _ = (_, ?g') => frames_from Hx g'
  end.

(** The override step changes nothing without an entry for the domain;
    with one it raises the score to the floor, recomputes the confidence
    and replaces the status. *)
Lemma apply_override_returned domain result w s v s' :
  apply_override domain result w s = (Returned v, s') ->
  s' = s /\ v_email v = v_email result /\ v_reason v = v_reason result /\
  v_details v = v_details result /\ v_risky v = v_risky result /\
  match w_overrides w (length (events s)) !! domain with
  | None => v = result
  | Some override =>
      v_status v = default (v_status result) (ov_force_status override) /\
      match ov_min_score override with
      | None =>
          v_score v = v_score result /\
          v_confidence v = v_confidence result
      | Some min_score =>
          exists floor,
            int_value min_score = Some floor /\
            v_score v = Z.max (v_score result) floor /\
            v_confidence v = confidence_of (v_score v)
      end
  end.
Proof.
  intros H. unfold apply_override in H.
  apply bind_returned in H as (table & s1 & Htable & H).
  apply overrides_returned in Htable as [-> ->].
  destruct (w_overrides w _ !! domain) as [override|].
  - apply bind_returned in H as (score & s1 & Hscore & H).
    apply ret_returned in H as [<- <-]. cbn.
    destruct (ov_min_score override) as [min_score|].
    + apply bind_returned in Hscore as (floor & s2 & Hfloor & Hscore).
      apply int_of_number_returned in Hfloor as [Hfloor ->].
      apply ret_returned in Hscore as [<- <-]. eauto 10.
    + apply ret_returned in Hscore as [<- <-]. auto 10.
  - apply ret_returned in H as [<- <-]. auto 10.
Qed.

(** What a verification that returns went through: it stopped at the
    syntax check, or at the DNS stage, or it ran the probes, mapped the
    clamped score to the verdict and applied the override of the
    domain. *)
Lemma verify_email_returned self email fast cm ic w s v s' :
  verify_email self email fast cm ic w s = (Returned v, s') ->
  (sx_valid (_check_syntax email) = false /\
   v = invalid_syntax_result email /\ s' = s) \/
  (sx_valid (_check_syntax email) = true /\
   exists d s1,
     _check_dns_health (domain_of email) w s = (Returned d, s1) /\
     v_details v !! "dns_health" = Some (DDnsHealth d) /\
     ((dns_domain_exists d = false /\
       v_details v = <["dns_health" := DDnsHealth d]>
                       (<["syntax" := DSyntax (_check_syntax email)]> ∅) /\
       v_status v = "invalid" /\ v_reason v = "Domain does not exist" /\
       v_score v = 10 + dns_points d /\
       v_confidence v = confidence_of (v_score v)) \/
      (dns_domain_exists d = true /\
       (exists result,
          apply_override (domain_of email) result w s' = (Returned v, s') /\
          (v_status result, v_reason result)
            = status_of_score (v_score result) /\
          v_confidence result = confidence_of (v_score result) /\
          exists score, v_score result = Z.max 0 (Z.min 100 score)) /\
       exists conn rcpt s5 s6,
         _check_smtp_rcpt self email (domain_of email) (dns_mx_hosts d) conn
           fast w s5 = (Returned rcpt, s6) /\
         v_details v !! "smtp_connection" = Some (DSmtpConnection conn) /\
         v_details v !! "smtp_rcpt" = Some (DSmtpRcpt rcpt) /\
         (PyStr.truthy_opt (sc_mx_used conn) && negb fast = true ->
          v_details v !! "latency_fingerprint" =
            Some (DLatencyFingerprint
                    (_analyze_connection_latency conn rcpt)))))).
Proof.
  intros H. unfold verify_email in H.
  repeat (inv_step H).
  - (* the syntax check *)
    left. apply negb_true_iff in E. subst v. auto.
  - (* the DNS stage *)
    right. apply negb_false_iff in E. split; [exact E|].
    unfold domain_of.
    destruct (PyStr.split_once _ _) as [parts|]; [|discriminate Hrun].
    apply ret_returned in Hrun as [-> ->].
    apply negb_true_iff in E1. subst v. cbn.
    eexists _, _. split; [exact Hrun0|]. split.
    + apply lookup_insert_eq.
    + left. unfold _check_syntax in *. cbn in E. rewrite E. auto 10.
  - (* every probe ran *)
    right. apply negb_false_iff in E. split; [exact E|].
    unfold domain_of.
    destruct (PyStr.split_once _ _) as [parts|]; [|discriminate Hrun].
    apply ret_returned in Hrun as [-> ->].
    apply negb_false_iff in E1.
    match goal with
    | E : context [insert "latency_fingerprint"] |- _ =>
        pose proof (pair_if_true _ _ _ _ _ _ _ _ E) as Hlat
    end.
    repeat match goal with Hx : _ |- _ => summarize Hx end.
    repeat match goal with
           | Hx : _ = (Returned (_, _), _) |- _ =>
               progress (repeat inv_step Hx)
           end.
    all: match goal with
         | Ho : apply_override _ _ _ _ = (Returned _, _) |- _ =>
             pose proof (apply_override_returned _ _ _ _ _ _ Ho)
               as (Hs & _ & _ & Hdet & _ & _)
         end.
    all: simplify_eq; rewrite Hdet;
      cbn [v_details v_status v_reason v_score v_confidence].
    all: eexists _, _; split; [eassumption|].
    all: repeat match goal with
                | Hf : ?g' !! ?k = _ |- context [?g' !! ?k] =>
                    is_var g'; rewrite Hf
                end.
    all: repeat first
           [rewrite lookup_insert_eq | rewrite lookup_insert_ne by done].
    all: split; [reflexivity|]; right; split; [assumption|].
    all: split;
      [eexists; split; [eassumption|];
       cbn [v_details v_status v_reason v_score v_confidence];
       split; [congruence|]; split; [reflexivity|]; eauto|].
    all: eexists _, _, _, _; split; [eassumption|].
    all: split; [reflexivity|]; split; [reflexivity|].
    all: intros Hc; rewrite <- Hlat by exact Hc.
    all: repeat match goal with
                | Hf : ?g' !! ?k = _ |- context [?g' !! ?k] =>
                    is_var g'; rewrite Hf
                end; reflexivity.
Qed.
(** * More properties of the registry and of the verifier *)

(** ** The job registry, call by call *)

Module JobManagerLife.
Import JobManager JobHistory.

Lemma run_snoc (cs : list call) (c : call) :
  run (cs ++ [c]) = step (run cs) c.
Proof. unfold run. rewrite foldl_app. reflexivity. Qed.

(** What a call does to the entry of a job: nothing if it is addressed to
    another job or if the job is not there and the call does not create
    it. *)
Lemma step_lookup (jobs : gmap string job) (c : call) (k : string) :
  step jobs c !! k =
    if addressed_to k c then
      match c, jobs !! k with
      | CreateJob _ _ _ _ _, _ => step jobs c !! k
      | _, None => None
      | _, Some _ => step jobs c !! k
      end
    else jobs !! k.
Proof.
  unfold addressed_to.
  destruct (String.eqb_spec (target c) k) as [<-|Hne].
  - destruct c; simpl; try reflexivity.
    + unfold start_job. destruct (jobs !! job_id) eqn:E; [reflexivity|exact E].
    + unfold increment. destruct (jobs !! job_id) eqn:E; [reflexivity|exact E].
    + unfold complete_job.
      destruct (jobs !! job_id) eqn:E; [reflexivity|exact E].
    + unfold fail_job. destruct (jobs !! job_id) eqn:E; [reflexivity|exact E].
  - destruct c; simpl in *.
    + unfold create_job; simpl. rewrite lookup_insert_ne by done. reflexivity.
    + unfold start_job. destruct (jobs !! job_id); [|reflexivity].
      rewrite lookup_insert_ne by done. reflexivity.
    + unfold increment. destruct (jobs !! job_id); [|reflexivity].
      rewrite lookup_insert_ne by done. reflexivity.
    + unfold complete_job. destruct (jobs !! job_id); [|reflexivity].
      rewrite lookup_insert_ne by done. reflexivity.
    + unfold fail_job. destruct (jobs !! job_id); [|reflexivity].
      rewrite lookup_insert_ne by done. reflexivity.
Qed.

Lemma step_other (jobs : gmap string job) (c : call) (k : string) :
  addressed_to k c = false -> step jobs c !! k = jobs !! k.
Proof. intros H. rewrite step_lookup, H. reflexivity. Qed.

(** The entry of a job after a call depends on the registry through this
    entry only. *)
Lemma step_local (jobs jobs' : gmap string job) (c : call) (k : string) :
  jobs !! k = jobs' !! k -> step jobs c !! k = step jobs' c !! k.
Proof.
  intros H. destruct (addressed_to k c) eqn:Ht.
  - unfold addressed_to in Ht. apply String.eqb_eq in Ht. subst k.
    destruct c; simpl in *.
    + unfold create_job; simpl. rewrite !lookup_insert_eq. reflexivity.
    + unfold start_job. rewrite <- H. destruct (jobs !! job_id) eqn:E; [|congruence].
      rewrite !lookup_insert_eq. reflexivity.
    + unfold increment. rewrite <- H. destruct (jobs !! job_id) eqn:E; [|congruence].
      rewrite !lookup_insert_eq. reflexivity.
    + unfold complete_job. rewrite <- H.
      destruct (jobs !! job_id) eqn:E; [|congruence].
      rewrite !lookup_insert_eq. reflexivity.
    + unfold fail_job. rewrite <- H. destruct (jobs !! job_id) eqn:E; [|congruence].
      rewrite !lookup_insert_eq. reflexivity.
  - rewrite !step_other by exact Ht. exact H.
Qed.

(** The jobs of a registry do not interfere: the entry of a job is what
    the calls addressed to it alone would have made it, whatever was
    done to other jobs in between. *)
Theorem job_depends_on_its_calls (cs : list call) (job_id : string) :
  run cs !! job_id = run (filter (fun c => addressed_to job_id c = true) cs)
                       !! job_id.
Proof.
  induction cs as [|c cs IH] using rev_ind; [reflexivity|].
  rewrite filter_app, run_snoc. simpl.
  rewrite filter_cons, filter_nil.
  destruct (decide (addressed_to job_id c = true)) as [Ht|Hf].
  - rewrite run_snoc. apply step_local, IH.
  - rewrite app_nil_r, step_other by (destruct (addressed_to job_id c); done).
    exact IH.
Qed.

(** An entry is in the registry exactly when [create_job] put it there:
    no other method adds an entry (a call on an unknown id changes
    nothing), none removes one, and the [id] field of an entry is its
    key. *)
Theorem job_exists_iff_created (cs : list call) (job_id : string) :
  (is_Some (run cs !! job_id) <-> created job_id cs = true) /\
  (forall j, run cs !! job_id = Some j -> id j = job_id).
Proof.
  induction cs as [|c cs [IHe IHi]] using rev_ind.
  - unfold run, created. simpl. rewrite lookup_empty. split.
    + split; [intros [? ?]|]; discriminate.
    + discriminate.
  - rewrite run_snoc. unfold created in *. rewrite existsb_app. simpl.
    rewrite orb_false_r, step_lookup.
    destruct (addressed_to job_id c) eqn:Ht.
    + unfold addressed_to in Ht. apply String.eqb_eq in Ht.
      destruct c as [u now t n m|now k|k ok m e|now k p f|now k e];
        simpl in Ht; subst; simpl.
      * unfold create_job; simpl. rewrite lookup_insert_eq.
        rewrite String.eqb_refl, orb_true_r. split; [split; eauto|].
        intros j [= <-]. reflexivity.
      * rewrite orb_false_r. unfold start_job.
        destruct (run cs !! job_id) as [j0|] eqn:E; [|auto].
        rewrite lookup_insert_eq. split.
        -- rewrite <- IHe. split; eauto.
        -- intros j [= <-]. simpl. auto.
      * rewrite orb_false_r. unfold increment.
        destruct (run cs !! job_id) as [j0|] eqn:E; [|auto].
        rewrite lookup_insert_eq. split.
        -- rewrite <- IHe. split; eauto.
        -- intros j [= <-]. simpl. auto.
      * rewrite orb_false_r. unfold complete_job.
        destruct (run cs !! job_id) as [j0|] eqn:E; [|auto].
        rewrite lookup_insert_eq. split.
        -- rewrite <- IHe. split; eauto.
        -- intros j [= <-]. simpl. auto.
      * rewrite orb_false_r. unfold fail_job.
        destruct (run cs !! job_id) as [j0|] eqn:E; [|auto].
        rewrite lookup_insert_eq. split.
        -- rewrite <- IHe. split; eauto.
        -- intros j [= <-]. simpl. auto.
    + assert (creates job_id c = false) as ->.
      { destruct c; try reflexivity. exact Ht. }
      rewrite orb_false_r. split; [exact IHe|exact IHi].
Qed.

Lemma since_creation_snoc (cs : list call) (c : call) (k : string) :
  since_creation k (cs ++ [c]) =
    if creates k c then []
    else if addressed_to k c then (since_creation k cs ++ [c])%list
    else since_creation k cs.
Proof. unfold since_creation. rewrite foldl_app. reflexivity. Qed.

Lemma creates_addressed (k : string) (c : call) :
  creates k c = true -> addressed_to k c = true.
Proof. destruct c; simpl; try discriminate. auto. Qed.

(** Goes through the cases of the last call of a history: addressed to
    another job, or one of the five methods on the job [k], which is in
    the registry or not. *)
Ltac last_call c cs k IH :=
  rewrite run_snoc, since_creation_snoc, step_lookup;
  destruct (addressed_to k c) eqn:Ht;
  [ unfold addressed_to in Ht; apply String.eqb_eq in Ht;
    destruct c as [?u ?now ?t ?n ?m|?now ?k0|?k0 ?ok ?m ?e|?now ?k0 ?p ?f
                  |?now ?k0 ?e];
    simpl in Ht; subst; simpl;
    rewrite ?String.eqb_refl;
    [ unfold create_job; simpl; rewrite lookup_insert_eq
    | unfold start_job
    | unfold increment
    | unfold complete_job
    | unfold fail_job ];
    try (destruct (run cs !! k) as [?j0|] eqn:?E;
         [rewrite lookup_insert_eq; specialize (IH _ eq_refl)|discriminate])
  | assert (creates k c = false) as ->
      by (destruct (creates k c) eqn:Hc; [|reflexivity];
          apply creates_addressed in Hc; congruence);
    apply IH ].

(** The row counters of a job count the [increment] calls made for it
    since it was created: all of them, the successful ones and the
    failed ones. *)
Theorem rows_count_the_increments (cs : list call) (job_id : string) (j : job) :
  run cs !! job_id = Some j ->
  let calls := since_creation job_id cs in
  processed_rows j = Z.of_nat (length (List.filter is_increment calls)) /\
  success_rows j = Z.of_nat (length (List.filter is_success calls)) /\
  error_rows j = Z.of_nat (length (List.filter is_failure calls)).
Proof.
  cbv zeta. revert j.
  induction cs as [|c cs IH] using rev_ind; intros j.
  - unfold run. simpl. rewrite lookup_empty. discriminate.
  - last_call c cs job_id IH; intros [= <-]; simpl;
      rewrite ?List.filter_app, ?length_app; simpl;
      try destruct ok; simpl; lia.
Qed.

(** Ten rows, seven of them successful. *)
Lemma rows_count_the_increments_witness :
  processed_rows mixed_job = 10 /\ success_rows mixed_job = 7 /\
  error_rows mixed_job = 3.
Proof.
  apply (rows_count_the_increments mixed_calls "job-2" mixed_job).
  vm_compute. reflexivity.
Defined.

(** The status of a job is the one set by the last [start_job],
    [complete_job] or [fail_job] call made for it since it was created,
    "pending" if there was none; the code checks no order between them,
    so a finished job that is started again is "running". A running job
    has a start time, a completed or failed job has a finish time, and a
    completed job has an output path. *)
Theorem status_follows_last_transition (cs : list call) (job_id : string)
    (j : job) :
  run cs !! job_id = Some j ->
  status j =
    status_set_by
      (last (List.filter is_transition (since_creation job_id cs))) /\
  (status j = "running" -> is_Some (started_at j)) /\
  (status j = "completed" \/ status j = "failed" ->
   is_Some (finished_at j)) /\
  (status j = "completed" -> is_Some (output_path j)).
Proof.
  revert j.
  induction cs as [|c cs IH] using rev_ind; intros j.
  - unfold run. simpl. rewrite lookup_empty. discriminate.
  - last_call c cs job_id IH; intros [= <-]; simpl;
      rewrite ?List.filter_app, ?last_snoc; simpl;
      rewrite ?app_nil_r; try rewrite last_snoc; simpl.
    + repeat split; try discriminate. intros [?|?]; discriminate.
    + repeat split; eauto; try discriminate. intros [?|?]; discriminate.
    + exact IH.
    + repeat split; eauto; discriminate.
    + repeat split; eauto; discriminate.
Qed.

(** A job that failed and was started again: it is running, with the
    finish time of its failure. *)
Lemma status_follows_last_transition_witness :
  status restarted_job = "running" /\
  is_Some (started_at restarted_job) /\
  finished_at restarted_job = Some 130%Q.
Proof.
  destruct (status_follows_last_transition restarted_calls "job-1"
              restarted_job) as (Hstatus & Hstarted & _).
  - vm_compute. reflexivity.
  - split; [exact Hstatus|]. split; [|reflexivity].
    apply Hstarted. exact Hstatus.
Defined.

End JobManagerLife.

(** ** The syntax check and the shape of an address *)

Module ReLangFacts.
Import Re ReLang.

#[local] Arguments String.append : simpl nomatch.

Lemma append_nil_r (s : string) : s ++ EmptyString = s.
Proof. induction s as [|c s IH]; simpl; [reflexivity|]. rewrite IH. reflexivity. Qed.

Lemma append_assoc (a b c : string) : (a ++ b) ++ c = a ++ (b ++ c).
Proof. induction a as [|x a IH]; simpl; [reflexivity|]. rewrite IH. reflexivity. Qed.

Lemma append_eq_nil (a b : string) :
  a ++ b = EmptyString -> a = EmptyString /\ b = EmptyString.
Proof. destruct a; simpl; [auto|discriminate]. Qed.

Lemma nullable_spec (r : regex) :
  nullable r = true <-> matches r EmptyString.
Proof.
  induction r as [| |p|r1 IH1 r2 IH2|r1 IH1 r2 IH2|r IH]; simpl.
  - split; [discriminate|]. inversion 1.
  - split; [constructor|reflexivity].
  - split; [discriminate|]. inversion 1.
  - rewrite andb_true_iff, IH1, IH2. split.
    + intros [H1 H2]. apply (MSeq _ _ EmptyString EmptyString); assumption.
    + inversion 1 as [| |? ? s1 s2 H1 H2 E| | | |]; subst.
      apply append_eq_nil in H3 as [-> ->]. auto.
  - rewrite orb_true_iff, IH1, IH2. split.
    + intros [H|H]; [apply MAltL|apply MAltR]; exact H.
    + inversion 1; subst; auto.
  - split; [constructor|reflexivity].
Qed.

(** A non-empty word of [r*] starts with a non-empty word of [r]. *)
Lemma star_cons (r : regex) (c : ascii) (s : string) :
  matches (Star r) (String c s) ->
  exists s1 s2, s = s1 ++ s2 /\ matches r (String c s1) /\ matches (Star r) s2.
Proof.
  intros H. remember (Star r) as r' eqn:Er. remember (String c s) as w eqn:Ew.
  revert s Ew.
  induction H as [| | | | | |r0 s1 s2 H1 _ H2 IH2]; try discriminate; intros s Ew.
  injection Er as ->.
  destruct s1 as [|c1 s1]; simpl in Ew.
  - apply IH2; auto.
  - injection Ew as -> <-. eauto.
Qed.

Lemma deriv_spec (r : regex) (c : ascii) (s : string) :
  matches (deriv c r) s <-> matches r (String c s).
Proof.
  revert s.
  induction r as [| |p|r1 IH1 r2 IH2|r1 IH1 r2 IH2|r IH]; intros s; simpl.
  - split; inversion 1.
  - split; inversion 1.
  - destruct (p c) eqn:Hp; split.
    + inversion 1; subst. constructor. exact Hp.
    + inversion 1; subst. constructor.
    + inversion 1.
    + inversion 1; subst. congruence.
  - assert (Hseq : matches (Seq (deriv c r1) r2) s ->
                   matches (Seq r1 r2) (String c s)).
    { inversion 1 as [| |? ? s1 s2 H1 H2| | | |]; subst.
      apply IH1 in H1. apply (MSeq _ _ (String c s1) s2); assumption. }
    assert (Hinv : matches (Seq r1 r2) (String c s) ->
                   matches (Seq (deriv c r1) r2) s \/
                   (matches r1 EmptyString /\ matches r2 (String c s))).
    { inversion 1 as [| |? ? s1 s2 H1 H2 E| | | |]; subst.
      destruct s1 as [|c1 s1]; simpl in *.
      - right. subst. auto.
      - injection H3 as -> <-. left. constructor; [apply IH1|]; assumption. }
    destruct (nullable r1) eqn:Hn.
    + split.
      * inversion 1; subst; [auto|].
        apply nullable_spec in Hn.
        apply (MSeq _ _ EmptyString (String c s)); [assumption|].
        apply IH2. assumption.
      * intros H. apply Hinv in H as [H|[_ H]].
        -- apply MAltL. exact H.
        -- apply MAltR. apply IH2. exact H.
    + split; [exact Hseq|].
      intros H. apply Hinv in H as [H|[H _]]; [exact H|].
      apply nullable_spec in H. congruence.
  - split.
    + inversion 1; subst; [apply MAltL; apply IH1|apply MAltR; apply IH2];
        assumption.
    + inversion 1; subst; [apply MAltL; apply IH1|apply MAltR; apply IH2];
        assumption.
  - split.
    + inversion 1 as [| |? ? s1 s2 H1 H2| | | |]; subst.
      apply IH in H1. apply (MStarApp _ (String c s1) s2); assumption.
    + intros H. apply star_cons in H as (s1 & s2 & -> & H1 & H2).
      constructor; [apply IH|]; assumption.
Qed.

(** The matcher decides the language. *)
Lemma fullmatch_spec (r : regex) (s : string) :
  fullmatch r s = true <-> matches r s.
Proof.
  revert r. induction s as [|c s IH]; intros r; simpl.
  - apply nullable_spec.
  - rewrite IH. apply deriv_spec.
Qed.

Lemma star_class (p : ascii -> bool) (s : string) :
  matches (Star (Class p)) s <-> all_chars p s = true.
Proof.
  split.
  - intros H. remember (Star (Class p)) as r eqn:Er.
    induction H as [| | | | | |r0 s1 s2 H1 _ H2 IH2]; try discriminate.
    + reflexivity.
    + injection Er as ->. inversion H1; subst. simpl.
      rewrite H0. simpl. auto.
  - induction s as [|c s IH]; simpl; [constructor|].
    rewrite andb_true_iff. intros [Hc Hs].
    apply (MStarApp _ (String c EmptyString) s); [constructor|]; auto.
Qed.

Lemma plus_class (p : ascii -> bool) (s : string) :
  matches (Plus (Class p)) s <-> s <> EmptyString /\ all_chars p s = true.
Proof.
  unfold Plus. split.
  - inversion 1 as [| |? ? s1 s2 H1 H2| | | |]; subst.
    inversion H1; subst. simpl. apply star_class in H2.
    rewrite H3, H2. split; [discriminate|reflexivity].
  - intros [Hne Hall]. destruct s as [|c s]; [contradiction|].
    simpl in Hall. apply andb_true_iff in Hall as [Hc Hs].
    apply (MSeq _ _ (String c EmptyString) s);
      [constructor|apply star_class]; assumption.
Qed.

Lemma at_least_2_class (p : ascii -> bool) (s : string) :
  matches (AtLeast2 (Class p)) s <->
  (2 <= String.length s)%nat /\ all_chars p s = true.
Proof.
  unfold AtLeast2. split.
  - inversion 1 as [| |? ? s1 s2 H1 H2| | | |]; subst.
    inversion H1; subst. apply (plus_class p) in H2 as [Hne Hall].
    simpl. rewrite H3, Hall. split; [|reflexivity].
    destruct s2; [contradiction|simpl; lia].
  - intros [Hlen Hall]. destruct s as [|c s]; [simpl in Hlen; lia|].
    simpl in Hall. apply andb_true_iff in Hall as [Hc Hs].
    apply (MSeq _ _ (String c EmptyString) s); [constructor; assumption|].
    apply (plus_class p). split; [|assumption].
    destruct s; [simpl in Hlen; lia|discriminate].
Qed.

Lemma lit_spec (c : ascii) (s : string) :
  matches (Lit c) s <-> s = String c EmptyString.
Proof.
  unfold Lit. split.
  - inversion 1; subst. apply Ascii.eqb_eq in H1. subst. reflexivity.
  - intros ->. constructor. apply Ascii.eqb_refl.
Qed.

(** [re.match] with [^] and [$]: the pattern matches the string, or the
    string without the newline that ends it. *)
Lemma match_anchored_spec (r : regex) (s : string) :
  match_anchored r s = true <->
  exists body, matches r body /\
               (s = body \/ s = body ++ String newline EmptyString).
Proof.
  unfold match_anchored. rewrite fullmatch_spec. split.
  - inversion 1 as [| |? ? s1 s2 H1 H2| | | |]; subst.
    exists s1. split; [assumption|].
    inversion H2 as [| | |? ? ? HL|? ? ? HR| |]; subst.
    + inversion HL; subst. left. apply append_nil_r.
    + apply lit_spec in HR. subst. right. reflexivity.
  - intros (body & Hb & [->| ->]).
    + rewrite <- (append_nil_r body). constructor; [assumption|].
      apply MAltL. constructor.
    + constructor; [assumption|]. apply MAltR. apply lit_spec. reflexivity.
Qed.

End ReLangFacts.

(** The pattern of [_check_syntax], read as a language. *)
Lemma syntax_shape (email : string) :
  sx_valid (_check_syntax email) = true <->
  exists address,
    address_shape address /\
    (email = address \/ email = address ++ String Re.newline EmptyString).
Proof.
  unfold _check_syntax. cbn [sx_valid].
  rewrite ReLangFacts.match_anchored_spec. unfold address_shape.
  split.
  - intros (body & Hm & Hs). exists body. split; [|exact Hs].
    unfold syntax_pattern in Hm.
    inversion Hm as [| |? ? local s2 Hl H2| | | |]; subst.
    inversion H2 as [| |? ? at_sign s3 Hat H3| | | |]; subst.
    inversion H3 as [| |? ? domain s4 Hd H4| | | |]; subst.
    inversion H4 as [| |? ? dot tld Hdot Ht| | | |]; subst.
    apply ReLangFacts.lit_spec in Hat, Hdot. subst.
    apply ReLangFacts.plus_class in Hl as [? ?], Hd as [? ?].
    apply ReLangFacts.at_least_2_class in Ht as [? ?].
    exists local, domain, tld. simpl. auto 10.
  - intros (address & (local & domain & tld & -> & Hl1 & Hl2 & Hd1 & Hd2 &
                        Ht1 & Ht2) & Hs).
    eexists. split; [|exact Hs]. unfold syntax_pattern.
    constructor; [apply ReLangFacts.plus_class; auto|].
    apply (ReLang.MSeq _ _ "@"); [apply ReLangFacts.lit_spec; reflexivity|].
    constructor; [apply ReLangFacts.plus_class; auto|].
    apply (ReLang.MSeq _ _ "."); [apply ReLangFacts.lit_spec; reflexivity|].
    apply ReLangFacts.at_least_2_class. auto.
Qed.

(** The pattern matches an address of the shape as a whole. *)
Lemma address_shape_fullmatch (s : string) :
  address_shape s -> Re.fullmatch syntax_pattern s = true.
Proof.
  intros (local & domain & tld & -> & Hl1 & Hl2 & Hd1 & Hd2 & Ht1 & Ht2).
  apply ReLangFacts.fullmatch_spec. unfold syntax_pattern.
  constructor; [apply ReLangFacts.plus_class; auto|].
  apply (ReLang.MSeq _ _ "@"); [apply ReLangFacts.lit_spec; reflexivity|].
  constructor; [apply ReLangFacts.plus_class; auto|].
  apply (ReLang.MSeq _ _ "."); [apply ReLangFacts.lit_spec; reflexivity|].
  apply ReLangFacts.at_least_2_class. auto.
Qed.

(** The syntax check accepts exactly the strings of the shape
    [local@domain.tld], and those followed by one newline ([$] matches
    before a newline that ends the string). *)
Theorem syntax_valid_iff_shape (email : string) :
  sx_valid (_check_syntax email) = true <->
  exists address,
    address_shape address /\
    (email = address \/ email = address ++ String Re.newline EmptyString).
Proof. apply syntax_shape. Qed.

Module SplitFacts.

#[local] Arguments String.append : simpl nomatch.

Lemma lower_append (a b : string) :
  PyStr.lower (a ++ b) = PyStr.lower a ++ PyStr.lower b.
Proof. induction a as [|c a IH]; simpl; [reflexivity|]. rewrite IH. reflexivity. Qed.

(** No character of a local part becomes an at sign in lower case. *)
Lemma local_class_not_at (c : ascii) :
  local_class c = true -> Ascii.eqb (PyStr.lower_ascii c) "@" = false.
Proof.
  destruct c as [[] [] [] [] [] [] [] []]; vm_compute; congruence.
Qed.

Lemma split_once_local (local rest : string) :
  ReLang.all_chars local_class local = true ->
  PyStr.split_once "@" (PyStr.lower local ++ String "@" rest)
    = Some (PyStr.lower local, rest).
Proof.
  induction local as [|c local IH]; simpl; intros H.
  - reflexivity.
  - apply andb_true_iff in H as [Hc Hl].
    rewrite (local_class_not_at c Hc), (IH Hl). reflexivity.
Qed.

End SplitFacts.

(** The split of a valid address at its first at sign. *)
Lemma split_once_valid (email : string) :
  sx_valid (_check_syntax email) = true ->
  exists local rest,
    email = local ++ "@" ++ rest /\
    PyStr.split_once "@" (PyStr.lower email)
      = Some (PyStr.lower local, PyStr.lower rest).
Proof.
  intros H. apply syntax_shape in H
    as (address & (local & domain & tld & -> & _ & Hl & _) & Hs).
  exists local.
  destruct Hs as [->| ->].
  - eexists. split; [reflexivity|].
    rewrite SplitFacts.lower_append.
    change (PyStr.lower ("@" ++ domain ++ "." ++ tld))
      with (String "@" (PyStr.lower (domain ++ "." ++ tld))).
    apply SplitFacts.split_once_local. exact Hl.
  - exists ((domain ++ "." ++ tld) ++ String Re.newline EmptyString).
    split.
    + rewrite !ReLangFacts.append_assoc. reflexivity.
    + rewrite ReLangFacts.append_assoc, SplitFacts.lower_append.
      change (PyStr.lower (("@" ++ domain ++ "." ++ tld) ++
                           String Re.newline EmptyString))
        with (String "@" (PyStr.lower ((domain ++ "." ++ tld) ++
                                       String Re.newline EmptyString))).
      apply SplitFacts.split_once_local. exact Hl.
Qed.

(** An address that passes the syntax check has an at sign, and
    [email.lower().split('@', 1)] gives its two parts in lower case: the
    unpacking into [local_part, domain] never fails. *)
Theorem valid_address_splits (email : string) :
  sx_valid (_check_syntax email) = true ->
  exists local rest,
    email = local ++ "@" ++ rest /\
    PyStr.split_once "@" (PyStr.lower email)
      = Some (PyStr.lower local, PyStr.lower rest).
Proof. apply split_once_valid. Qed.

(** The address of the examples. *)
Lemma valid_address_splits_witness :
  exists local rest,
    "User@Example.org" = local ++ "@" ++ rest /\
    PyStr.split_once "@" (PyStr.lower "User@Example.org")
      = Some (PyStr.lower local, PyStr.lower rest).
Proof.
  apply (valid_address_splits "User@Example.org"). vm_compute. reflexivity.
Defined.

(** ** Invariants and exceptions, rule by rule *)

Create HintDb ro discriminated.

Section Invariant.

(** An invariant of the state and the events it lets the code log. *)
Variable Inv : state -> Prop.
Variable allowed : event -> bool.
Variable email0 : string.

Hypothesis Inv_log :
  forall ev s, allowed ev = true -> Inv s -> Inv (log_event ev s).
Hypothesis Inv_age :
  forall c s, Inv s -> Inv (cache_write domain_age_cache_ref c s).
Hypothesis Inv_web :
  forall c s, Inv s -> Inv (cache_write web_presence_cache_ref c s).
Hypothesis Inv_deliverability :
  forall c s,
    Inv s ->
    (forall key entry, c !! key = Some entry ->
                       wf_deliverability (ce_value entry)) ->
    Inv (cache_write deliverability_cache_ref c s).
Hypothesis Inv_wf : forall s, Inv s -> wf_caches s.
Hypothesis allowed_fast :
  forall ev, fast_mode_event email0 ev = true -> allowed ev = true.

(** A step that leaves the state as it is. *)
Ltac ro_same H := simpl; split; [exact H|split; [reflexivity|]].

Lemma ro_ret {A} E (a : A) : raises_only Inv E (ret a).
Proof. intros w s H. ro_same H. exact I. Qed.

Lemma ro_raise {A} (E : exns) e :
  (forall w s, E w s e) -> raises_only Inv E (@raise A e).
Proof. intros He w s H. ro_same H. apply He. Qed.

Lemma ro_bind {A B} E (c : M A) (k : A -> M B) :
  raises_only Inv E c -> (forall a, raises_only Inv E (k a)) ->
  raises_only Inv E (bind c k).
Proof.
  intros Hc Hk w s H. unfold bind.
  destruct (Hc w s H) as (H1 & H2 & H3).
  destruct (c w s) as [[a|e] s1]; simpl in *.
  - destruct (Hk a w s1 H1) as (K1 & K2 & K3).
    split; [exact K1|]. split; [etransitivity; eassumption|exact K3].
  - auto.
Qed.

(** The same, with what is known of the value that [c] returns. *)
Lemma ro_bind_val {A B} E (Q : A -> Prop) (c : M A) (k : A -> M B) :
  raises_only Inv E c ->
  (forall w s a s', Inv s -> c w s = (Returned a, s') -> Q a) ->
  (forall a, Q a -> raises_only Inv E (k a)) ->
  raises_only Inv E (bind c k).
Proof.
  intros Hc HQ Hk w s H. unfold bind.
  destruct (Hc w s H) as (H1 & H2 & H3). specialize (HQ w s).
  destruct (c w s) as [[a|e] s1]; simpl in *.
  - assert (Ha : Q a) by (eapply HQ; eauto).
    destruct (Hk a Ha w s1 H1) as (K1 & K2 & K3).
    split; [exact K1|]. split; [etransitivity; eassumption|exact K3].
  - auto.
Qed.

(** The body of a [try] may raise anything; what counts is what the
    handler raises. *)
Lemma ro_try {A} E (c : M A) (h : exn -> M A) :
  raises_only Inv any_exn c -> (forall e, raises_only Inv E (h e)) ->
  raises_only Inv E (try_except c h).
Proof.
  intros Hc Hh w s H. unfold try_except.
  destruct (Hc w s H) as (H1 & H2 & _).
  destruct (c w s) as [[a|e] s1]; simpl in *.
  - auto.
  - destruct (Hh e w s1 H1) as (K1 & K2 & K3).
    split; [exact K1|]. split; [etransitivity; eassumption|exact K3].
Qed.

Lemma ro_call {T} (r : request T) :
  allowed (ECall r) = true -> raises_only Inv any_exn (call r).
Proof.
  intros Hr w s H. unfold call.
  destruct (w_answer w T _ r); simpl.
  all: split; [apply Inv_log; assumption|].
  all: split; [apply prefix_app_r; reflexivity|exact I].
Qed.

Lemma ro_sleep E d :
  allowed (ESleep d) = true -> raises_only Inv E (time_sleep d).
Proof.
  intros Hd w s H. simpl. split; [apply Inv_log; assumption|].
  split; [apply prefix_app_r; reflexivity|exact I].
Qed.

Lemma ro_time_time E : raises_only Inv E time_time.
Proof. intros w s H. ro_same H. exact I. Qed.

Lemma ro_random_local E : raises_only Inv E random_local.
Proof. intros w s H. ro_same H. exact I. Qed.

Lemma ro_random_randint E lo hi : raises_only Inv E (random_randint lo hi).
Proof. intros w s H. ro_same H. exact I. Qed.

(** [Resolver()] raises what the world has it raise. *)
Lemma ro_new_resolver : raises_only Inv resolver_exn new_resolver.
Proof.
  intros w s H. unfold new_resolver.
  destruct (w_resolver w (length (events s))) as [e|] eqn:He; ro_same H.
  - exact He.
  - exact I.
Qed.

(** A computation fits where more exceptions are allowed. *)
Lemma ro_weaken {A} (E E' : exns) (c : M A) :
  (forall w s e, E w s e -> E' w s e) ->
  raises_only Inv E c -> raises_only Inv E' c.
Proof.
  intros HE Hc w s H. destruct (Hc w s H) as (H1 & H2 & H3).
  split; [exact H1|]. split; [exact H2|].
  destruct (c w s).1; [exact I|apply HE; exact H3].
Qed.

(** The override step raises only what [int(min_score)] does. *)
Lemma ro_apply_override domain result :
  raises_only Inv (override_exn domain) (apply_override domain result).
Proof.
  intros w s H. unfold apply_override, bind, DOMAIN_CONFIDENCE_OVERRIDES.
  destruct (w_overrides w (length (events s)) !! domain) as [override|] eqn:Ho;
    [|ro_same H; exact I].
  destruct (ov_min_score override) as [min_score|] eqn:Hm;
    [|ro_same H; exact I].
  destruct (int_of_number min_score w s) as [[floor|e] s1] eqn:Hi.
  - apply int_of_number_returned in Hi as [_ ->]. ro_same H. exact I.
  - pose proof Hi as Hs. apply int_of_number_raised in Hs as [_ ->].
    ro_same H. exists override, min_score. auto.
Qed.

Lemma ro_get_cached_age E key :
  raises_only Inv E (_get_cached domain_age_cache_ref key).
Proof.
  intros w s H. unfold _get_cached, bind, get_state, time_time, put_state, ret.
  destruct (cache_read _ s !! key); [destruct (PyNum.Qltb _ _)|];
    cbn [fst snd];
    try solve [split; [auto|split; [reflexivity|exact I]]].
Qed.

Lemma ro_get_cached_web E key :
  raises_only Inv E (_get_cached web_presence_cache_ref key).
Proof.
  intros w s H. unfold _get_cached, bind, get_state, time_time, put_state, ret.
  destruct (cache_read _ s !! key); [destruct (PyNum.Qltb _ _)|];
    cbn [fst snd];
    try solve [split; [auto|split; [reflexivity|exact I]]].
Qed.

Lemma ro_get_cached_deliverability E key :
  raises_only Inv E (_get_cached deliverability_cache_ref key).
Proof.
  intros w s H. unfold _get_cached, bind, get_state, time_time, put_state, ret.
  destruct (cache_read _ s !! key); [destruct (PyNum.Qltb _ _)|];
    cbn [fst snd];
    try solve [split; [auto|split; [reflexivity|exact I]]].
  split; [|split; [reflexivity|exact I]].
  apply Inv_deliverability; [exact H|].
  intros k e He. apply lookup_delete_Some in He as [_ He].
  eapply Inv_wf; eauto.
Qed.

(** What the deliverability cache gives is well formed. *)
Lemma get_cached_deliverability_wf key w s d s' :
  Inv s ->
  _get_cached deliverability_cache_ref key w s = (Returned (Some d), s') ->
  wf_deliverability d.
Proof.
  intros H. unfold _get_cached, bind, get_state, time_time, put_state, ret.
  destruct (cache_read _ s !! key) as [entry|] eqn:E; [|discriminate].
  destruct (PyNum.Qltb _ _); [|discriminate].
  intros [= <- <-]. eapply Inv_wf; eauto.
Qed.

Lemma ro_set_cache_age E key value :
  raises_only Inv E (_set_cache domain_age_cache_ref key value).
Proof.
  intros w s H. unfold _set_cache, bind, get_state, time_time, put_state.
  cbn [fst snd]. split; [auto|split; [reflexivity|exact I]].
Qed.

Lemma ro_set_cache_web E key value :
  raises_only Inv E (_set_cache web_presence_cache_ref key value).
Proof.
  intros w s H. unfold _set_cache, bind, get_state, time_time, put_state.
  cbn [fst snd]. split; [auto|split; [reflexivity|exact I]].
Qed.

Lemma ro_set_cache_deliverability E key value :
  wf_deliverability value ->
  raises_only Inv E (_set_cache deliverability_cache_ref key value).
Proof.
  intros Hv w s H. unfold _set_cache, bind, get_state, time_time, put_state.
  cbn [fst snd]. split; [|split; [reflexivity|exact I]].
  apply Inv_deliverability; [exact H|].
  intros k e He. apply lookup_insert_Some in He as [[_ <-]|[_ He]].
  - exact Hv.
  - eapply Inv_wf; eauto.
Qed.

#[local] Hint Resolve ro_get_cached_age ro_get_cached_web
  ro_get_cached_deliverability ro_set_cache_age ro_set_cache_web
  ro_set_cache_deliverability : ro.

(** An event is allowed: it is one of the fast mode, or every event
    is. *)
Ltac ro_allowed :=
  first
    [ assumption
    | match goal with
      | H : forall ev, allowed ev = true |- _ => apply H
      end
    | apply allowed_fast; cbn; rewrite ?String.eqb_refl; reflexivity ].

(** The exceptions of a step are among those the goal lets through. *)
Ltac ro_incl :=
  let He := fresh "He" in
  intros ? ? ? He;
  first [ solve [exact I]
        | solve [exact He]
        | solve [left; exact He]
        | solve [right; left; exact He]
        | solve [right; right; exact He]
        | solve [destruct He] ].

(** Goes through a computation built from the monad's operations,
    conditionals and pattern matching. *)
Ltac ro_step :=
  lazymatch goal with
  | |- raises_only _ _ (bind (ret ?x) ?k) =>
      change (bind (ret x) k) with (k x); cbv beta
  | |- raises_only _ _ (bind _ _) => apply ro_bind; [|intros ?]
  | |- raises_only _ _ (try_except _ _) => apply ro_try; [|intros ?]
  | |- raises_only _ _ (ret _) => apply ro_ret
  | |- raises_only _ _ (raise _) =>
      apply ro_raise; intros ? ?; first [exact I|reflexivity]
  | |- raises_only _ _ new_resolver =>
      eapply ro_weaken; [|apply ro_new_resolver]; ro_incl
  | |- raises_only _ _ (call _) => apply ro_call; ro_allowed
  | |- raises_only _ _ (time_sleep _) => apply ro_sleep; ro_allowed
  | |- raises_only _ _ time_time => apply ro_time_time
  | |- raises_only _ _ random_local => apply ro_random_local
  | |- raises_only _ _ (random_randint _ _) => apply ro_random_randint
  | |- raises_only _ _ (if ?c then _ else _) =>
      let Hc := fresh "Hc" in
      destruct c eqn:Hc;
      try (exfalso; cbn [negb] in Hc; rewrite ?andb_false_r in Hc;
           discriminate Hc)
  | |- raises_only _ _ (match (_, _) with _ => _ end) => cbv beta iota
  | |- raises_only _ _ (match ?x with _ => _ end) => destruct x eqn:?
  | |- raises_only _ _ (let _ := _ in _) => cbv zeta
  | |- _ =>
      first [ solve [eauto with ro]
            | eapply ro_weaken; [|solve [eauto with ro]]; ro_incl ]
  end.

Ltac ro := repeat ro_step.

(** *** The probes of the fast mode *)

Lemma ro_txt_record_with name tag :
  raises_only Inv no_exn (txt_record_with name tag).
Proof. unfold txt_record_with. ro. Qed.

Lemma ro_dkim_lookup domain selectors :
  raises_only Inv no_exn (dkim_lookup domain selectors).
Proof. induction selectors as [|sel rest IH]; simpl; ro. Qed.

#[local] Hint Resolve ro_txt_record_with ro_dkim_lookup : ro.

Lemma ro_check_dns_health domain :
  raises_only Inv resolver_exn (_check_dns_health domain).
Proof. unfold _check_dns_health. ro. Qed.

Lemma ro_check_domain_age domain :
  raises_only Inv no_exn (_check_domain_age domain).
Proof. unfold _check_domain_age. ro. Qed.

#[local] Hint Resolve ro_check_dns_health ro_check_domain_age : ro.

Lemma ro_smtp_connection_loop_fast hosts result :
  raises_only Inv no_exn (smtp_connection_loop true hosts result).
Proof.
  revert result. induction hosts as [|mx_host rest IH]; intros result; simpl.
  - ro.
  - ro.
Qed.

#[local] Hint Resolve ro_smtp_connection_loop_fast : ro.

Lemma ro_check_smtp_connection_fast domain mx_hosts :
  raises_only Inv no_exn (_check_smtp_connection domain mx_hosts true).
Proof. unfold _check_smtp_connection. ro. Qed.

Lemma ro_check_smtp_rcpt self email domain mx_hosts conn fast :
  allowed (ECall (SmtpRcpt email)) = true ->
  raises_only Inv no_exn (_check_smtp_rcpt self email domain mx_hosts conn fast).
Proof. intros Hrcpt. unfold _check_smtp_rcpt. ro. Qed.

Lemma check_deliverability_wf domain w s d s' :
  _check_deliverability domain w s = (Returned d, s') -> wf_deliverability d.
Proof.
  unfold _check_deliverability. intros H.
  repeat (inv_step H). subst d. unfold wf_deliverability. cbn.
  intros Hspf. apply bool_decide_eq_true in Hspf. exact Hspf.
Qed.

Lemma ro_check_deliverability domain :
  raises_only Inv resolver_exn (_check_deliverability domain).
Proof. unfold _check_deliverability. ro. Qed.

#[local] Hint Resolve ro_check_smtp_connection_fast ro_check_deliverability
  : ro.

Lemma ro_check_security_reputation domain :
  raises_only Inv resolver_exn (_check_security_reputation domain).
Proof.
  unfold _check_security_reputation.
  apply (ro_bind_val _ (fun cached => forall d, cached = Some d ->
                                                wf_deliverability d)).
  - ro.
  - intros w s [d|] s' H Hrun d' [= <-].
    eapply get_cached_deliverability_wf; eauto.
  - intros cached Hcached.
    apply (ro_bind_val _ wf_deliverability).
    + destruct cached as [d|]; [ro|].
      apply (ro_bind_val _ wf_deliverability).
      * ro.
      * intros w s d s' _ Hrun. eapply check_deliverability_wf; eauto.
      * intros d Hd. ro.
    + intros w s d s' H Hrun. destruct cached as [d0|].
      * apply ret_returned in Hrun as [<- _]. auto.
      * repeat (inv_step Hrun). subst.
        eapply check_deliverability_wf; eauto.
    + intros d Hd. apply ro_bind; [|intros ?; ro].
      destruct (dl_spf d) eqn:Hspf; [|ro].
      destruct (Hd Hspf) as [record ->]. ro.
Qed.

Lemma ro_web_presence_loop domain protocols :
  raises_only Inv no_exn (web_presence_loop domain protocols).
Proof. induction protocols as [|p rest IH]; simpl; ro. Qed.

#[local] Hint Resolve ro_web_presence_loop : ro.

Lemma ro_check_web_presence domain :
  raises_only Inv no_exn (_check_web_presence domain).
Proof. unfold _check_web_presence. ro. Qed.

Lemma ro_certificate_expired not_after :
  raises_only Inv no_exn (certificate_expired not_after).
Proof. unfold certificate_expired. ro. Qed.

#[local] Hint Resolve ro_certificate_expired : ro.

Lemma ro_check_tls_certificate mx_host :
  raises_only Inv no_exn (_check_tls_certificate mx_host).
Proof. unfold _check_tls_certificate. ro. Qed.

Lemma ro_check_dnssec domain :
  raises_only Inv no_exn (_check_dnssec domain).
Proof. unfold _check_dnssec. ro. Qed.

Lemma ro_check_ptr_record mx_host :
  raises_only Inv no_exn (_check_ptr_record mx_host).
Proof. unfold _check_ptr_record. ro. Qed.

Lemma ro_check_ip_reputation mx_host :
  raises_only Inv no_exn (_check_ip_reputation mx_host).
Proof. unfold _check_ip_reputation. ro. Qed.

Lemma ro_analyze_blocklist_behavior rcpt conn :
  raises_only Inv lower_of_none (_analyze_blocklist_behavior rcpt conn).
Proof. unfold _analyze_blocklist_behavior. ro. Qed.

Lemma ro_check_mx_consistency mx_host domain :
  raises_only Inv no_exn (_check_mx_consistency mx_host domain).
Proof. unfold _check_mx_consistency. ro. Qed.

Lemma ro_blacklist_lookup query :
  raises_only Inv no_exn (blacklist_lookup query).
Proof. unfold blacklist_lookup. ro. Qed.

#[local] Hint Resolve ro_blacklist_lookup : ro.

Lemma ro_check_domain_blacklists domain :
  raises_only Inv no_exn (_check_domain_blacklists domain).
Proof. unfold _check_domain_blacklists. ro. Qed.

#[local] Hint Resolve ro_apply_override ro_check_smtp_rcpt
  ro_check_security_reputation ro_check_web_presence ro_check_tls_certificate ro_check_dnssec
  ro_check_ptr_record ro_check_ip_reputation ro_analyze_blocklist_behavior
  ro_check_mx_consistency ro_check_domain_blacklists : ro.

(** *** The orchestrator in the fast mode *)

Lemma ro_verify_email_fast self cm ic :
  raises_only Inv (verify_exn email0) (verify_email self email0 true cm ic).
Proof.
  unfold verify_email, verify_exn, domain_of. cbv zeta.
  destruct (sx_valid (_check_syntax email0)) eqn:Hvalid; cbn [negb]; [|ro].
  destruct (split_once_valid _ Hvalid) as (local & rest & _ & ->).
  assert (Hrcpt : allowed (ECall (SmtpRcpt email0)) = true).
  { apply allowed_fast. cbn. apply String.eqb_refl. }
  ro.
Qed.

Lemma ro_run {A} E (c : M A) w s :
  raises_only Inv E c -> Inv s ->
  (exists a s1, c w s = (Returned a, s1) /\ Inv s1 /\
                events s `prefix_of` events s1) \/
  (exists e s1, c w s = (Raised e, s1) /\ E w s1 e).
Proof.
  intros Hc H. destruct (Hc w s H) as (H1 & H2 & H3).
  destruct (c w s) as [[a|e] s1]; simpl in *; [left|right]; eauto 10.
Qed.

Lemma ro_returns {A} (c : M A) w s :
  raises_only Inv no_exn c -> Inv s ->
  exists a s1, c w s = (Returned a, s1) /\ Inv s1 /\
               events s `prefix_of` events s1.
Proof.
  intros Hc H.
  destruct (ro_run no_exn c w s Hc H) as [Hr|(e & s1 & _ & [])]. exact Hr.
Qed.

Lemma bind_after {A B} (c : M A) (k : A -> M B) w s a s1 :
  c w s = (Returned a, s1) -> bind c k w s = k a w s1.
Proof. intros H. unfold bind. rewrite H. reflexivity. Qed.

Lemma bind_stops {A B} (c : M A) (k : A -> M B) w s e s1 :
  c w s = (Raised e, s1) -> bind c k w s = (Raised e, s1).
Proof. intros H. unfold bind. rewrite H. reflexivity. Qed.

Lemma _analyze_blocklist_behavior_raises rcpt conn w s :
  rc_rejected rcpt = true -> rc_error rcpt = None ->
  _analyze_blocklist_behavior rcpt conn w s = (Raised attribute_error, s).
Proof.
  intros Hr He. unfold _analyze_blocklist_behavior. rewrite Hr, He.
  reflexivity.
Qed.

(** Runs a step that raises at most the exceptions of [E]; when it
    raises, the goal is about that exception. *)
Ltac forward_with E H HI :=
  lazymatch type of H with
  | bind ?c ?k ?w ?s = _ =>
      let Hsafe := fresh "Hsafe" in
      let a := fresh "a" in
      let s1 := fresh "s" in
      let Hc := fresh "Hrun" in
      let HI1 := fresh "HI" in
      let Hp := fresh "Hlog" in
      let e1 := fresh "e" in
      let He := fresh "He" in
      assert (Hsafe : raises_only Inv E c) by solve [ro];
      destruct (ro_run E c w s Hsafe HI)
        as [(a & s1 & Hc & HI1 & Hp)|(e1 & s1 & Hc & He)];
      [ rewrite (bind_after c k w s a s1 Hc) in H; cbv beta in H;
        clear Hsafe HI; rename HI1 into HI
      | rewrite (bind_stops c k w s e1 s1 Hc) in H; injection H as <- <-;
        solve [destruct He | left; exact He] ]
  end.

(** Runs a computation forward through the probes. *)
Ltac forward H HI :=
  lazymatch type of H with
  | bind (ret ?x) ?k ?w ?s = _ =>
      change (bind (ret x) k w s) with (k x w s) in H; cbv beta in H
  | bind (_analyze_blocklist_behavior _ _) _ _ _ = _ => fail
  | bind _ _ _ _ = _ =>
      first [forward_with no_exn H HI | forward_with resolver_exn H HI]
  | (match (_, _) with _ => _ end) _ _ = _ => cbv beta iota in H
  | (if ?b then _ else _) _ _ = _ => destruct b eqn:?
  | (match ?x with _ => _ end) _ _ = _ => destruct x eqn:?
  | ret _ _ _ = (Raised _, _) => discriminate H
  end.

(** The log only grows from step to step. *)
Ltac log_grows :=
  first [ reflexivity
        | eassumption
        | etransitivity; [eassumption|log_grows] ].

(** In the fast mode the steps that raise are [Resolver()], the
    conversion of the override, and the blocklist step, which raises when
    the RCPT result is a rejection without an error text. *)
Lemma verify_email_fast_raised self cm ic w s e s' :
  Inv s ->
  verify_email self email0 true cm ic w s = (Raised e, s') ->
  resolver_exn w s' e \/
  override_exn (domain_of email0) w s' e \/
  (e = attribute_error /\
   exists domain mx_hosts conn rcpt s5 s6,
     _check_smtp_rcpt self email0 domain mx_hosts conn true w s5
       = (Returned rcpt, s6) /\
     events s `prefix_of` events s5 /\
     events s6 `prefix_of` events s' /\
     rc_rejected rcpt = true /\ rc_error rcpt = None).
Proof.
  intros HI H. unfold verify_email in H. cbv zeta in H.
  destruct (sx_valid (_check_syntax email0)) eqn:Hvalid; cbn [negb] in H;
    [|discriminate H].
  destruct (split_once_valid _ Hvalid) as (local & rest & _ & Hsplit).
  unfold domain_of. rewrite Hsplit in H |- *.
  assert (Hrcpt : allowed (ECall (SmtpRcpt email0)) = true).
  { apply allowed_fast. cbn. apply String.eqb_refl. }
  repeat forward H HI.
  all: match goal with
       | Hb : context [_analyze_blocklist_behavior ?r ?c] |- _ =>
           destruct (rc_rejected r) eqn:Hrejected;
           [destruct (rc_error r) eqn:Herror|]
       end.
  all: try solve
         [ rewrite (bind_stops _ _ _ _ _ _
                      (_analyze_blocklist_behavior_raises _ _ _ _
                         Hrejected Herror)) in H;
           injection H as <- <-; right; right; split; [reflexivity|];
           do 6 eexists; split; [eassumption|];
           split; [log_grows|]; split; [log_grows|]; auto ].
  all: match type of H with
       | bind ?c ?k ?w0 ?s0 = _ =>
           assert (Hsafe : raises_only Inv no_exn c)
             by (unfold _analyze_blocklist_behavior;
                 rewrite Hrejected, ?Herror; ro);
           destruct (ro_returns c w0 s0 Hsafe HI) as (? & ? & Hb & HI' & ?);
           rewrite (bind_after c k w0 s0 _ _ Hb) in H; cbv beta in H;
           clear Hsafe HI; rename HI' into HI
       end.
  all: repeat forward H HI.
  all: match type of H with
       | apply_override ?domain ?result ?w0 ?s0 = _ =>
           destruct (ro_run _ _ w0 s0 (ro_apply_override domain result) HI)
             as [(? & ? & Hov & _)|(? & ? & Hov & He)];
           rewrite Hov in H; [discriminate H|];
           injection H as <- <-; right; left; exact He
       end.
Qed.

(** *** The other probes, where every event is allowed *)

Hypothesis allowed_all : forall ev, allowed ev = true.

Lemma ro_smtp_connection_loop fast hosts result :
  raises_only Inv no_exn (smtp_connection_loop fast hosts result).
Proof.
  revert result. induction hosts as [|mx_host rest IH]; intros result; simpl.
  - ro.
  - ro.
Qed.

#[local] Hint Resolve ro_smtp_connection_loop : ro.

Lemma ro_check_smtp_connection domain mx_hosts fast :
  raises_only Inv no_exn (_check_smtp_connection domain mx_hosts fast).
Proof. unfold _check_smtp_connection. ro. Qed.

#[local] Hint Resolve ro_check_smtp_connection : ro.

Lemma ro_detect_catch_all self domain mx_hosts :
  raises_only Inv no_exn (_detect_catch_all self domain mx_hosts).
Proof. unfold _detect_catch_all. ro. Qed.

Lemma ro_check_provider_fingerprint domain mx_hosts conn fast :
  raises_only Inv no_exn (_check_provider_fingerprint domain mx_hosts conn fast).
Proof. unfold _check_provider_fingerprint. ro. Qed.

Lemma ro_retry_loop self email mx_host delays result :
  raises_only Inv no_exn (retry_loop self email mx_host delays result).
Proof.
  revert result. induction delays as [|delay rest IH]; intros result; simpl; ro.
Qed.

#[local] Hint Resolve ro_retry_loop : ro.

Lemma ro_smtp_retry_simulation self email domain mx_hosts :
  raises_only Inv no_exn (_smtp_retry_simulation self email domain mx_hosts).
Proof. unfold _smtp_retry_simulation. ro. Qed.

Lemma ro_mail_ports_loop mx_host ports result :
  raises_only Inv no_exn (mail_ports_loop mx_host ports result).
Proof.
  revert result. induction ports as [|port rest IH]; intros result; simpl; ro.
Qed.

#[local] Hint Resolve ro_mail_ports_loop : ro.

Lemma ro_check_mail_ports mx_host :
  raises_only Inv no_exn (_check_mail_ports mx_host).
Proof. unfold _check_mail_ports. ro. Qed.

Lemma ro_check_tls_policy_strength mx_host :
  raises_only Inv no_exn (_check_tls_policy_strength mx_host).
Proof. unfold _check_tls_policy_strength. ro. Qed.

Lemma ro_check_smtp_strictness conn rcpt :
  raises_only Inv lower_of_none (_check_smtp_strictness conn rcpt).
Proof. unfold _check_smtp_strictness. ro. Qed.

Lemma ro_check_mailfrom_health domain mx_hosts conn :
  raises_only Inv no_exn (_check_mailfrom_health domain mx_hosts conn).
Proof. unfold _check_mailfrom_health. ro. Qed.

Lemma ro_loadbalancer_loop self email hosts responses :
  raises_only Inv no_exn (loadbalancer_loop self email hosts responses).
Proof.
  revert responses.
  induction hosts as [|mx_host rest IH]; intros responses; simpl; ro.
Qed.

#[local] Hint Resolve ro_loadbalancer_loop : ro.

Lemma ro_check_loadbalancer_behavior self email domain mx_hosts :
  raises_only Inv no_exn
    (_check_loadbalancer_behavior self email domain mx_hosts).
Proof. unfold _check_loadbalancer_behavior. ro. Qed.

Lemma ro_check_vrfy_lite_behavior self email domain mx_hosts conn :
  raises_only Inv no_exn
    (_check_vrfy_lite_behavior self email domain mx_hosts conn).
Proof. unfold _check_vrfy_lite_behavior. ro. Qed.

Lemma ro_role_accounts_loop self domain mx_host roles entries valid_count :
  raises_only Inv no_exn
    (role_accounts_loop self domain mx_host roles entries valid_count).
Proof.
  revert entries valid_count.
  induction roles as [|role rest IH]; intros entries valid_count; simpl; ro.
Qed.

#[local] Hint Resolve ro_role_accounts_loop : ro.

Lemma ro_check_role_accounts self domain mx_hosts :
  raises_only Inv no_exn (_check_role_accounts self domain mx_hosts).
Proof. unfold _check_role_accounts. ro. Qed.

Lemma ro_greylist_loop self email mx_host attempts responses :
  raises_only Inv no_exn (greylist_loop self email mx_host attempts responses).
Proof.
  revert responses.
  induction attempts as [|attempt rest IH]; intros responses; simpl; ro.
Qed.

#[local] Hint Resolve ro_greylist_loop : ro.

Lemma ro_check_greylist_depth self email domain mx_hosts :
  raises_only Inv no_exn (_check_greylist_depth self email domain mx_hosts).
Proof. unfold _check_greylist_depth. ro. Qed.

Lemma ro_check_quit_behavior mx_host :
  raises_only Inv no_exn (_check_quit_behavior mx_host).
Proof. unfold _check_quit_behavior. ro. Qed.

Lemma ro_tcp_attempts mx_host n stable_connections :
  raises_only Inv no_exn (tcp_attempts mx_host n stable_connections).
Proof.
  revert stable_connections.
  induction n as [|n IH]; intros stable_connections; simpl; ro.
Qed.

#[local] Hint Resolve ro_tcp_attempts : ro.

Lemma ro_check_tcp_stability mx_host :
  raises_only Inv no_exn (_check_tcp_stability mx_host).
Proof. unfold _check_tcp_stability. ro. Qed.

#[local] Hint Resolve ro_detect_catch_all ro_check_provider_fingerprint
  ro_smtp_retry_simulation ro_check_mail_ports ro_check_tls_policy_strength
  ro_check_smtp_strictness ro_check_mailfrom_health
  ro_check_loadbalancer_behavior ro_check_vrfy_lite_behavior
  ro_check_role_accounts ro_check_greylist_depth ro_check_quit_behavior
  ro_check_tcp_stability : ro.

Lemma ro_verify_email self fast cm ic :
  raises_only Inv (verify_exn email0) (verify_email self email0 fast cm ic).
Proof.
  destruct fast; [apply ro_verify_email_fast|].
  unfold verify_email, verify_exn, domain_of. cbv zeta.
  destruct (sx_valid (_check_syntax email0)) eqn:Hvalid; cbn [negb]; [|ro].
  destruct (split_once_valid _ Hvalid) as (local & rest & _ & ->).
  ro.
Qed.

End Invariant.

(** ** What [verify_email] raises and what it asks for *)

Lemma wf_caches_log ev s : wf_caches s -> wf_caches (log_event ev s).
Proof. intros H. exact H. Qed.

Lemma wf_caches_deliverability c s :
  wf_caches s ->
  (forall key entry, c !! key = Some entry ->
                     wf_deliverability (ce_value entry)) ->
  wf_caches (cache_write deliverability_cache_ref c s).
Proof. intros _ H. exact H. Qed.

Lemma wf_caches_initial : wf_caches initial_state.
Proof. intros key entry H. vm_compute in H. discriminate H. Qed.

Lemma logged_since_refl allowed s : logged_since allowed s s.
Proof. exists []. split; [symmetry; apply app_nil_r|reflexivity]. Qed.

Lemma logged_since_log allowed s0 ev s :
  allowed ev = true -> logged_since allowed s0 s ->
  logged_since allowed s0 (log_event ev s).
Proof.
  intros Hev (new & Hnew & Hall). exists (new ++ [ev])%list. split.
  - simpl. rewrite Hnew, app_assoc. reflexivity.
  - rewrite forallb_app, Hall. simpl. rewrite Hev. reflexivity.
Qed.

(** [verify_email] under the invariant of well-formed caches. *)
Lemma verify_email_safe self email fast cm ic w s :
  wf_caches s ->
  wf_caches (verify_email self email fast cm ic w s).2 /\
  forall e, (verify_email self email fast cm ic w s).1 = Raised e ->
            verify_exn email w (verify_email self email fast cm ic w s).2 e.
Proof.
  intros H.
  destruct (ro_verify_email wf_caches (fun _ => true) email
              (fun ev s _ => wf_caches_log ev s)
              (fun _ _ Hs => Hs) (fun _ _ Hs => Hs)
              wf_caches_deliverability (fun _ Hs => Hs)
              (fun _ _ => eq_refl) (fun _ => eq_refl)
              self fast cm ic w s H) as (Hwf & _ & Hexn).
  split; [exact Hwf|].
  intros e He. rewrite He in Hexn. exact Hexn.
Qed.

(** Whatever the servers answer, three exceptions only leave
    [verify_email]: the [AttributeError] of [.lower()] on [None] (the two
    probes that read the ["error"] entry of the RCPT result), what
    [Resolver()] raises where it is built outside a [try] (the log being
    then as it is when [verify_email] stops), and what [int(min_score)]
    raises for the override of the domain. A well-formed deliverability
    cache stays well formed, so this holds for every call on a verifier,
    not only the first. *)
Theorem verify_email_exceptions self email fast cm ic w s :
  wf_caches s ->
  let run := verify_email self email fast cm ic w s in
  wf_caches run.2 /\
  forall e,
    run.1 = Raised e ->
    e = attribute_error \/
    w_resolver w (length (events run.2)) = Some e \/
    exists override min_score,
      w_overrides w (length (events run.2)) !! domain_of email
        = Some override /\
      ov_min_score override = Some min_score /\
      int_of_number min_score w run.2 = (Raised e, run.2).
Proof. intros H. cbv zeta. apply verify_email_safe. exact H. Qed.

(** On a new verifier, with the server that answers 550 for policy
    reasons. *)
Lemma verify_email_exceptions_witness :
  let run := verify_email verifier "user@example.org" true "balanced" true
               world_policy_reject initial_state in
  wf_caches run.2 /\
  forall e,
    run.1 = Raised e ->
    e = attribute_error \/
    w_resolver world_policy_reject (length (events run.2)) = Some e \/
    exists override min_score,
      w_overrides world_policy_reject (length (events run.2))
        !! domain_of "user@example.org" = Some override /\
      ov_min_score override = Some min_score /\
      int_of_number min_score world_policy_reject run.2 = (Raised e, run.2).
Proof.
  apply (verify_email_exceptions verifier "user@example.org"
           true "balanced" true world_policy_reject initial_state).
  intros key entry H. vm_compute in H. discriminate H.
Defined.

(** On a host without resolver configuration [verify_email] stops at
    the DNS probe, before any request. *)
Example verify_email_without_resolver :
  verify_email verifier "user@example.org" true "balanced" true
    world_no_resolver initial_state
  = (Raised no_resolver_configuration, initial_state).
Proof. vm_compute. reflexivity. Qed.

(** In the fast mode [verify_email] never sleeps, never sends STARTTLS
    or NOOP, opens sockets and SMTP sessions on port 25 only, and sends
    RCPT TO for no address but the one it verifies (it probes no random
    or role address): every event it adds to the log is one of
    [fast_mode_event]. *)
Theorem fast_mode_events self email cm ic w s :
  wf_caches s ->
  logged_since (fast_mode_event email) s
    (verify_email self email true cm ic w s).2.
Proof.
  intros H.
  pose (Inv := fun s' => wf_caches s' /\
                         logged_since (fast_mode_event email) s s').
  assert (Hinv : Inv s) by (split; [exact H|apply logged_since_refl]).
  destruct (ro_verify_email_fast Inv (fast_mode_event email) email) with
    (self := self) (cm := cm) (ic := ic) (w := w) (s := s)
    as [[_ Hlog] _]; try exact Hinv; try exact Hlog; unfold Inv.
  - intros ev s1 Hev [Hwf Hl]. split; [exact Hwf|].
    apply logged_since_log; assumption.
  - intros c s1 Hs. exact Hs.
  - intros c s1 Hs. exact Hs.
  - intros c s1 [Hwf Hl] Hc. split; [exact Hc|exact Hl].
  - intros s1 [Hwf _]. exact Hwf.
  - auto.
Qed.

(** The fast verification of the examples logged 34 requests, all of
    them of the fast mode. *)
Lemma fast_mode_events_witness :
  logged_since (fast_mode_event "user@example.org") initial_state
    (verify_email verifier "user@example.org" true "balanced" true
       world_user_unknown initial_state).2.
Proof.
  apply (fast_mode_events verifier "user@example.org" "balanced" true
           world_user_unknown initial_state).
  intros key entry H. vm_compute in H. discriminate H.
Defined.

Lemma rcpt_classify_rejected_without_error code message t :
  rc_rejected (rcpt_classify code message t) = true ->
  rc_error (rcpt_classify code message t) = None ->
  code = 550 /\ names_unknown_user message = false.
Proof.
  unfold rcpt_classify. cbv zeta.
  repeat case_match; cbn; try discriminate; intros _ _.
  all: split; [lia|reflexivity].
Qed.

(** In the fast mode [verify_email] raises in three cases only.
    [Resolver()] raised, the log being as it is in the end. Or
    [int(min_score)] raised for the override of the domain. Or the
    server answered RCPT TO for the address, the request logged at
    [asked] during this call, with a 550 whose text names no unknown user
    (a policy rejection): the RCPT probe then records a rejection without
    an error text, on which [_analyze_blocklist_behavior] fails with the
    [AttributeError]. *)
Theorem fast_mode_raises_on_policy_550 self email cm ic w s e s' :
  wf_caches s ->
  verify_email self email true cm ic w s = (Raised e, s') ->
  w_resolver w (length (events s')) = Some e \/
  (exists override min_score,
     w_overrides w (length (events s')) !! domain_of email = Some override /\
     ov_min_score override = Some min_score /\
     int_of_number min_score w s' = (Raised e, s')) \/
  (e = attribute_error /\
   exists asked reply,
     (length (events s) <= asked)%nat /\
     events s' !! asked = Some (ECall (SmtpRcpt email)) /\
     w_answer w _ asked (SmtpRcpt email) = inr reply /\
     reply_code reply = 550 /\
     names_unknown_user (reply_text reply) = false).
Proof.
  intros H Hrun.
  destruct (verify_email_fast_raised wf_caches (fun _ => true) email
              (fun ev s _ => wf_caches_log ev s)
              (fun _ _ Hs => Hs) (fun _ _ Hs => Hs)
              wf_caches_deliverability (fun _ Hs => Hs)
              (fun _ _ => eq_refl)
              self cm ic w s e s' H Hrun)
    as [Hres|[Hov|(-> & domain & mx_hosts & conn & rcpt & s5 & s6 & Hrcpt
                   & Hbefore & Hafter & Hrej & Herr)]].
  - left. exact Hres.
  - right. left. exact Hov.
  - right. right. split; [reflexivity|].
    destruct (_check_smtp_rcpt_result self email domain mx_hosts conn true
                w s5) as (r & s6' & Hrun' & _ & Hreply).
    rewrite Hrcpt in Hrun'. injection Hrun' as <- <-.
    destruct (rcpt_reply self w email mx_hosts conn (length (events s5)))
      as [[asked reply]|] eqn:Hasked.
    + destruct Hreply as [-> Hlog].
      apply rcpt_reply_asked in Hasked as [[Hlo _] Hw].
      exists asked, reply. split; [|split; [|split; [exact Hw|]]].
      * apply prefix_length in Hbefore. lia.
      * eapply prefix_lookup_Some; eassumption.
      * eapply rcpt_classify_rejected_without_error; eassumption.
    + unfold rcpt_flags in Hreply. injection Hreply as _ Hr _ _ _.
      congruence.
Qed.

Lemma fast_mode_raises_on_policy_550_witness :
  let w := world_policy_reject in
  let e := attribute_error in
  let s' := policy_reject_state in
  w_resolver w (length (events s')) = Some e \/
  (exists override min_score,
     w_overrides w (length (events s')) !! domain_of "user@example.org"
       = Some override /\
     ov_min_score override = Some min_score /\
     int_of_number min_score w s' = (Raised e, s')) \/
  (e = attribute_error /\
   exists asked reply,
     (length (events initial_state) <= asked)%nat /\
     events s' !! asked = Some (ECall (SmtpRcpt "user@example.org")) /\
     w_answer w _ asked (SmtpRcpt "user@example.org") = inr reply /\
     reply_code reply = 550 /\
     names_unknown_user (reply_text reply) = false).
Proof.
  apply (fast_mode_raises_on_policy_550 verifier "user@example.org"
           "balanced" true world_policy_reject initial_state
           attribute_error policy_reject_state).
  - intros key entry H. vm_compute in H. discriminate H.
  - vm_compute. reflexivity.
Defined.

(** ** The full mode *)

(** A verification in the full mode that returns after a mail server was
    selected went through [_check_smtp_strictness], which returned. *)
Lemma verify_email_full_strictness self email cm ic w s v s' conn rcpt :
  verify_email self email false cm ic w s = (Returned v, s') ->
  v_details v !! "smtp_connection" = Some (DSmtpConnection conn) ->
  v_details v !! "smtp_rcpt" = Some (DSmtpRcpt rcpt) ->
  PyStr.truthy_opt (sc_mx_used conn) = true ->
  exists st s1 s2, _check_smtp_strictness conn rcpt w s1 = (Returned st, s2).
Proof.
  intros H Hconn Hrcpt Hmx. unfold verify_email in H.
  repeat (inv_step H).
  - subst v. cbn in Hconn. rewrite lookup_insert_ne in Hconn by done.
    rewrite lookup_empty in Hconn. discriminate.
  - subst v. cbn in Hconn. rewrite !lookup_insert_ne in Hconn by done.
    rewrite lookup_empty in Hconn. discriminate.
  - destruct (PyStr.split_once _ _) as [parts|]; [|discriminate Hrun].
    apply ret_returned in Hrun as [-> ->].
    match goal with
    | Hx : context [_check_smtp_strictness] |- _ =>
        pose proof Hx as Hstrict; revert Hstrict
    end.
    repeat match goal with Hx : _ |- _ => summarize Hx end.
    repeat match goal with
           | Hx : _ = (Returned (_, _), _) |- _ =>
               progress (repeat inv_step Hx)
           end.
    all: match goal with
         | Ho : apply_override _ _ _ _ = (Returned _, _) |- _ =>
             apply apply_override_returned in Ho
               as (_ & _ & _ & Hdet & _ & _);
             rewrite Hdet in Hconn, Hrcpt
         end.
    all: simplify_eq; cbn [v_details] in *.
    all: repeat match goal with
                | Hf : ?g' !! ?k = _, Hl : ?g' !! ?k = Some _ |- _ =>
                    is_var g'; rewrite Hf in Hl
                end.
    all: rewrite ?lookup_insert_eq in Hconn, Hrcpt.
    all: repeat first [ rewrite lookup_insert_eq in Hconn
                      | rewrite lookup_insert_ne in Hconn by done ].
    all: repeat first [ rewrite lookup_insert_eq in Hrcpt
                      | rewrite lookup_insert_ne in Hrcpt by done ].
    all: simplify_eq.
    all: intros Hstrict; rewrite Hmx in Hstrict; cbn [negb andb] in Hstrict.
    all: repeat inv_step Hstrict; eauto.
Qed.

(** A verification in the full mode that selected a mail server returns
    only when the RCPT probe recorded an error: the recipient was then
    not accepted. (With an accepted recipient the error is [None], and
    [_check_smtp_strictness] raises.) *)
Theorem full_mode_returns_without_acceptance (self : EmailVerifier)
    (email confidence_mode : string) (internet_checks : bool)
    (w : World) (s s' : state) (v : verification)
    (conn : smtp_connection) (rcpt : smtp_rcpt) :
  verify_email self email false confidence_mode internet_checks w s
    = (Returned v, s') ->
  v_details v !! "smtp_connection" = Some (DSmtpConnection conn) ->
  v_details v !! "smtp_rcpt" = Some (DSmtpRcpt rcpt) ->
  PyStr.truthy_opt (sc_mx_used conn) = true ->
  (exists error, rc_error rcpt = Some error) /\ rc_accepted rcpt = false.
Proof.
  intros H Hconn Hrcpt Hmx.
  destruct (verify_email_full_strictness _ _ _ _ _ _ _ _ _ _ H Hconn Hrcpt Hmx)
    as (st & s1 & s2 & Hstrict).
  assert (Herr : exists error, rc_error rcpt = Some error).
  { unfold _check_smtp_strictness in Hstrict.
    destruct (rc_error rcpt) as [error|]; [eauto|discriminate Hstrict]. }
  split; [exact Herr|].
  apply verify_email_returned in H
    as [(_ & -> & _)|(_ & d & s3 & _ & _ & [Hno|Hyes])].
  - cbn in Hrcpt. rewrite lookup_insert_ne in Hrcpt by done.
    rewrite lookup_empty in Hrcpt. discriminate.
  - destruct Hno as (_ & Hd & _). rewrite Hd in Hrcpt.
    rewrite !lookup_insert_ne in Hrcpt by done.
    rewrite lookup_empty in Hrcpt. discriminate.
  - destruct Hyes as (_ & _ & conn' & rcpt' & s5 & s6 & Hrun & _ & Hr & _).
    rewrite Hr in Hrcpt. injection Hrcpt as ->.
    apply _check_smtp_rcpt_cases in Hrun
      as [(n & reply & t & _ & Hc)|[Hflags _]].
    + destruct Herr as [error Herr]. subst rcpt.
      unfold rcpt_classify in *. cbv zeta in *.
      repeat case_match; cbn in *; congruence.
    + unfold rcpt_flags in Hflags. injection Hflags as Ha _. exact Ha.
Qed.

Lemma full_mode_returns_without_acceptance_witness :
  (exists error, rc_error rcpt_timeout_rcpt = Some error) /\
  rc_accepted rcpt_timeout_rcpt = false.
Proof.
  apply (full_mode_returns_without_acceptance verifier "user@example.org"
           "balanced" true world_rcpt_timeout initial_state
           rcpt_timeout_state rcpt_timeout_verdict
           rcpt_timeout_connection rcpt_timeout_rcpt);
    vm_compute; reflexivity.
Defined.

(** ** The caches *)

Lemma qltb_lt (x y : Q) : PyNum.Qltb x y = true <-> (x < y)%Q.
Proof.
  unfold PyNum.Qltb. rewrite negb_true_iff. split.
  - intros H. apply Qnot_le_lt. intros Hle.
    apply Qle_bool_iff in Hle. congruence.
  - intros H. destruct (Qle_bool y x) eqn:E; [|reflexivity].
    apply Qle_bool_iff in E. exfalso. apply (Qlt_not_le _ _ H E).
Qed.

(** What [_set_cache] stored, [_get_cached] gives back as long as the
    clock has not reached the time of the store plus 3600 seconds; from
    then on it gives [None] and removes the entry. *)
Theorem set_cache_then_get_cached {A} (cache : cache_ref A) (key : string)
    (value : A) (w : World) (s s2 : state) :
  lawful_cache cache ->
  cache_read cache s2 !! key =
    cache_read cache (_set_cache cache key value w s).2 !! key ->
  let stored := w_clock w (length (events s)) in
  let now := w_clock w (length (events s2)) in
  ((now < stored + 3600)%Q ->
   _get_cached cache key w s2 = (Returned (Some value), s2)) /\
  (~ (now < stored + 3600)%Q ->
   exists s3, _get_cached cache key w s2 = (Returned None, s3) /\
              cache_read cache s3 !! key = None /\
              events s3 = events s2).
Proof.
  intros Hlaw Hkey. cbv zeta.
  unfold _set_cache, bind, time_time, get_state, put_state in Hkey.
  cbn [fst snd] in Hkey.
  destruct (Hlaw (<[key := CacheEntry value
                            (w_clock w (length (events s)) + cache_ttl)%Q]>
                    (cache_read cache s)) s) as [Hread _].
  rewrite Hread, lookup_insert_eq in Hkey.
  unfold _get_cached, bind, get_state, time_time, put_state, ret.
  rewrite Hkey. cbn [ce_expires_at ce_value]. unfold cache_ttl. split.
  - intros Hlt. apply qltb_lt in Hlt. rewrite Hlt. reflexivity.
  - intros Hge.
    destruct (PyNum.Qltb _ _) eqn:E; [apply qltb_lt in E; contradiction|].
    eexists. split; [reflexivity|].
    destruct (Hlaw (delete key (cache_read cache s2)) s2) as [-> ->].
    split; [apply lookup_delete_eq|reflexivity].
Qed.

Lemma lawful_domain_age_cache : lawful_cache domain_age_cache_ref.
Proof. intros c s. split; reflexivity. Qed.

(** The domain-age cache, read in the state of the store. *)
Lemma set_cache_then_get_cached_witness :
  let s1 := (_set_cache domain_age_cache_ref "example.org" age_skipped_result
               world_accepted initial_state).2 in
  _get_cached domain_age_cache_ref "example.org" world_accepted s1
    = (Returned (Some age_skipped_result), s1).
Proof.
  cbv zeta.
  apply (set_cache_then_get_cached domain_age_cache_ref "example.org"
           age_skipped_result world_accepted initial_state).
  - intros c s. split; reflexivity.
  - reflexivity.
  - vm_compute. reflexivity.
Defined.

(** [_check_domain_age] always leaves its result in the cache, with an
    expiry time still ahead; and with such an entry in the cache it
    returns the cached result at once: no WHOIS request, no change of
    state. *)
Theorem domain_age_is_cached (domain : string) (w : World) (s s1 : state)
    (r : age_result) :
  _check_domain_age domain w s = (Returned r, s1) ->
  exists expires,
    _domain_age_cache s1 !! domain = Some (CacheEntry r expires) /\
    (w_clock w (length (events s1)) < expires)%Q /\
    forall s2,
      _domain_age_cache s2 !! domain = Some (CacheEntry r expires) ->
      (w_clock w (length (events s2)) < expires)%Q ->
      _check_domain_age domain w s2 = (Returned r, s2).
Proof.
  intros H.
  assert (Hhit : forall expires s2,
             _domain_age_cache s2 !! domain = Some (CacheEntry r expires) ->
             (w_clock w (length (events s2)) < expires)%Q ->
             _check_domain_age domain w s2 = (Returned r, s2)).
  { intros expires s2 Hentry Hlt. apply qltb_lt in Hlt.
    unfold _check_domain_age, _get_cached, bind, get_state, time_time, ret.
    cbn [cache_read domain_age_cache_ref]. rewrite Hentry.
    cbn [ce_expires_at ce_value]. rewrite Hlt. reflexivity. }
  unfold _check_domain_age in H.
  apply bind_returned in H as (cached & s0 & Hget & H).
  unfold _get_cached, bind, get_state, time_time, put_state, ret in Hget.
  cbn [cache_read domain_age_cache_ref] in Hget.
  destruct (_domain_age_cache s !! domain) as [[value expires]|] eqn:Hentry.
  - cbn [ce_expires_at ce_value] in Hget.
    destruct (PyNum.Qltb _ expires) eqn:Hlive.
    + injection Hget as <- <-. apply ret_returned in H as [-> ->].
      exists expires. apply qltb_lt in Hlive. eauto.
    + injection Hget as <- <-.
      apply bind_returned in H as (result & s2 & Hwhois & H).
      apply bind_returned in H as ([] & s3 & Hset & H).
      apply ret_returned in H as [-> ->].
      unfold _set_cache, bind, get_state, time_time, put_state in Hset.
      injection Hset as <-.
      exists (w_clock w (length (events s2)) + cache_ttl)%Q.
      cbn. rewrite lookup_insert_eq. split; [reflexivity|]. split.
      * unfold cache_ttl.
        rewrite <- (Qplus_0_r (w_clock w (length (events s2)))) at 1.
        apply Qplus_lt_r. reflexivity.
      * apply Hhit.
  - injection Hget as <- <-.
    apply bind_returned in H as (result & s2 & Hwhois & H).
    apply bind_returned in H as ([] & s3 & Hset & H).
    apply ret_returned in H as [-> ->].
    unfold _set_cache, bind, get_state, time_time, put_state in Hset.
    injection Hset as <-.
    exists (w_clock w (length (events s2)) + cache_ttl)%Q.
    cbn. rewrite lookup_insert_eq. split; [reflexivity|]. split.
    + unfold cache_ttl.
      rewrite <- (Qplus_0_r (w_clock w (length (events s2)))) at 1.
      apply Qplus_lt_r. reflexivity.
    + apply Hhit.
Qed.

(** [_check_web_presence] always leaves its result in the cache, and
    with a live entry in the cache it returns the cached result at once,
    without an HTTP request. *)
Theorem web_presence_is_cached (domain : string) (w : World) (s s1 : state)
    (r : web_result) :
  _check_web_presence domain w s = (Returned r, s1) ->
  exists expires,
    _web_presence_cache s1 !! domain = Some (CacheEntry r expires) /\
    (w_clock w (length (events s1)) < expires)%Q /\
    forall s2,
      _web_presence_cache s2 !! domain = Some (CacheEntry r expires) ->
      (w_clock w (length (events s2)) < expires)%Q ->
      _check_web_presence domain w s2 = (Returned r, s2).
Proof.
  intros H.
  assert (Hhit : forall expires s2,
             _web_presence_cache s2 !! domain = Some (CacheEntry r expires) ->
             (w_clock w (length (events s2)) < expires)%Q ->
             _check_web_presence domain w s2 = (Returned r, s2)).
  { intros expires s2 Hentry Hlt. apply qltb_lt in Hlt.
    unfold _check_web_presence, _get_cached, bind, get_state, time_time, ret.
    cbn [cache_read web_presence_cache_ref]. rewrite Hentry.
    cbn [ce_expires_at ce_value]. rewrite Hlt. reflexivity. }
  assert (Hmiss : forall s0,
             (got ← web_presence_loop domain ["https"; "http"];
              let result :=
                match got with
                | Some status =>
                    {| web_has_website := true;
                       web_http_status := Some status;
                       web_points := if (status =? 200)%Z then 10 else 5;
                       web_skipped := false |}
                | None =>
                    {| web_has_website := false; web_http_status := None;
                       web_points := -10; web_skipped := false |}
                end in
              _ ← _set_cache web_presence_cache_ref domain result;
              ret result) w s0 = (Returned r, s1) ->
             exists expires,
               _web_presence_cache s1 !! domain
                 = Some (CacheEntry r expires) /\
               (w_clock w (length (events s1)) < expires)%Q).
  { intros s0 Hrun.
    apply bind_returned in Hrun as (got & s2 & _ & Hrun). cbv zeta in Hrun.
    apply bind_returned in Hrun as ([] & s3 & Hset & Hrun).
    apply ret_returned in Hrun as [Hr Hs].
    unfold _set_cache, bind, get_state, time_time, put_state in Hset.
    injection Hset as Hs3. subst s3 s1 r.
    exists (w_clock w (length (events s2)) + cache_ttl)%Q.
    cbn. rewrite lookup_insert_eq. split; [reflexivity|].
    unfold cache_ttl.
    rewrite <- (Qplus_0_r (w_clock w (length (events s2)))) at 1.
    apply Qplus_lt_r. reflexivity. }
  unfold _check_web_presence in H.
  apply bind_returned in H as (cached & s0 & Hget & H).
  unfold _get_cached, bind, get_state, time_time, put_state, ret in Hget.
  cbn [cache_read web_presence_cache_ref] in Hget.
  destruct (_web_presence_cache s !! domain) as [[value expires]|] eqn:Hentry.
  - cbn [ce_expires_at ce_value] in Hget.
    destruct (PyNum.Qltb _ expires) eqn:Hlive.
    + injection Hget as <- <-. apply ret_returned in H as [-> ->].
      exists expires. apply qltb_lt in Hlive. eauto.
    + injection Hget as <- <-.
      destruct (Hmiss _ H) as (expires' & ? & ?). eauto.
  - injection Hget as <- <-.
    destruct (Hmiss _ H) as (expires' & ? & ?). eauto.
Qed.

(** [_check_security_reputation] always leaves the deliverability
    records of the domain in the cache, and with a live entry in the
    cache it returns the same result without a DNS request. *)
Theorem security_reputation_is_cached (domain : string) (w : World)
    (s s1 : state) (r : security_result) :
  _check_security_reputation domain w s = (Returned r, s1) ->
  exists d expires,
    _deliverability_cache s1 !! domain = Some (CacheEntry d expires) /\
    (w_clock w (length (events s1)) < expires)%Q /\
    forall s2,
      _deliverability_cache s2 !! domain = Some (CacheEntry d expires) ->
      (w_clock w (length (events s2)) < expires)%Q ->
      _check_security_reputation domain w s2 = (Returned r, s2).
Proof.
  intros H. unfold _check_security_reputation in H.
  apply bind_returned in H as (cached & s0 & Hget & H).
  apply bind_returned in H as (d & s3 & Hd & H).
  assert (Hs1 : s1 = s3).
  { pose proof H as H'.
    apply bind_returned in H' as (strong & s4 & Hstrong & H').
    apply ret_returned in H' as [_ <-].
    destruct (dl_spf d); [destruct (dl_spf_record d)|];
      unfold ret, raise in Hstrong; congruence. }
  subst s3.
  assert (Hhit : forall expires s2,
             _deliverability_cache s2 !! domain
               = Some (CacheEntry d expires) ->
             (w_clock w (length (events s2)) < expires)%Q ->
             _check_security_reputation domain w s2 = (Returned r, s2)).
  { intros expires s2 Hentry Hlt. apply qltb_lt in Hlt.
    unfold _check_security_reputation, _get_cached.
    unfold bind at 1 2. unfold get_state.
    cbn [cache_read deliverability_cache_ref]. rewrite Hentry.
    unfold bind at 1. unfold time_time at 1.
    cbn [ce_expires_at ce_value]. rewrite Hlt. unfold ret at 1 2.
    clear -H. unfold bind, ret, raise in *.
    destruct (dl_spf d); [destruct (dl_spf_record d)|];
      try discriminate; injection H as <-; reflexivity. }
  assert (Hentry : exists expires,
             _deliverability_cache s1 !! domain
               = Some (CacheEntry d expires) /\
             (w_clock w (length (events s1)) < expires)%Q).
  { clear H Hhit.
    unfold _get_cached, bind, get_state, time_time, put_state, ret in Hget.
    cbn [cache_read deliverability_cache_ref] in Hget.
    assert (Hmiss : forall s4,
               (d ← _check_deliverability domain;
                _ ← _set_cache deliverability_cache_ref domain d;
                ret d) w s4 = (Returned d, s1) ->
               exists expires,
                 _deliverability_cache s1 !! domain
                   = Some (CacheEntry d expires) /\
                 (w_clock w (length (events s1)) < expires)%Q).
    { intros s4 Hrun.
      apply bind_returned in Hrun as (d' & s5 & _ & Hrun).
      apply bind_returned in Hrun as ([] & s6 & Hset & Hrun).
      apply ret_returned in Hrun as [Hr Hs].
      unfold _set_cache, bind, get_state, time_time, put_state in Hset.
      injection Hset as Hs6. subst s6 s1 d'.
      exists (w_clock w (length (events s5)) + cache_ttl)%Q.
      cbn. rewrite lookup_insert_eq. split; [reflexivity|].
      unfold cache_ttl.
      rewrite <- (Qplus_0_r (w_clock w (length (events s5)))) at 1.
      apply Qplus_lt_r. reflexivity. }
    destruct (_deliverability_cache s !! domain) as [[value expires]|]
      eqn:Hentry.
    - cbn [ce_expires_at ce_value] in Hget.
      destruct (PyNum.Qltb _ expires) eqn:Hlive.
      + injection Hget as <- <-. apply ret_returned in Hd as [-> ->].
        exists expires. apply qltb_lt in Hlive. eauto.
      + injection Hget as <- <-. eapply Hmiss; eauto.
    - injection Hget as <- <-. eapply Hmiss; eauto. }
  destruct Hentry as (expires & Hentry & Hlive).
  exists d, expires. eauto.
Qed.

Lemma domain_age_is_cached_witness :
  exists r s1,
    _check_domain_age "example.org" world_accepted initial_state
      = (Returned r, s1) /\
    exists expires,
      _domain_age_cache s1 !! "example.org" = Some (CacheEntry r expires) /\
      (w_clock world_accepted (length (events s1)) < expires)%Q /\
      forall s2,
        _domain_age_cache s2 !! "example.org" = Some (CacheEntry r expires) ->
        (w_clock world_accepted (length (events s2)) < expires)%Q ->
        _check_domain_age "example.org" world_accepted s2 = (Returned r, s2).
Proof.
  eexists _, _. split; [vm_compute; reflexivity|].
  apply (domain_age_is_cached "example.org" world_accepted initial_state).
  vm_compute. reflexivity.
Defined.

Lemma web_presence_is_cached_witness :
  exists r s1,
    _check_web_presence "example.org" world_accepted initial_state
      = (Returned r, s1) /\
    exists expires,
      _web_presence_cache s1 !! "example.org" = Some (CacheEntry r expires) /\
      (w_clock world_accepted (length (events s1)) < expires)%Q /\
      forall s2,
        _web_presence_cache s2 !! "example.org" = Some (CacheEntry r expires) ->
        (w_clock world_accepted (length (events s2)) < expires)%Q ->
        _check_web_presence "example.org" world_accepted s2 = (Returned r, s2).
Proof.
  eexists _, _. split; [vm_compute; reflexivity|].
  apply (web_presence_is_cached "example.org" world_accepted initial_state).
  vm_compute. reflexivity.
Defined.

Lemma security_reputation_is_cached_witness :
  exists r s1,
    _check_security_reputation "example.org" world_accepted initial_state
      = (Returned r, s1) /\
    exists d expires,
      _deliverability_cache s1 !! "example.org" = Some (CacheEntry d expires) /\
      (w_clock world_accepted (length (events s1)) < expires)%Q /\
      forall s2,
        _deliverability_cache s2 !! "example.org"
          = Some (CacheEntry d expires) ->
        (w_clock world_accepted (length (events s2)) < expires)%Q ->
        _check_security_reputation "example.org" world_accepted s2
          = (Returned r, s2).
Proof.
  eexists _, _. split; [vm_compute; reflexivity|].
  apply (security_reputation_is_cached "example.org" world_accepted
           initial_state).
  vm_compute. reflexivity.
Defined.

(** ** The probes, one by one *)

(** The provider rule caps the running score: the adjusted score is
    never above the score it was given, it is adjusted exactly when it is
    lowered, and for a matching provider whose RCPT was not accepted it
    is the smaller of the score and the provider's maximum. The provider
    is the first of the table whose name occurs in the lower-cased
    domain. *)
Theorem provider_rule_caps_running_score (domain : string) (rcpt : smtp_rcpt)
    (score : Z) :
  let r := _apply_provider_rules domain rcpt score in
  pr_adjusted_score r <= score /\
  (pr_score_adjusted r = true <-> pr_adjusted_score r < score) /\
  (rc_accepted rcpt = true -> pr_adjusted_score r = score) /\
  (forall provider,
     pr_provider r = Some provider ->
     provider_matches (PyStr.lower domain) provider = true /\
     exists rule max_score,
       In (provider, rule) provider_rules /\
       max_score_without_rcpt rule = Some max_score /\
       (rc_accepted rcpt = false ->
        pr_adjusted_score r = Z.min score max_score)) /\
  (pr_provider r = None -> pr_adjusted_score r = score).
Proof.
  cbv zeta. unfold _apply_provider_rules, find_provider_rule.
  destruct (List.find _ provider_rules) as [[provider rule]|] eqn:Hfind.
  - apply List.find_some in Hfind as [Hin Hmatch]. cbn [fst] in Hmatch.
    assert (Hmax : exists m, max_score_without_rcpt rule = Some m).
    { clear -Hin. unfold provider_rules in Hin. simpl in Hin.
      repeat destruct Hin as [[= <- <-]|Hin]; try (eexists; reflexivity).
      destruct Hin. }
    destruct Hmax as [m Hm]. rewrite Hm.
    cbn [pr_adjusted_score pr_score_adjusted pr_provider default from_option id].
    destruct (rc_accepted rcpt); cbn [negb andb].
    + split; [lia|]. split; [split; [discriminate|lia]|].
      split; [reflexivity|]. split; [|discriminate].
      intros p [= <-]. split; [exact Hmatch|]. exists rule, m.
      split; [exact Hin|]. split; [exact Hm|discriminate].
    + destruct (m <? score)%Z eqn:Hlt.
      * apply Z.ltb_lt in Hlt.
        split; [lia|]. split; [split; [lia|reflexivity]|].
        split; [discriminate|]. split; [|discriminate].
        intros p [= <-]. split; [exact Hmatch|]. exists rule, m.
        split; [exact Hin|]. split; [exact Hm|lia].
      * apply Z.ltb_ge in Hlt.
        split; [lia|]. split; [split; [discriminate|lia]|].
        split; [discriminate|]. split; [|discriminate].
        intros p [= <-]. split; [exact Hmatch|]. exists rule, m.
        split; [exact Hin|]. split; [exact Hm|lia].
  - cbn [pr_adjusted_score pr_score_adjusted pr_provider].
    split; [lia|]. split; [split; [discriminate|lia]|].
    split; [reflexivity|]. split; [discriminate|reflexivity].
Qed.

(** A domain is skipped by the SMTP probes as soon as the name of a
    blocked provider occurs anywhere in it, as [me.com] does in
    [welcome.com]: the connection probe returns [skipped] and the RCPT
    probe after it too, without a request. *)
Theorem blocked_name_skips_smtp (self : EmailVerifier)
    (email domain blocked : string) (mx_hosts : list string)
    (fast : bool) (w : World) (s : state) :
  mx_hosts <> [] ->
  In blocked smtp_blocked_domains ->
  PyStr.contains blocked (PyStr.lower domain) = true ->
  _check_smtp_connection domain mx_hosts fast w s
    = (Returned skipped_connection, s) /\
  _check_smtp_rcpt self email domain mx_hosts skipped_connection fast w s
    = (Returned skipped_rcpt, s).
Proof.
  intros Hmx Hin Hsub. split; [|reflexivity].
  unfold _check_smtp_connection. cbv zeta.
  rewrite bool_decide_eq_false_2 by exact Hmx.
  assert (existsb (fun blocked0 =>
                     PyStr.contains blocked0 (PyStr.lower domain) ||
                     PyStr.endswith (PyStr.lower domain) ("." ++ blocked0))
            smtp_blocked_domains = true) as ->.
  { apply existsb_exists. exists blocked. rewrite Hsub. auto. }
  reflexivity.
Qed.

(** The domain [welcome.com] is taken for Apple's [me.com]. *)
Lemma blocked_name_skips_smtp_witness :
  _check_smtp_connection "welcome.com" ["mx.welcome.com"] true
    world_accepted initial_state
    = (Returned skipped_connection, initial_state) /\
  _check_smtp_rcpt verifier "user@welcome.com" "welcome.com"
    ["mx.welcome.com"] skipped_connection true world_accepted initial_state
    = (Returned skipped_rcpt, initial_state).
Proof.
  apply (blocked_name_skips_smtp verifier "user@welcome.com" "welcome.com"
           "me.com" ["mx.welcome.com"] true world_accepted initial_state).
  - discriminate.
  - vm_compute. tauto.
  - vm_compute. reflexivity.
Defined.

(** How the points and [domain_exists] of the DNS probe come about. *)
Lemma dns_health_facts (domain : string) (w : World) (s s' : state)
    (d : dns_result) :
  _check_dns_health domain w s = (Returned d, s') ->
  dns_points d =
    (if dns_mx_present d then 20 else 0) +
    (if dns_spf_exists d then 5 else 0) +
    (if dns_dmarc_exists d then 5 else 0) +
    (if dns_dkim_exists d then 5 else 0) +
    (if PyNum.Qltb
          ((w_clock w (length (events s')) - w_clock w (length (events s)))
           * 1000)%Q 300 then 3
     else if PyNum.Qltb 800
               ((w_clock w (length (events s')) -
                 w_clock w (length (events s))) * 1000)%Q
          then -3 else 0) /\
  dns_response_time_ms d =
    PyNum.round_to 2
      ((w_clock w (length (events s')) - w_clock w (length (events s)))
       * 1000)%Q /\
  (dns_domain_exists d = true <->
   (exists a, w_answer w _ (length (events s)) (Resolve domain RD_A) = inr a) \/
   (exists e a,
      w_answer w _ (length (events s) + 1) (Resolve domain RD_MX) = inl e /\
      is_a e DnsNoAnswer = true /\
      w_answer w _ (length (events s) + 1 + 1) (Resolve domain RD_A) = inr a)).
Proof.
  intros H. unfold _check_dns_health in H.
  inv_all.
  all: cbn [dns_points dns_mx_present dns_mx_hosts dns_domain_exists
            dns_spf_exists dns_dmarc_exists dns_dkim_exists
            dns_response_time_ms].
  all: rewrite ?length_events_log in *.
  all: split; [repeat case_match; lia|]; split; [reflexivity|].
  all: split;
    [ intros Hex; first [discriminate Hex | eauto 10]
    | intros [[a Ha]|(e & a & He & Hn & Ha)]; congruence ].
Qed.

(** The points of the DNS probe are those of its flags: 20 for MX, 5
    each for SPF, DMARC and DKIM, and 3, 0 or -3 for the time from its
    first clock reading to its last (under 300 ms, up to 800 ms, over).
    [domain_exists] is set exactly when the A lookup that opens the probe
    was answered, or the MX lookup raised [NoAnswer] and the A lookup
    after it was answered. *)
Theorem dns_points_follow_flags (domain : string) (w : World) (s s' : state)
    (d : dns_result) :
  _check_dns_health domain w s = (Returned d, s') ->
  let elapsed_ms :=
    ((w_clock w (length (events s')) - w_clock w (length (events s))) * 1000)%Q
  in
  dns_points d =
    (if dns_mx_present d then 20 else 0) +
    (if dns_spf_exists d then 5 else 0) +
    (if dns_dmarc_exists d then 5 else 0) +
    (if dns_dkim_exists d then 5 else 0) +
    (if PyNum.Qltb elapsed_ms 300 then 3
     else if PyNum.Qltb 800 elapsed_ms then -3 else 0) /\
  dns_response_time_ms d = PyNum.round_to 2 elapsed_ms /\
  (dns_domain_exists d = true <->
   (exists a, w_answer w _ (length (events s)) (Resolve domain RD_A) = inr a) \/
   (exists e a,
      w_answer w _ (length (events s) + 1) (Resolve domain RD_MX) = inl e /\
      is_a e DnsNoAnswer = true /\
      w_answer w _ (length (events s) + 1 + 1) (Resolve domain RD_A) = inr a)).
Proof. intros H. cbv zeta. apply dns_health_facts. exact H. Qed.

Lemma dns_points_follow_flags_witness :
  exists d s',
    _check_dns_health "example.org" world_accepted initial_state
      = (Returned d, s') /\
    dns_points d = 32 /\
    dns_domain_exists d = true.
Proof.
  eexists _, _.
  match goal with
  | |- ?run = (Returned ?d, ?s') /\ _ =>
      assert (H : run = (Returned d, s')) by (vm_compute; reflexivity)
  end.
  split; [exact H|].
  destruct (dns_points_follow_flags _ _ _ _ _ H) as (Hpoints & _ & Hexists).
  split; [rewrite Hpoints; vm_compute; reflexivity|].
  apply Hexists. left. eexists. vm_compute. reflexivity.
Defined.

(** What the loop over the mail hosts makes of the result it starts
    from. *)
Lemma smtp_connection_loop_result fast hosts :
  forall result w s c s',
    smtp_connection_loop fast hosts result w s = (Returned c, s') ->
    (sc_port_25_open result = true <-> is_Some (sc_mx_used result)) ->
    (sc_port_25_open c = true <-> is_Some (sc_mx_used c)) /\
    sc_points result <= sc_points c
      <= sc_points result + 15 * Z.of_nat (length hosts) /\
    (fast = true ->
     sc_tls_successful c = sc_tls_successful result /\
     sc_points c <= sc_points result + 10 * Z.of_nat (length hosts)) /\
    (sc_mx_used c = sc_mx_used result \/
     exists h, In h hosts /\ sc_mx_used c = Some h) /\
    sc_skipped c = sc_skipped result.
Proof.
  induction hosts as [|mx_host rest IH]; intros result w s c s' H Hres.
  - simpl in H. apply ret_returned in H as [<- _]. simpl.
    split; [exact Hres|]. split; [lia|].
    split; [intros _; split; [reflexivity|lia]|].
    split; [left; reflexivity|reflexivity].
  - simpl in H. inv_all.
    all: try match goal with
             | Hl : smtp_connection_loop _ _ _ _ _ = _ |- _ =>
                 apply IH in Hl;
                 [|first [exact Hres|split; [eauto|reflexivity]]]
             end.
    all: cbn [sc_port_25_open sc_mx_used sc_points sc_tls_successful
              sc_skipped length In] in *.
    all: repeat match goal with
                | Hl : _ /\ _ |- _ => destruct Hl
                end.
    all: split; [first [assumption|split; eauto]|].
    all: split; [lia|].
    all: split;
      [ intros ->; cbn [negb] in *;
        try match goal with
            | Hl : true = true -> _ |- _ => destruct (Hl eq_refl)
            end;
        first [congruence|split; [congruence|lia]]
      | ].
    all: split; [|congruence].
    all: try match goal with
             | Hl : _ \/ _ |- _ =>
                 destruct Hl as [Hl|(h & Hh & Hl)]; [|solve [eauto]]
             end.
    all: first [ left; congruence
               | right; exists mx_host; split;
                 [left; reflexivity|congruence] ].
Qed.

(** The result of the connection probe, from the loop. *)
Lemma smtp_connection_facts (domain : string) (mx_hosts : list string)
    (fast : bool) (w : World) (s s' : state) (c : smtp_connection) :
  _check_smtp_connection domain mx_hosts fast w s = (Returned c, s') ->
  (sc_port_25_open c = true <-> is_Some (sc_mx_used c)) /\
  (forall h, sc_mx_used c = Some h -> In h (take 2 mx_hosts)) /\
  0 <= sc_points c <= 15 * Z.of_nat (length (take 2 mx_hosts)) /\
  (fast = true ->
   sc_tls_successful c = false /\
   sc_points c <= 10 * Z.of_nat (length (take 2 mx_hosts))) /\
  (sc_skipped c = Some true ->
   sc_points c = 0 /\ sc_mx_used c = None /\ s' = s).
Proof.
  intros H. unfold _check_smtp_connection in H. cbv zeta in H.
  destruct (bool_decide (mx_hosts = [])) eqn:Hempty.
  { apply ret_returned in H as [<- <-]. cbn.
    split; [split; [discriminate|intros [? ?]; discriminate]|].
    split; [discriminate|]. split; [lia|].
    split; [intros _; split; [reflexivity|lia]|discriminate]. }
  destruct (existsb _ smtp_blocked_domains).
  { apply ret_returned in H as [<- <-]. cbn.
    split; [split; [discriminate|intros [? ?]; discriminate]|].
    split; [discriminate|]. split; [lia|].
    split; [intros _; split; [reflexivity|lia]|auto]. }
  destruct (existsb _ (take 2 mx_hosts)).
  { apply ret_returned in H as [<- <-]. cbn.
    split; [split; [discriminate|intros [? ?]; discriminate]|].
    split; [discriminate|]. split; [lia|].
    split; [intros _; split; [reflexivity|lia]|auto]. }
  apply smtp_connection_loop_result in H
    as (Hopen & Hpoints & Hfast & Hused & Hskipped);
    [|cbn; split; [discriminate|intros [? ?]; discriminate]].
  cbn in Hpoints, Hfast, Hused, Hskipped.
  split; [exact Hopen|]. split.
  - intros h Hh. destruct Hused as [Hu|(h' & Hin & Hu)]; congruence.
  - split; [lia|]. split; [exact Hfast|]. rewrite Hskipped. discriminate.
Qed.

(** The result of the connection probe: port 25 is reported open exactly
    when a host is recorded as used, and that host is one of the first
    two MX hosts. A skipped domain gets no points and no request is
    made. The points are not negative and at most 15 per host tried (10
    in the fast mode, where TLS is never tried): what a first host earned
    stays in the result when the SMTP session with it fails and the loop
    goes on to the second host, so two hosts can leave 30 points. *)
Theorem smtp_connection_result (domain : string) (mx_hosts : list string)
    (fast : bool) (w : World) (s s' : state) (c : smtp_connection) :
  _check_smtp_connection domain mx_hosts fast w s = (Returned c, s') ->
  (sc_port_25_open c = true <-> is_Some (sc_mx_used c)) /\
  (forall h, sc_mx_used c = Some h -> In h (take 2 mx_hosts)) /\
  0 <= sc_points c <= 15 * Z.of_nat (length (take 2 mx_hosts)) /\
  (fast = true ->
   sc_tls_successful c = false /\
   sc_points c <= 10 * Z.of_nat (length (take 2 mx_hosts))) /\
  (sc_skipped c = Some true ->
   sc_points c = 0 /\ sc_mx_used c = None /\ s' = s).
Proof. apply smtp_connection_facts. Qed.

(** Two hosts, the first of which drops the connection at QUIT: the
    full mode ends with 30 points. *)
Lemma smtp_connection_result_witness :
  sc_mx_used two_hosts_connection = Some "mx2.example.org" /\
  sc_points two_hosts_connection = 30 /\
  0 <= sc_points two_hosts_connection
    <= 15 * Z.of_nat (length (take 2 two_hosts)).
Proof.
  split; [reflexivity|]. split; [reflexivity|].
  apply (smtp_connection_result "example.org" two_hosts false
           world_quit_fails_once initial_state two_hosts_state
           two_hosts_connection).
  vm_compute. reflexivity.
Defined.

Lemma mail_ports_loop_result mx_host ports :
  forall result w s r s',
    mail_ports_loop mx_host ports result w s = (Returned r, s') ->
    exists opened,
      mp_open_ports r = (mp_open_ports result ++ opened)%list /\
      mp_points r = mp_points result + 2 * Z.of_nat (length opened) /\
      sublist opened ports /\
      length (events s') = (length (events s) + length ports)%nat /\
      forall port, In port opened ->
        exists n, w_answer w _ n (ConnectEx mx_host port) = inr 0.
Proof.
  induction ports as [|port rest IH]; intros result w s r s' H; simpl in H.
  - apply ret_returned in H as [<- <-]. exists []. rewrite app_nil_r.
    split; [reflexivity|]. split; [simpl; lia|].
    split; [constructor|]. split; [simpl; lia|intros ? []].
  - apply bind_returned in H as (ok & s1 & Hok & H).
    apply IH in H as (opened & Hports & Hpoints & Hsub & Hlen & Hw).
    assert (Hs1 : length (events s1) = (length (events s) + 1)%nat /\
                  (ok = true ->
                   exists n, w_answer w _ n (ConnectEx mx_host port) = inr 0)).
    { clear -Hok. inv_all; rewrite length_events_log; split; try reflexivity;
        try discriminate.
      intros Hz. apply Z.eqb_eq in Hz. subst. eauto. }
    destruct Hs1 as [Hs1 Hopen].
    destruct ok; cbn in Hports, Hpoints.
    + exists (port :: opened). rewrite <- app_assoc in Hports.
      split; [exact Hports|]. split; [simpl length; lia|].
      split; [constructor; exact Hsub|]. split; [simpl; lia|].
      intros p [<-|Hp]; [apply Hopen; reflexivity|apply Hw; exact Hp].
    + exists opened. split; [exact Hports|]. split; [exact Hpoints|].
      split; [constructor; exact Hsub|]. split; [simpl; lia|exact Hw].
Qed.

(** The port scan always returns, after exactly four connection
    attempts; the ports it lists are some of 25, 465, 587 and 2525, in
    this order, each answered with 0 by [connect_ex], and the points are
    two per listed port. *)
Theorem mail_ports_open_and_points (mx_host : string) (w : World) (s : state) :
  exists r s',
    _check_mail_ports mx_host w s = (Returned r, s') /\
    sublist (mp_open_ports r) [25; 465; 587; 2525] /\
    mp_points r = 2 * Z.of_nat (length (mp_open_ports r)) /\
    0 <= mp_points r <= 8 /\
    length (events s') = (length (events s) + 4)%nat /\
    forall port, In port (mp_open_ports r) ->
      exists n, w_answer w _ n (ConnectEx mx_host port) = inr 0.
Proof.
  assert (Hret : returns (_check_mail_ports mx_host)).
  { unfold _check_mail_ports.
    generalize ({| mp_points := 0; mp_open_ports := [] |}).
    generalize [25; 465; 587; 2525].
    intros ports. induction ports as [|p rest IH]; intros result; simpl;
      prove_returns. }
  destruct (Hret w s) as (r & s' & Hrun). exists r, s'.
  split; [exact Hrun|].
  apply mail_ports_loop_result in Hrun
    as (opened & Hports & Hpoints & Hsub & Hlen & Hw).
  cbn in Hports, Hpoints. subst opened.
  split; [exact Hsub|]. split; [lia|].
  apply sublist_length in Hsub. simpl in Hsub.
  split; [lia|]. split; [exact Hlen|exact Hw].
Qed.

(** The catch-all probe reports a catch-all domain only when the server
    answered RCPT TO for its random address with 250 or 251; the random
    address is 15 characters drawn at the start, an at sign and the
    domain. A skipped probe reports none. *)
Theorem catch_all_needs_accepted_random_address (self : EmailVerifier)
    (domain : string) (mx_hosts : list string) (w : World) (s s' : state)
    (r : catch_all_result) :
  _detect_catch_all self domain mx_hosts w s = (Returned r, s') ->
  let test_email := w_random_local w (length (events s)) ++ "@" ++ domain in
  ca_test_email r = Some test_email /\
  (ca_skipped r = true -> ca_is_catchall r = false) /\
  (ca_is_catchall r = true ->
   exists n reply,
     w_answer w _ n (SmtpRcpt test_email) = inr reply /\
     is_250_251 (reply_code reply) = true).
Proof.
  intros H. cbv zeta. unfold _detect_catch_all in H.
  apply bind_returned in H as (random_string & s0 & Hrandom & H).
  unfold random_local in Hrandom. injection Hrandom as <- <-.
  apply bind_returned in H as (conn & s1 & _ & H).
  destruct (default false (sc_skipped conn) || negb (sc_port_25_open conn)).
  - apply ret_returned in H as [<- _]. cbn.
    split; [reflexivity|]. split; [reflexivity|discriminate].
  - apply bind_returned in H as (rcpt & s2 & Hrcpt & H).
    apply ret_returned in H as [<- _]. cbn.
    split; [reflexivity|]. split; [discriminate|].
    intros Haccepted.
    apply _check_smtp_rcpt_cases in Hrcpt
      as [(n & reply & t & Hw & ->)|[Hflags _]].
    + exists n, reply. split; [exact Hw|].
      unfold rcpt_classify in Haccepted. cbv zeta in Haccepted.
      destruct (is_250_251 (reply_code reply)); [reflexivity|].
      repeat case_match; discriminate.
    + unfold rcpt_flags in Hflags. injection Hflags as Ha _ _ _ _.
      congruence.
Qed.

Lemma catch_all_needs_accepted_random_address_witness :
  exists r s',
    _detect_catch_all verifier "example.org" ["mx.example.org"]
      world_accepted initial_state = (Returned r, s') /\
    ca_is_catchall r = true /\
    ca_test_email r = Some "k3j9x0q2m5v8b1z@example.org" /\
    exists n reply,
      w_answer world_accepted _ n (SmtpRcpt "k3j9x0q2m5v8b1z@example.org")
        = inr reply /\
      is_250_251 (reply_code reply) = true.
Proof.
  eexists _, _. split; [vm_compute; reflexivity|].
  split; [reflexivity|].
  pose proof (catch_all_needs_accepted_random_address verifier "example.org"
                ["mx.example.org"] world_accepted initial_state _ _ eq_refl)
    as (Hemail & _ & Haccepted).
  split; [exact Hemail|]. apply Haccepted. reflexivity.
Defined.

(** ** The legacy methods *)

Lemma smtp_connection_loop_returns fast hosts result :
  returns (smtp_connection_loop fast hosts result).
Proof.
  revert result.
  induction hosts as [|h rest IH]; intros result; simpl; prove_returns.
Qed.

Lemma _check_smtp_connection_returns domain mx_hosts fast :
  returns (_check_smtp_connection domain mx_hosts fast).
Proof.
  unfold _check_smtp_connection. prove_returns.
  apply smtp_connection_loop_returns.
Qed.

(** [check_mx_records] raises what [Resolver()] raises, before any
    request, and returns otherwise. Its [mx_details] list the hosts of
    [mx_hosts] in order, each with priority 0 (the preference of an MX
    record is not read). It reports [valid] only for a domain whose A
    lookup and MX lookup were both answered, and [mx_hosts] are then the
    exchanges of the MX answer. *)
Theorem check_mx_records_result (domain : string) (w : World) (s : state) :
  match w_resolver w (length (events s)) with
  | Some e => check_mx_records domain w s = (Raised e, s)
  | None =>
      exists r s',
        check_mx_records domain w s = (Returned r, s') /\
        mxk_mx_details r = map (fun h => (0, h)) (mxk_mx_hosts r) /\
        (mxk_valid r = true ->
         mxk_mx_hosts r <> [] /\
         (exists a,
            w_answer w _ (length (events s)) (Resolve domain RD_A) = inr a) /\
         exists mx,
           w_answer w _ (length (events s) + 1) (Resolve domain RD_MX)
             = inr mx /\
           mxk_mx_hosts r = map PyStr.rstrip_dot (records mx))
  end.
Proof.
  destruct (w_resolver w (length (events s))) as [e|] eqn:Hres.
  { unfold check_mx_records, bind.
    rewrite (_check_dns_health_raises domain w s e Hres). reflexivity. }
  destruct (_check_dns_health_returns domain w s Hres) as (d & s' & Hrun).
  exists {| mxk_valid := dns_domain_exists d && dns_mx_present d;
            mxk_mx_hosts := dns_mx_hosts d;
            mxk_mx_details := map (fun h => (0, h)) (dns_mx_hosts d) |}, s'.
  split; [unfold check_mx_records, bind; rewrite Hrun; reflexivity|].
  split; [reflexivity|]. cbn [mxk_valid mxk_mx_hosts].
  intros Hvalid. apply andb_true_iff in Hvalid as [Hexists Hmx].
  pose proof (_check_dns_health_mx _ _ _ _ _ Hrun) as [_ Hanswer].
  apply dns_health_facts in Hrun as (_ & _ & Hex).
  destruct (w_answer w _ (length (events s) + 1) (Resolve domain RD_MX))
    as [e|mx] eqn:Hw.
  - destruct Hanswer as [Hno _]. congruence.
  - destruct Hanswer as [_ Hhosts].
    split; [rewrite Hhosts; discriminate|]. split; [|eauto].
    apply Hex in Hexists as [Ha|(e & a & He & _)]; [exact Ha|discriminate].
Qed.

(** [smtp_handshake] always returns. It reports [accepted] only when
    the server answered RCPT TO for the address with 250 or 251, and
    [rejected] only when it answered with a 5xx code; never both. For a
    skipped domain it reports neither, and no host. *)
Theorem smtp_handshake_result (self : EmailVerifier) (email domain : string)
    (mx_hosts : list string) (w : World) (s : state) :
  exists r s',
    smtp_handshake self email domain mx_hosts w s = (Returned r, s') /\
    (hs_accepted r = true ->
     hs_error r = None /\
     exists n reply,
       w_answer w _ n (SmtpRcpt email) = inr reply /\
       is_250_251 (reply_code reply) = true) /\
    (hs_rejected r = true ->
     exists n reply,
       w_answer w _ n (SmtpRcpt email) = inr reply /\
       500 <= reply_code reply < 600) /\
    hs_accepted r && hs_rejected r = false /\
    (hs_skipped r = true ->
     hs_accepted r = false /\ hs_rejected r = false /\ hs_mx_used r = None).
Proof.
  destruct (_check_smtp_connection_returns domain mx_hosts true w s)
    as (conn & s1 & Hconn).
  destruct (_check_smtp_rcpt_returns self email domain mx_hosts conn true w s1)
    as (rcpt & s2 & Hrcpt).
  exists {| hs_accepted := rc_accepted rcpt; hs_rejected := rc_rejected rcpt;
            hs_error := rc_error rcpt; hs_mx_used := sc_mx_used conn;
            hs_skipped := default false (sc_skipped conn) |}, s2.
  split.
  { unfold smtp_handshake, bind. rewrite Hconn, Hrcpt. reflexivity. }
  cbn [hs_accepted hs_rejected hs_error hs_mx_used hs_skipped].
  pose proof (_check_smtp_rcpt_cases _ _ _ _ _ _ _ _ _ _ Hrcpt) as Hcases.
  assert (Hskip : default false (sc_skipped conn) = true ->
                  rc_accepted rcpt = false /\ rc_rejected rcpt = false /\
                  sc_mx_used conn = None).
  { intros Hs. apply smtp_connection_facts in Hconn as (_ & _ & _ & _ & Hsk).
    destruct (sc_skipped conn) as [[]|] eqn:E; try discriminate.
    destruct (Hsk eq_refl) as (_ & Hused & _).
    unfold _check_smtp_rcpt in Hrcpt. rewrite E in Hrcpt. cbn in Hrcpt.
    apply ret_returned in Hrcpt as [<- _]. auto. }
  destruct Hcases as [(n & reply & t & Hw & ->)|[Hflags _]].
  - pose proof (rcpt_classify_rows (reply_code reply) (reply_text reply) t)
      as Hrows.
    pose proof (rcpt_classify_exclusive (reply_code reply) (reply_text reply) t)
      as (Hex & _).
    cbv zeta in Hrows, Hex.
    split; [|split; [|split; [exact Hex|exact Hskip]]].
    + intros Ha. split.
      * unfold rcpt_classify in *. cbv zeta in *.
        repeat case_match; cbn in *; congruence.
      * exists n, reply. split; [exact Hw|].
        unfold rcpt_classify in Ha. cbv zeta in Ha.
        destruct (is_250_251 (reply_code reply)); [reflexivity|].
        repeat case_match; discriminate.
    + intros Hr. exists n, reply. split; [exact Hw|].
      unfold rcpt_classify, is_250_251 in Hr. cbv zeta in Hr.
      repeat case_match; cbn in Hr; try discriminate; lia.
  - unfold rcpt_flags in Hflags. injection Hflags as Ha Hr _ _ _.
    split; [rewrite Ha; discriminate|]. split; [rewrite Hr; discriminate|].
    split; [rewrite Ha; reflexivity|exact Hskip].
Qed.

(** ** The heuristics on the results *)

(** The points of [_analyze_server_behavior] are the sum of its
    behaviours (3 for EHLO, 5 for STARTTLS, 2 for a normal and -2 for a
    slow response, which exclude each other) and lie between -2 and 10:
    the cap between -5 and 15 never changes them. *)
Theorem server_behavior_cap_is_idle (smtp_connection : smtp_connection)
    (smtp_rcpt : smtp_rcpt) :
  let r := _analyze_server_behavior smtp_connection smtp_rcpt in
  sb_points r =
    (if sb_allows_ehlo r then 3 else 0) +
    (if sb_supports_starttls r then 5 else 0) +
    (if sb_normal_response r then 2 else 0) +
    (if sb_slow_response r then -2 else 0) /\
  -2 <= sb_points r <= 10 /\
  sb_normal_response r && sb_slow_response r = false.
Proof.
  cbv zeta. unfold _analyze_server_behavior.
  cbn [sb_points sb_allows_ehlo sb_supports_starttls sb_normal_response
       sb_slow_response].
  destruct (default false (g_valid (sc_greeting smtp_connection)));
    destruct (sc_tls_successful smtp_connection);
    destruct (PyNum.Qltb 0 (t_response_time_sec (rc_timing smtp_rcpt)) &&
              PyNum.Qltb (t_response_time_sec (rc_timing smtp_rcpt)) 1);
    destruct (PyNum.Qltb 5 (t_response_time_sec (rc_timing smtp_rcpt)));
    cbn [negb andb]; repeat split; lia.
Qed.


(** A host that [_check_mx_popularity] counts as popular is a trusted
    brand for [_check_mx_brand] as well, unless the pattern it matched is
    hostinger.com: the two heuristics give the same host 10 points
    each. *)
Theorem popular_host_is_trusted_brand (mx_host : string) :
  pop_points (_check_mx_popularity mx_host) = 10 ->
  pop_mx_pattern (_check_mx_popularity mx_host) = Some "hostinger.com" \/
  (mb_trusted (_check_mx_brand mx_host) = true /\
   mb_points (_check_mx_brand mx_host) = 10).
Proof.
  unfold _check_mx_popularity, _check_mx_brand.
  destruct (List.find _ popular_mx_patterns) as [pattern|] eqn:Hpop;
    [|discriminate].
  intros _. cbn [pop_mx_pattern].
  destruct (List.find _ trusted_brands) as [[brand name]|] eqn:Hbrand;
    [right; split; reflexivity|]. left.
  assert (Hno : forall b, In b (map fst trusted_brands) ->
                          PyStr.contains b (PyStr.lower mx_host) = false).
  { intros b Hb. apply in_map_iff in Hb as ([b' n] & <- & Hb).
    apply (find_none _ _ Hbrand _ Hb). }
  apply find_some in Hpop as [Hin Hc].
  simpl in Hin.
  repeat (destruct Hin as [<-|Hin];
          [first [reflexivity
                 | rewrite Hno in Hc by (simpl; tauto); discriminate Hc]|]).
  destruct Hin.
Qed.

Lemma popular_host_is_trusted_brand_witness :
  pop_mx_pattern (_check_mx_popularity "aspmx.l.google.com")
    = Some "hostinger.com" \/
  (mb_trusted (_check_mx_brand "aspmx.l.google.com") = true /\
   mb_points (_check_mx_brand "aspmx.l.google.com") = 10).
Proof.
  apply (popular_host_is_trusted_brand "aspmx.l.google.com").
  vm_compute. reflexivity.
Defined.

(** ** The probes that talk to the server again *)

Lemma sleep_seconds_app (a b : list event) :
  sleep_seconds (a ++ b) = sleep_seconds a + sleep_seconds b.
Proof.
  induction a as [|ev a IH]; simpl; [reflexivity|].
  destruct ev; rewrite IH; lia.
Qed.

Lemma retry_loop_returns self email mx_host delays result :
  returns (retry_loop self email mx_host delays result).
Proof.
  revert result.
  induction delays as [|d rest IH]; intros result; simpl; prove_returns.
Qed.

Lemma retry_loop_result self email mx_host delays :
  forall result w s r s',
    retry_loop self email mx_host delays result w s = (Returned r, s') ->
    rt_points result = (if rt_success_after_retry result then 20 else 0) ->
    rt_points r = (if rt_success_after_retry r then 20 else 0) /\
    (rt_success_after_retry r = true ->
     rt_success_after_retry result = true \/
     exists n reply,
       w_answer w _ n (SmtpRcpt email) = inr reply /\
       is_250_251 (reply_code reply) = true) /\
    (length (rt_retries r) <=
       length (rt_retries result) + 2 * length delays)%nat /\
    exists new,
      events s' = (events s ++ new)%list /\
      0 <= sleep_seconds new <= total_delay delays.
Proof.
  induction delays as [|delay rest IH]; intros result w s r s' H Hinv;
    simpl in H.
  - apply ret_returned in H as [<- <-].
    split; [exact Hinv|]. split; [auto|]. split; [lia|].
    exists []. rewrite app_nil_r. simpl. split; [reflexivity|lia].
  - apply bind_returned in H as (u & s1 & Hsleep & H).
    assert (Hs1 : exists new1, events s1 = (events s ++ new1)%list /\
                               sleep_seconds new1 = Z.max 0 delay).
    { destruct (0 <? delay)%Z eqn:Hd.
      - injection Hsleep as _ <-. exists [ESleep delay]. simpl.
        apply Z.ltb_lt in Hd. split; [reflexivity|lia].
      - apply ret_returned in Hsleep as [_ <-]. exists [].
        rewrite app_nil_r. simpl. apply Z.ltb_ge in Hd.
        split; [reflexivity|lia]. }
    destruct Hs1 as (new1 & Hev1 & Hsl1).
    apply bind_returned in H as (answer & s2 & Hanswer & H).
    assert (Hs2 : (exists new2, events s2 = (events s1 ++ new2)%list /\
                                sleep_seconds new2 = 0) /\
                  forall reply, answer = inr reply ->
                    exists n, w_answer w _ n (SmtpRcpt email) = inr reply).
    { clear -Hanswer. inv_all.
      all: split; [|first [ intros ? [= <-]; eauto | discriminate ]].
      all: eexists; simpl; rewrite <- ?app_assoc;
        (split; [reflexivity|reflexivity]). }
    destruct Hs2 as [(new2 & Hev2 & Hsl2) Hreply].
    assert (Hbound : forall result2 s3 new3,
              events s3 = (events s2 ++ new3)%list ->
              sleep_seconds new3 = 0 ->
              retry_loop self email mx_host rest result2 w s3
                = (Returned r, s') ->
              rt_points result2 =
                (if rt_success_after_retry result2 then 20 else 0) ->
              (rt_success_after_retry result2 = true ->
               rt_success_after_retry result = true \/
               exists n reply,
                 w_answer w _ n (SmtpRcpt email) = inr reply /\
                 is_250_251 (reply_code reply) = true) ->
              (length (rt_retries result2) <=
                 length (rt_retries result) + 2)%nat ->
              rt_points r = (if rt_success_after_retry r then 20 else 0) /\
              (rt_success_after_retry r = true ->
               rt_success_after_retry result = true \/
               exists n reply,
                 w_answer w _ n (SmtpRcpt email) = inr reply /\
                 is_250_251 (reply_code reply) = true) /\
              (length (rt_retries r) <=
                 length (rt_retries result) + 2 * length (delay :: rest))%nat /\
              exists new,
                events s' = (events s ++ new)%list /\
                0 <= sleep_seconds new <= total_delay (delay :: rest)).
    { intros result2 s3 new3 Hev3 Hsl3 Hloop Hinv2 Hsucc Hlen.
      apply IH in Hloop as (Hp & Hs & Hl & new & Hev & Hsl); [|exact Hinv2].
      split; [exact Hp|]. split.
      { intros Hr. apply Hs in Hr as [Hr|Hr]; [auto|right; exact Hr]. }
      split; [simpl length; lia|].
      exists (new1 ++ new2 ++ new3 ++ new)%list. split.
      - rewrite Hev, Hev3, Hev2, Hev1, <- !app_assoc. reflexivity.
      - rewrite !sleep_seconds_app, Hsl1, Hsl2, Hsl3. simpl total_delay. lia. }
    destruct answer as [e|reply].
    + apply (Hbound _ s2 [] ltac:(rewrite app_nil_r; reflexivity) eq_refl H).
      * exact Hinv.
      * auto.
      * cbn [rt_retries]. rewrite length_app. simpl. lia.
    + destruct (Hreply reply eq_refl) as [n Hn].
      cbv zeta in H.
      apply bind_returned in H as (quit & s3 & Hquit & H).
      assert (Hs3 : exists new3, events s3 = (events s2 ++ new3)%list /\
                                 sleep_seconds new3 = 0).
      { clear -Hquit. inv_all.
        all: eexists; simpl; (split; [reflexivity|reflexivity]). }
      destruct Hs3 as (new3 & Hev3 & Hsl3).
      assert (Haccepted : is_250_251 (reply_code reply) = true ->
                exists n reply,
                  w_answer w _ n (SmtpRcpt email) = inr reply /\
                  is_250_251 (reply_code reply) = true) by eauto.
      destruct quit as [e|].
      * apply (Hbound _ s3 new3 Hev3 Hsl3 H); cbn [rt_success_after_retry
          rt_points rt_retries].
        -- destruct (is_250_251 (reply_code reply)); [reflexivity|exact Hinv].
        -- destruct (is_250_251 (reply_code reply)); [auto|]. simpl. auto.
        -- rewrite !length_app. simpl. lia.
      * destruct (is_250_251 (reply_code reply)) eqn:Hok.
        -- apply ret_returned in H as [<- <-].
           cbn [rt_success_after_retry rt_points rt_retries].
           split; [reflexivity|]. split; [auto|].
           split; [rewrite length_app; simpl; lia|].
           exists (new1 ++ new2 ++ new3)%list. split.
           ++ rewrite Hev3, Hev2, Hev1, <- !app_assoc. reflexivity.
           ++ rewrite !sleep_seconds_app, Hsl1, Hsl2, Hsl3.
              simpl total_delay.
              assert (0 <= total_delay rest).
              { clear. induction rest as [|d rest IH]; simpl; lia. }
              lia.
        -- apply (Hbound _ s3 new3 Hev3 Hsl3 H); cbn [rt_success_after_retry
             rt_points rt_retries].
           ++ exact Hinv.
           ++ simpl. auto.
           ++ rewrite length_app. simpl. lia.
Qed.

(** The retry simulation always returns. It reports success, and 20
    points, only when the server answered RCPT TO for the address with
    250 or 251, and no points otherwise. It sleeps at most two seconds,
    and records at most four attempts: a QUIT that fails after an answer
    adds a second entry, and after an accepting answer it also makes the
    loop try again. *)
Theorem retry_simulation_result (self : EmailVerifier)
    (email domain : string) (mx_hosts : list string) (w : World) (s : state) :
  exists r s',
    _smtp_retry_simulation self email domain mx_hosts w s = (Returned r, s') /\
    rt_points r = (if rt_success_after_retry r then 20 else 0) /\
    (rt_success_after_retry r = true ->
     exists n reply,
       w_answer w _ n (SmtpRcpt email) = inr reply /\
       is_250_251 (reply_code reply) = true) /\
    (length (rt_retries r) <= 4)%nat /\
    exists new,
      events s' = (events s ++ new)%list /\ 0 <= sleep_seconds new <= 2.
Proof.
  unfold _smtp_retry_simulation. destruct mx_hosts as [|mx_host rest].
  - eexists _, s. split; [reflexivity|]. cbn.
    split; [reflexivity|]. split; [discriminate|]. split; [lia|].
    exists []. rewrite app_nil_r. simpl. split; [reflexivity|lia].
  - destruct (retry_loop_returns self email mx_host [0; 2]
                {| rt_success_after_retry := false; rt_retries := [];
                   rt_points := 0; rt_skipped := None |} w s)
      as (r & s' & Hrun).
    exists r, s'. split; [exact Hrun|].
    apply retry_loop_result in Hrun as (Hp & Hs & Hl & Hev); [|reflexivity].
    split; [exact Hp|]. split.
    { intros Hr. apply Hs in Hr as [Hr|Hr]; [discriminate Hr|exact Hr]. }
    split; [simpl in Hl; lia|exact Hev].
Qed.

Lemma role_accounts_loop_returns self domain mx_host roles entries count :
  returns (role_accounts_loop self domain mx_host roles entries count).
Proof.
  revert entries count.
  induction roles as [|role rest IH]; intros entries count; simpl;
    prove_returns.
Qed.

Lemma role_accounts_loop_result self domain mx_host roles :
  forall entries count w s entries' count' s',
    role_accounts_loop self domain mx_host roles entries count w s
      = (Returned (entries', count'), s') ->
    map fst entries' = (map fst entries ++ roles)%list /\
    count <= count' <= count + Z.of_nat (length roles) /\
    (count' = count + Z.of_nat (length roles) ->
     forall role, In role roles ->
       exists n reply,
         w_answer w _ n (SmtpRcpt (role ++ "@" ++ domain)) = inr reply /\
         is_250_251 (reply_code reply) = true) /\
    (count' = count ->
     forall role entry, In (role, entry) entries' ->
       In (role, entry) entries \/ role_valid entry = false).
Proof.
  induction roles as [|role rest IH];
    intros entries count w s entries' count' s' H; simpl in H.
  - apply ret_returned in H as [[= <- <-] _]. rewrite app_nil_r.
    split; [reflexivity|]. split; [simpl; lia|].
    split; [intros _ ? []|auto].
  - apply bind_returned in H as (answer & s1 & Hanswer & H).
    assert (Hreply : forall reply, answer = Some reply ->
              exists n,
                w_answer w _ n (SmtpRcpt (role ++ "@" ++ domain)) = inr reply).
    { clear -Hanswer. inv_all; first [ intros ? [= <-]; eauto | discriminate ]. }
    destruct answer as [reply|].
    + destruct (Hreply reply eq_refl) as [n Hn]. cbv zeta in H.
      apply bind_returned in H as (quit_ok & s2 & _ & H).
      apply IH in H as (Hkeys & Hcount & Hall & Hnone).
      rewrite map_app in Hkeys. simpl in Hkeys.
      rewrite <- app_assoc in Hkeys.
      split; [exact Hkeys|]. simpl length.
      destruct (is_250_251 (reply_code reply)) eqn:Hok.
      * split; [lia|]. split.
        -- intros Hc r [<-|Hr]; [eauto|].
           apply Hall; [lia|exact Hr].
        -- intros Hc. lia.
      * split; [lia|]. split; [intros Hc; lia|].
        intros Hc r entry Hin. destruct (Hnone Hc r entry Hin) as [Hi|Hv];
          [|right; exact Hv].
        apply in_app_iff in Hi as [Hi|[[= <- <-]|[]]]; [left; exact Hi|].
        right. destruct quit_ok; reflexivity.
    + apply IH in H as (Hkeys & Hcount & Hall & Hnone).
      rewrite map_app in Hkeys. simpl in Hkeys.
      rewrite <- app_assoc in Hkeys.
      split; [exact Hkeys|]. simpl length.
      split; [lia|]. split; [intros Hc; lia|].
      intros Hc r entry Hin. destruct (Hnone Hc r entry Hin) as [Hi|Hv];
        [|right; exact Hv].
      apply in_app_iff in Hi as [Hi|[[= <- <-]|[]]]; [left; exact Hi|].
      right. reflexivity.
Qed.

(** The role-account probe always returns. With an MX host it records
    the four roles in order; it reports [all_valid], and 6 points, only
    when the server answered RCPT TO with 250 or 251 for each of the four
    role addresses, and [all_invalid], and -6 points, only when no
    recorded entry is valid; otherwise the points are 0. *)
Theorem role_accounts_result_meaning (self : EmailVerifier) (domain : string)
    (mx_hosts : list string) (w : World) (s : state) :
  exists r s',
    _check_role_accounts self domain mx_hosts w s = (Returned r, s') /\
    (mx_hosts <> [] -> map fst (ra_role_accounts r) = role_accounts) /\
    ra_points r = (if ra_all_valid r then 6
                   else if ra_all_invalid r then -6 else 0) /\
    ra_all_valid r && ra_all_invalid r = false /\
    (ra_all_valid r = true ->
     forall role, In role role_accounts ->
       exists n reply,
         w_answer w _ n (SmtpRcpt (role ++ "@" ++ domain)) = inr reply /\
         is_250_251 (reply_code reply) = true) /\
    (ra_all_invalid r = true ->
     forall role entry, In (role, entry) (ra_role_accounts r) ->
       role_valid entry = false).
Proof.
  unfold _check_role_accounts. destruct mx_hosts as [|mx_host rest].
  - eexists _, s. split; [reflexivity|]. cbn.
    split; [congruence|]. repeat split; discriminate.
  - destruct (role_accounts_loop_returns self domain mx_host role_accounts
                [] 0 w s) as ([entries count] & s' & Hrun).
    eexists _, s'. split; [unfold bind; rewrite Hrun; reflexivity|].
    apply role_accounts_loop_result in Hrun as (Hkeys & Hcount & Hall & Hnone).
    cbn [ra_points ra_role_accounts ra_all_valid ra_all_invalid].
    split; [intros _; exact Hkeys|]. split; [reflexivity|].
    split; [destruct (count =? _)%Z; reflexivity|]. split.
    + intros Hv. apply Z.eqb_eq in Hv. apply Hall. lia.
    + intros Hi. apply andb_true_iff in Hi as [_ Hz].
      apply Z.eqb_eq in Hz. intros role entry Hin.
      destruct (Hnone ltac:(lia) role entry Hin) as [[]|Hv]. exact Hv.
Qed.

Lemma greylist_loop_returns self email mx_host attempts responses :
  returns (greylist_loop self email mx_host attempts responses).
Proof.
  revert responses.
  induction attempts as [|a rest IH]; intros responses; simpl; prove_returns.
Qed.

Lemma greylist_loop_result self email mx_host attempts :
  forall responses w s depth pattern points responses' s',
    greylist_loop self email mx_host attempts responses w s
      = (Returned (depth, pattern, points, responses'), s') ->
    points = (if pattern then 10 else 0) /\
    (depth = 0 \/ In (depth - 1) attempts) /\
    (depth = 0 -> pattern = false) /\
    (depth <> 0 ->
     pattern = (1 <=? depth - 1)%Z /\
     exists n reply,
       w_answer w _ n (SmtpRcpt email) = inr reply /\
       is_250_251 (reply_code reply) = true) /\
    exists new,
      events s' = (events s ++ new)%list /\
      0 <= sleep_seconds new
        <= 2 * Z.of_nat (length (List.filter (fun a => (0 <? a)%Z) attempts)).
Proof.
  induction attempts as [|attempt rest IH];
    intros responses w s depth pattern points responses' s' H; simpl in H.
  - apply ret_returned in H as [[= <- <- <- <-] <-].
    split; [reflexivity|]. split; [left; reflexivity|].
    split; [reflexivity|]. split; [congruence|].
    exists []. rewrite app_nil_r. simpl. split; [reflexivity|lia].
  - apply bind_returned in H as (u & s1 & Hsleep & H).
    assert (Hs1 : exists new1, events s1 = (events s ++ new1)%list /\
                               sleep_seconds new1 =
                                 if (0 <? attempt)%Z then 2 else 0).
    { destruct (0 <? attempt)%Z.
      - injection Hsleep as _ <-. exists [ESleep 2]. simpl.
        split; [reflexivity|reflexivity].
      - apply ret_returned in Hsleep as [_ <-]. exists [].
        rewrite app_nil_r. simpl. split; [reflexivity|reflexivity]. }
    destruct Hs1 as (new1 & Hev1 & Hsl1).
    apply bind_returned in H as (answer & s2 & Hanswer & H).
    assert (Hs2 : (exists new2, events s2 = (events s1 ++ new2)%list /\
                                sleep_seconds new2 = 0) /\
                  forall reply, answer = inr reply ->
                    exists n, w_answer w _ n (SmtpRcpt email) = inr reply).
    { clear -Hanswer. inv_all.
      all: split; [|first [ intros ? [= <-]; eauto | discriminate ]].
      all: eexists; simpl; rewrite <- ?app_assoc;
        (split; [reflexivity|reflexivity]). }
    destruct Hs2 as [(new2 & Hev2 & Hsl2) Hreply].
    assert (Hnext : forall responses2 s3 new3,
              events s3 = (events s2 ++ new3)%list ->
              sleep_seconds new3 = 0 ->
              greylist_loop self email mx_host rest responses2 w s3
                = (Returned (depth, pattern, points, responses'), s') ->
              points = (if pattern then 10 else 0) /\
              (depth = 0 \/ In (depth - 1) (attempt :: rest)) /\
              (depth = 0 -> pattern = false) /\
              (depth <> 0 ->
               pattern = (1 <=? depth - 1)%Z /\
               exists n reply,
                 w_answer w _ n (SmtpRcpt email) = inr reply /\
                 is_250_251 (reply_code reply) = true) /\
              exists new,
                events s' = (events s ++ new)%list /\
                0 <= sleep_seconds new
                  <= 2 * Z.of_nat
                           (length (List.filter (fun a => (0 <? a)%Z)
                                      (attempt :: rest)))).
    { intros responses2 s3 new3 Hev3 Hsl3 Hloop.
      apply IH in Hloop as (Hp & Hd & Hz & Hacc & new & Hev & Hsl).
      split; [exact Hp|]. split; [destruct Hd; [auto|right; right; assumption]|].
      split; [exact Hz|]. split; [exact Hacc|].
      exists (new1 ++ new2 ++ new3 ++ new)%list. split.
      - rewrite Hev, Hev3, Hev2, Hev1, <- !app_assoc. reflexivity.
      - rewrite !sleep_seconds_app, Hsl1, Hsl2, Hsl3. simpl List.filter.
        destruct (0 <? attempt)%Z; simpl length; lia. }
    destruct answer as [e|reply].
    + apply (Hnext _ s2 [] ltac:(rewrite app_nil_r; reflexivity) eq_refl H).
    + destruct (Hreply reply eq_refl) as [n Hn]. cbv zeta in H.
      apply bind_returned in H as (quit & s3 & Hquit & H).
      assert (Hs3 : exists new3, events s3 = (events s2 ++ new3)%list /\
                                 sleep_seconds new3 = 0).
      { clear -Hquit. inv_all.
        all: eexists; simpl; (split; [reflexivity|reflexivity]). }
      destruct Hs3 as (new3 & Hev3 & Hsl3).
      destruct quit as [e|]; [apply (Hnext _ s3 new3 Hev3 Hsl3 H)|].
      destruct (is_250_251 (reply_code reply)) eqn:Hok;
        [|apply (Hnext _ s3 new3 Hev3 Hsl3 H)].
      assert (Hlog : exists new,
                events s3 = (events s ++ new)%list /\
                0 <= sleep_seconds new
                  <= 2 * Z.of_nat
                           (length (List.filter (fun a => (0 <? a)%Z)
                                      (attempt :: rest)))).
      { exists (new1 ++ new2 ++ new3)%list. split.
        - rewrite Hev3, Hev2, Hev1, <- !app_assoc. reflexivity.
        - rewrite !sleep_seconds_app, Hsl1, Hsl2, Hsl3. simpl List.filter.
        destruct (0 <? attempt)%Z; simpl length; lia. }
      destruct (1 <=? attempt)%Z eqn:Hone;
        apply ret_returned in H as [[= <- <- <- <-] <-].
      all: replace (attempt + 1 - 1) with attempt by lia.
      all: split; [reflexivity|]; split; [right; left; reflexivity|].
      all: split; [intros Hz; apply Z.leb_le in Hone || apply Z.leb_gt in Hone;
                   try lia|].
      all: try (split; [intros _; split; [symmetry; exact Hone|eauto]
                       |exact Hlog]).
      (* attempt + 1 = 0 with attempt < 1 *)
      all: try (subst; reflexivity).
Qed.

(** The greylist depth probe always returns. Its depth is 0, or the
    number (1 to 3) of the attempt whose RCPT TO for the address was
    answered with 250 or 251 and followed by a QUIT that went through;
    the pattern matches, for 10 points, exactly when that attempt was the
    second or the third, and the points are 0 otherwise. It sleeps two
    seconds before the second and the third attempt, four at most. *)
Theorem greylist_depth_counts_attempts (self : EmailVerifier) (email domain : string)
    (mx_hosts : list string) (w : World) (s : state) :
  exists r s',
    _check_greylist_depth self email domain mx_hosts w s = (Returned r, s') /\
    0 <= gd_depth r <= 3 /\
    gd_pattern_matches r = (2 <=? gd_depth r)%Z /\
    gd_points r = (if gd_pattern_matches r then 10 else 0) /\
    (gd_depth r <> 0 ->
     exists n reply,
       w_answer w _ n (SmtpRcpt email) = inr reply /\
       is_250_251 (reply_code reply) = true) /\
    exists new,
      events s' = (events s ++ new)%list /\ 0 <= sleep_seconds new <= 4.
Proof.
  unfold _check_greylist_depth. destruct mx_hosts as [|mx_host rest].
  - eexists _, s. split; [reflexivity|]. cbn.
    split; [lia|]. split; [reflexivity|]. split; [reflexivity|].
    split; [congruence|].
    exists []. rewrite app_nil_r. simpl. split; [reflexivity|lia].
  - destruct (greylist_loop_returns self email mx_host [0; 1; 2] [] w s)
      as ([[[depth pattern] points] responses] & s' & Hrun).
    eexists _, s'. split; [unfold bind; rewrite Hrun; reflexivity|].
    apply greylist_loop_result in Hrun as (Hp & Hd & Hz & Hacc & Hlog).
    cbn [gd_points gd_depth gd_pattern_matches].
    assert (Hrange : 0 <= depth <= 3).
    { destruct Hd as [->|Hin]; [lia|]. simpl in Hin. lia. }
    split; [exact Hrange|]. split.
    { destruct (Z.eq_dec depth 0) as [->|Hne]; [rewrite Hz; reflexivity|].
      destruct (Hacc Hne) as [-> _].
      destruct (1 <=? depth - 1)%Z eqn:E1, (2 <=? depth)%Z eqn:E2;
        try reflexivity; lia. }
    split; [exact Hp|]. split; [intros Hne; apply Hacc; exact Hne|].
    exact Hlog.
Qed.

Lemma filter_seq_shift (f : nat -> bool) (base n : nat) :
  length (List.filter (fun k => f (base + k)%nat) (seq 1 n)) =
  length (List.filter (fun k => f (base + 1 + k)%nat) (seq 0 n)).
Proof.
  rewrite <- seq_shift, filter_map_swap, length_map.
  f_equal. apply filter_ext. intros k. f_equal. lia.
Qed.

Lemma tcp_attempts_result mx_host n :
  forall stable w s,
    exists s',
      tcp_attempts mx_host n stable w s =
        (Returned
           (stable +
            Z.of_nat
              (length (List.filter (fun k => connects w mx_host
                                               (length (events s) + k))
                         (seq 0 n)))),
         s') /\
      length (events s') = (length (events s) + n)%nat.
Proof.
  induction n as [|n IH]; intros stable w s; simpl.
  - exists s. split; [unfold ret; f_equal; f_equal; lia|lia].
  - unfold bind at 1, try_except, call, bind, ret, connects at 1.
    rewrite Nat.add_0_r.
    destruct (w_answer w _ (length (events s)) (ConnectEx mx_host 25))
      as [e|code] eqn:Hw; cbn [fst snd].
    all: match goal with
         | |- context [tcp_attempts _ _ ?st _ ?s1] =>
             destruct (IH st w s1) as (s' & Hrun & Hlen)
         end.
    all: exists s'; rewrite Hrun, length_events_log in *.
    all: split; [|lia].
    all: f_equal; f_equal.
    all: try destruct (code =? 0)%Z; simpl length.
    all: rewrite (filter_seq_shift (connects w mx_host)); lia.
Qed.

(** The TCP stability probe always returns, after three [connect_ex]
    calls to port 25. It reports a stable host, for 5 points, exactly
    when all three gave 0, and retransmissions, for -5 points, exactly
    when none did; with one or two it gives no points. *)
Theorem tcp_stability_counts_connections (mx_host : string) (w : World)
    (s : state) :
  let stable_connections :=
    length (List.filter (fun k => connects w mx_host (length (events s) + k))
              [0; 1; 2]%nat) in
  exists r s',
    _check_tcp_stability mx_host w s = (Returned r, s') /\
    length (events s') = (length (events s) + 3)%nat /\
    (tcp_stable r = true <-> stable_connections = 3%nat) /\
    (tcp_retransmissions_detected r = true <-> stable_connections = 0%nat) /\
    tcp_points r = (if tcp_stable r then 5
                    else if tcp_retransmissions_detected r then -5 else 0).
Proof.
  cbv zeta. unfold _check_tcp_stability. cbv zeta.
  destruct (tcp_attempts_result mx_host 3 0 w s) as (s' & Hrun & Hlen).
  change (seq 0 3) with [0; 1; 2]%nat in Hrun.
  set (stable := length _) in *.
  assert (Hbound : (stable <= 3)%nat).
  { subst stable. etransitivity; [apply filter_length_le|]. simpl. lia. }
  unfold bind. rewrite Hrun.
  change (3 / 2) with 1.
  destruct (Z.eqb_spec (0 + Z.of_nat stable) 3) as [E3|E3];
    [|destruct (Z.leb_spec 1 (0 + Z.of_nat stable)) as [E1|E1]].
  all: eexists _, s'; split; [reflexivity|]; split; [exact Hlen|].
  all: cbn [tcp_stable tcp_retransmissions_detected tcp_points].
  all: repeat split; intros; try reflexivity; try discriminate; lia.
Qed.
(** * The claims *)

(** C1 (the code fails it). A hard failure of the RCPT probe is meant to
    keep the final score at 10 or less. The code takes [min(score, 10)]
    right after the RCPT probe and goes on adding the points of every
    later probe: for an address whose server answers RCPT TO with
    "550 5.1.1 User unknown", on a domain that is otherwise in good
    health, the verdict is [likely_valid] with score 86. *)
Theorem hard_failure_cap_is_not_final :
  let run := verify_email verifier "user@example.org" true "balanced" true
               world_user_unknown initial_state in
  (rc_hard_failure <$> rcpt_of run) = Some true /\
  verdict_of run = Some ("likely_valid", 86).
Proof. vm_compute. split; reflexivity. Qed.

(** C2 (the code fails it). For a domain with a provider rule and an
    RCPT probe that did not report [accepted], the final score is meant
    to be at most [max_score_without_rcpt]. The code applies the rule as
    its step 12 and goes on adding the points of steps 13 to 36: for a
    gmail.com address (SMTP probing skipped, cap 55) the [provider_rules]
    entry records the adjustment to 55 and the verdict is [valid] with
    score 100. *)
Theorem provider_cap_is_not_final :
  let run := verify_email verifier "user@gmail.com" true "balanced" true
               world_gmail initial_state in
  (rc_accepted <$> rcpt_of run) = Some false /\
  (pr_provider <$> provider_rules_of run) = Some (Some "gmail.com") /\
  (pr_score_adjusted <$> provider_rules_of run) = Some true /\
  (pr_adjusted_score <$> provider_rules_of run) = Some 55 /\
  verdict_of run = Some ("valid", 100).
Proof. vm_compute. repeat split; reflexivity. Qed.

(** C3, as stated, fails in two places. At the DNS stage: a parked
    domain, with SPF and DMARC records and neither A nor MX record, is
    turned away with status [invalid] and score 23, which is in the
    bucket [likely_invalid]. And at the override step: with an entry of
    the table for example.org that asks for the floor 95 and the status
    [valid], the verification that ends with score 86 without it ends
    with score 95, status [valid], and the reason of the bucket of 86. *)
Lemma dns_stage_status_counterexample :
  let run := verify_email verifier "user@example.org" true "balanced" true
               world_parked initial_state in
  let overridden :=
    verify_email verifier "user@example.org" true "balanced" true
      world_override initial_state in
  verdict_of run = Some ("invalid", 23) /\
  reason_of run = Some "Domain does not exist" /\
  (status_of_score 23).1 = "likely_invalid" /\
  verdict_of overridden = Some ("valid", 95) /\
  reason_of overridden = Some (status_of_score 86).2 /\
  (status_of_score 86).1 = "likely_valid".
Proof. vm_compute. repeat split; reflexivity. Qed.

(** C3 (amended). Whenever [verify_email] returns a result, its
    confidence is score / 100. A verification stopped at the syntax check
    has status invalid and score 0. One stopped at the DNS stage, the
    [domain_exists] of the DNS result being false, has status invalid,
    the reason "Domain does not exist" and the score reached so far, 10
    plus the DNS points, which is in [0, 100] and is not mapped to a
    bucket. Every other verification has a score [base] in [0, 100]
    before the override step, and the reason of the bucket of [base],
    >= 90 valid, >= 70 likely_valid, >= 50 uncertain, >= 20
    likely_invalid, else invalid. Without an entry for the domain in the
    table of overrides, as the table is when the verification ends, the
    score is [base] and the status is its bucket. With an entry, the
    status is its [force_status] if it has one, and the score is the
    larger of [base] and [int(min_score)] if it has a [min_score]. *)
Theorem verdict_bounds_and_status self email fast cm ic w s v s' :
  verify_email self email fast cm ic w s = (Returned v, s') ->
  (v_confidence v == inject_Z (v_score v) / 100)%Q /\
  if sx_valid (_check_syntax email) then
    exists d s1,
      _check_dns_health (domain_of email) w s = (Returned d, s1) /\
      v_details v !! "dns_health" = Some (DDnsHealth d) /\
      if dns_domain_exists d then
        exists base,
          0 <= base <= 100 /\
          v_reason v = (status_of_score base).2 /\
          match w_overrides w (length (events s')) !! domain_of email with
          | None =>
              v_score v = base /\ v_status v = (status_of_score base).1
          | Some override =>
              v_status v = default (status_of_score base).1
                             (ov_force_status override) /\
              match ov_min_score override with
              | None => v_score v = base
              | Some min_score =>
                  exists floor,
                    int_value min_score = Some floor /\
                    v_score v = Z.max base floor
              end
          end
      else
        v_status v = "invalid" /\ v_reason v = "Domain does not exist" /\
        v_score v = 10 + dns_points d /\ 0 <= v_score v <= 100
  else
    v_status v = "invalid" /\ v_reason v = "Invalid email syntax" /\
    v_score v = 0.
Proof.
  intros H. apply verify_email_returned in H
    as [(Hsx & -> & _)|(Hsx & d & s1 & Hdns & Hd & Hstage)]; rewrite Hsx.
  - (* stopped at the syntax check *)
    cbn. split; [reflexivity|auto].
  - pose proof (_check_dns_health_mx _ _ _ _ _ Hdns) as [Hpoints _].
    destruct Hstage as [(Hex & _ & Hst & Hre & Hsc & Hco)|
                       (Hex & (result & Hov & Hst & Hco & score & Hsc) & _)].
    + (* stopped at the DNS stage *)
      split; [rewrite Hco; reflexivity|].
      exists d, s1. split; [exact Hdns|]. split; [exact Hd|].
      rewrite Hex. repeat split; auto; lia.
    + (* every probe ran, then the override step *)
      apply apply_override_returned in Hov
        as (_ & _ & Hre & _ & _ & Hov).
      assert (Hbucket : v_status result = (status_of_score (v_score result)).1
                        /\ v_reason result
                             = (status_of_score (v_score result)).2).
      { rewrite <- Hst. auto. }
      destruct Hbucket as [Hst1 Hre1].
      assert (Hconf : (v_confidence v == inject_Z (v_score v) / 100)%Q).
      { destruct (w_overrides w (length (events s')) !! domain_of email)
          as [override|].
        - destruct Hov as [_ Hov].
          destruct (ov_min_score override) as [min_score|].
          + destruct Hov as (floor & _ & _ & ->). reflexivity.
          + destruct Hov as [-> ->]. rewrite Hco. reflexivity.
        - subst v. rewrite Hco. reflexivity. }
      split; [exact Hconf|].
      exists d, s1. split; [exact Hdns|]. split; [exact Hd|].
      rewrite Hex. exists (v_score result).
      split; [lia|]. split; [congruence|].
      destruct (w_overrides w (length (events s')) !! domain_of email)
        as [override|].
      * destruct Hov as [Hst2 Hov]. split; [congruence|].
        destruct (ov_min_score override) as [min_score|].
        -- destruct Hov as (floor & Hfloor & Hscore & _). eauto.
        -- destruct Hov as [Hscore _]. exact Hscore.
      * subst v. auto.
Qed.

(** C3: the amended statement at work on a verification that ran every
    probe of the fast mode and ended with the override of its domain. *)
Lemma verdict_bounds_and_status_witness :
  let v := override_verdict in
  let email := "user@example.org" in
  (v_confidence v == inject_Z (v_score v) / 100)%Q /\
  if sx_valid (_check_syntax email) then
    exists d s1,
      _check_dns_health (domain_of email) world_override initial_state
        = (Returned d, s1) /\
      v_details v !! "dns_health" = Some (DDnsHealth d) /\
      if dns_domain_exists d then
        exists base,
          0 <= base <= 100 /\
          v_reason v = (status_of_score base).2 /\
          match w_overrides world_override (length (events override_state))
                  !! domain_of email with
          | None =>
              v_score v = base /\ v_status v = (status_of_score base).1
          | Some override =>
              v_status v = default (status_of_score base).1
                             (ov_force_status override) /\
              match ov_min_score override with
              | None => v_score v = base
              | Some min_score =>
                  exists floor,
                    int_value min_score = Some floor /\
                    v_score v = Z.max base floor
              end
          end
      else
        v_status v = "invalid" /\ v_reason v = "Domain does not exist" /\
        v_score v = 10 + dns_points d /\ 0 <= v_score v <= 100
  else
    v_status v = "invalid" /\ v_reason v = "Invalid email syntax" /\
    v_score v = 0.
Proof.
  apply (verdict_bounds_and_status verifier "user@example.org" true
           "balanced" true world_override initial_state
           override_verdict override_state).
  vm_compute. reflexivity.
Defined.

(** C4 (the code fails it). No exception of a probe is meant to reach the
    caller of [verify_email]. [_analyze_blocklist_behavior] calls
    [.lower()] on the ["error"] entry of the RCPT result, which is [None]
    after a 550 reply that names no unknown user: the [AttributeError]
    leaves [verify_email]. [_check_smtp_strictness] does the same in the
    full mode whenever the entry is [None], after an accepted RCPT TO for
    one. *)
Theorem none_error_escapes_verify_email :
  let attribute_error :=
    Exn AttributeError "'NoneType' object has no attribute 'lower'" in
  raised_by (verify_email verifier "user@example.org" true "balanced" true
               world_policy_reject initial_state) = Some attribute_error /\
  raised_by (_analyze_blocklist_behavior
               (rcpt_classify 550 "b'5.7.1 Service unavailable'" 2)
               open_connection world_policy_reject initial_state)
    = Some attribute_error /\
  raised_by (verify_email verifier "user@example.org" false "balanced" true
               world_accepted initial_state) = Some attribute_error /\
  raised_by (_check_smtp_strictness open_connection
               (rcpt_classify 250 "b'2.1.5 Ok'" 2)
               world_accepted initial_state) = Some attribute_error.
Proof. vm_compute. repeat split; reflexivity. Qed.



(** C6 (the code fails it). The DNS stage is meant to turn away a domain
    only if it neither resolves nor has an MX record, and an NXDOMAIN
    domain is meant to end with the 10 points of the syntax check. The
    code looks at [domain_exists] alone, which only an answered A lookup
    sets: a domain with MX records and no A record is turned away as
    "Domain does not exist" with score 48. And the [NXDOMAIN] handler is
    never entered, so the DNS timing points are added: a domain that does
    not exist and whose lookups are quick ends with 13. *)
Theorem dns_stage_reads_a_record_only :
  let mx_only :=
    verify_email verifier "user@example.org" true "balanced" true
      world_mx_without_a initial_state in
  let missing :=
    verify_email verifier "user@example-no-such-tld.invalid" true "balanced"
      true world_nxdomain initial_state in
  (dns_mx_present <$> dns_of mx_only) = Some true /\
  (dns_mx_hosts <$> dns_of mx_only) = Some ["mx.example.org"] /\
  verdict_of mx_only = Some ("invalid", 48) /\
  reason_of mx_only = Some "Domain does not exist" /\
  (dns_points <$> dns_of missing) = Some 3 /\
  verdict_of missing = Some ("invalid", 13).
Proof. vm_compute. repeat split; reflexivity. Qed.

(** C7, as stated, fails on the A-record fallback: for a domain with an A
    record and no MX record, [mx_hosts] is the domain itself while
    [mx_present] is false. *)
Lemma a_fallback_counterexample :
  let run := _check_dns_health "example.org" world_a_without_mx
               initial_state in
  (dns_mx_present <$> returned run) = Some false /\
  (dns_mx_hosts <$> returned run) = Some ["example.org"].
Proof. vm_compute. split; reflexivity. Qed.

(** C7 (amended). The DNS probe raises what [Resolver()] raises,
    before any lookup, and returns a result otherwise. Of a result:
    [mx_present] is true exactly when the MX lookup was answered, and
    [mx_hosts] is then the list of its exchanges without their final
    dots, which is not empty. When [mx_present] is false, [mx_hosts] is
    empty, except after an MX lookup that raised [NoAnswer] and a
    fallback A lookup that was answered: then [mx_hosts] is the
    one-element list of the domain (and [domain_exists] is true) while
    [mx_present] stays false. The MX lookup is the second request of the
    probe, the fallback A lookup the third. *)
Theorem mx_hosts_and_mx_present domain w s :
  match w_resolver w (length (events s)) with
  | Some e => _check_dns_health domain w s = (Raised e, s)
  | None =>
      exists d s',
        _check_dns_health domain w s = (Returned d, s') /\
        (dns_mx_present d = true -> dns_mx_hosts d <> []) /\
        match w_answer w _ (length (events s) + 1) (Resolve domain RD_MX) with
        | inr mx_records =>
            dns_mx_present d = true /\
            dns_mx_hosts d = map PyStr.rstrip_dot (records mx_records)
        | inl e =>
            dns_mx_present d = false /\
            if is_a e DnsNoAnswer then
              match w_answer w _ (length (events s) + 1 + 1)
                      (Resolve domain RD_A) with
              | inr _ =>
                  dns_mx_hosts d = [domain] /\ dns_domain_exists d = true
              | inl _ => dns_mx_hosts d = []
              end
            else dns_mx_hosts d = []
        end
  end.
Proof.
  destruct (w_resolver w (length (events s))) as [e|] eqn:Hres.
  { apply _check_dns_health_raises. exact Hres. }
  destruct (_check_dns_health_returns domain w s Hres) as (d & s' & Hrun).
  exists d, s'. split; [exact Hrun|].
  apply _check_dns_health_mx in Hrun as [_ Hmx]. split; [|exact Hmx].
  destruct (w_answer w _ _ (Resolve domain RD_MX)) as [e|mx_records].
  - destruct Hmx as [-> _]. discriminate.
  - destruct Hmx as [_ ->]. discriminate.
Qed.

(** C8 (the code fails it). An input outside the shape of an address is
    meant to end [verify_email] at the syntax check. The pattern ends
    with [$], which also matches before a newline that ends the string:
    an address followed by a newline is not of the shape, passes the
    check, and is verified like any other, with 34 requests in the fast
    mode, the first an A lookup of the domain with its newline, one of
    them RCPT TO for the input as it is; the verdict is [valid] with score
    100. *)
Theorem newline_passes_syntax_gate :
  let email := address_with_newline in
  let run := verify_email verifier email true "balanced" true
               world_accepted initial_state in
  ~ address_shape email /\
  sx_valid (_check_syntax email) = true /\
  verdict_of run = Some ("valid", 100) /\
  length (events run.2) = 34%nat /\
  events run.2 !! 0%nat
    = Some (ECall (Resolve ("example.org" ++ String Re.newline EmptyString)
                     RD_A)) /\
  events run.2 !! 15%nat = Some (ECall (SmtpRcpt email)).
Proof.
  split.
  - intros H. apply address_shape_fullmatch in H. vm_compute in H.
    discriminate H.
  - vm_compute. repeat split; reflexivity.
Qed.

(** C10 (the code fails it). With a mail server selected, in the full
    mode, an RCPT probe that never measured a response time is meant to
    cost 10 points at the latency step. When the server refuses MAIL
    FROM, the probe gives the dialogue up before RCPT TO and returns the
    result it started with: no response code, response time 0, and error
    [None]. The latency probe would take it for an instant reject, -10
    points; but [_check_smtp_strictness], which runs before it, calls
    [.lower()] on the error, and [verify_email] raises the
    [AttributeError] instead of returning a result. (When the dialogue
    fails with an exception the error is a text, and the latency step is
    reached: the server that stops answering after MAIL FROM gets the
    instant reject in its result.) *)
Theorem refused_mail_from_never_reaches_latency_step :
  let email := "user@example.org" in
  let w := world_mail_refused in
  let conn :=
    returned_or skipped_connection
      (_check_smtp_connection "example.org" ["mx.example.org"] false w
         initial_state) in
  let rcpt :=
    returned_or skipped_rcpt
      (_check_smtp_rcpt verifier email "example.org" ["mx.example.org"] conn
         false w initial_state) in
  sc_mx_used conn = Some "mx.example.org" /\
  rcpt = rcpt_initial /\
  rc_response_code rcpt = None /\
  t_response_time_sec (rc_timing rcpt) = 0%Q /\
  rc_error rcpt = None /\
  _analyze_connection_latency conn rcpt = instant_reject /\
  lat_points instant_reject = -10 /\
  raised_by (_check_smtp_strictness conn rcpt w initial_state)
    = Some attribute_error /\
  raised_by (verify_email verifier email false "balanced" true w
               initial_state) = Some attribute_error /\
  v_details rcpt_timeout_verdict !! "latency_fingerprint"
    = Some (DLatencyFingerprint instant_reject).
Proof. vm_compute. repeat split; reflexivity. Qed.
